(** * train_nn.py: the checkpointed training-and-evaluation loop

    A shallow embedding of [bnns/experiments/train_nn.py] and the properties
    of its command line block, checkpoint list, stochasticity probe,
    training loops, diagnostic recorder, metrics dispatch and persistence.

    Conventions.
    - Python scalars that are floats in the script (losses, tolerances,
      metric values) are rationals [Q]; tensors are flat lists of them.
    - Python integers are [Z].
    - An exception is a value of [exn]; a statement that may raise returns
      an [outcome] together with the state reached when it was raised.
    - Collaborators that live outside the script (the network, the loss,
      the optimizer, the metrics library, the file name helpers) are
      fields of the class [Collaborators]. *)

From Stdlib Require Import ZArith QArith Qabs List String Ascii Bool Lia.
From stdpp Require Import base gmap strings list.
Import ListNotations.

Local Open Scope string_scope.
Local Open Scope Z_scope.

(** ** Python values and the few built-ins the script relies on *)

Module Py.

Inductive exn : Type :=
| AssertionError
| TypeError
| AttributeError
| NameError
| ZeroDivisionError
| StatisticsError
| StopIteration
| SystemExit (code : Z)
| ArgumentError
| OtherError (msg : string).

Definition is_AttributeError (e : exn) : bool :=
  match e with AttributeError => true | _ => false end.

Definition is_NameError (e : exn) : bool :=
  match e with NameError => true | _ => false end.

Definition is_TypeError (e : exn) : bool :=
  match e with TypeError => true | _ => false end.

Inductive result (A : Type) : Type :=
| Ok (a : A)
| Raise (e : exn).
Arguments Ok {A} a.
Arguments Raise {A} e.

(** What [json_to_dict] can put in the hyperparameter dictionary. *)
#[local] Unset Elimination Schemes.
Inductive pyval : Type :=
| PNone
| PBool (b : bool)
| PInt (z : Z)
| PFloat (q : Q)
| PStr (s : string)
| PList (l : list pyval)
| PDict (kv : list (string * pyval)).
#[local] Set Elimination Schemes.

(** [isinstance(v, int)]: [bool] is a subclass of [int]. *)
Definition isinstance_int (v : pyval) : bool :=
  match v with
  | PInt _ | PBool _ => true
  | _ => false
  end.

(** The integer an int-like value denotes in arithmetic. *)
Definition int_value (v : pyval) : Z :=
  match v with
  | PInt z => z
  | PBool true => 1
  | _ => 0
  end.

(** [list(v)]: iterables are unpacked, anything else is a [TypeError]. *)
Definition py_list (v : pyval) : result (list pyval) :=
  match v with
  | PList l => Ok l
  | PStr s => Ok (map (fun c => PStr (String c EmptyString)) (list_ascii_of_string s))
  | PDict kv => Ok (map (fun p => PStr (fst p)) kv)
  | PNone | PBool _ | PInt _ | PFloat _ => Raise TypeError
  end.

(** [a % b] on integers; Python's remainder has the sign of the divisor,
    as [Z.modulo] has. *)
Definition py_mod (a b : Z) : result Z :=
  if b =? 0 then Raise ZeroDivisionError else Ok (a mod b).

(** [len(range(k))]. *)
Definition range_len (k : Z) : nat := Z.to_nat k.

(** [l[-k:]] for an integer [k]: the start index [-k] is taken from the
    end when negative and clamped to [0 .. len(l)]. *)
Definition slice_from_neg {A : Type} (l : list A) (k : Z) : list A :=
  let len := Z.of_nat (List.length l) in
  let start := - k in
  let start := if start <? 0 then Z.max 0 (start + len) else Z.min start len in
  skipn (Z.to_nat start) l.

Definition Qsum (l : list Q) : Q := fold_right Qplus 0%Q l.

(** [statistics.mean]. *)
Definition avg (l : list Q) : result Q :=
  match l with
  | [] => Raise StatisticsError
  | _ => Ok (Qsum l / inject_Z (Z.of_nat (List.length l)))%Q
  end.

Definition Qltb (x y : Q) : bool := negb (Qle_bool y x).


(** [s.startswith(p)]. *)
Definition startswith (s p : string) : bool := String.prefix p s.

End Py.
Export Py.

(** ** The command line block (lines 77-103) *)

Module Cli.






Record namespace : Type := mkNamespace {
  ns_json : option string;
  ns_model_save_dir : option string;
  ns_final_test : option bool;
  ns_overwrite_json : option bool
}.





(** What the block leaves in the global namespace. *)
Record cli : Type := mkCli {
  input_json_filename : string;
  model_save_dir : option string;
  final_test : bool;
  overwrite_json : bool
}.



End Cli.

(** ** EarlyStopper *)

Module EarlyStopperSpec.

(** Modelled from the spec: the class [EarlyStopper] of [bnns.utils] is
    imported by the script and its source is not part of it.  The state
    is the best value so far ([None] is the initial +infinity, below
    which every first value falls), the patience counter and the two
    constructor arguments. *)
Record EarlyStopper : Type := mkEarlyStopper {
  delta : Q;
  patience : Z;
  best : option Q;
  counter : Z
}.

(** Modelled from the spec: [EarlyStopper(delta=..., patience=...)], with
    [best] at +infinity and [counter] at 0 (section 4.1). *)
Definition init (delta : Q) (patience : Z) : EarlyStopper :=
  mkEarlyStopper delta patience None 0.

(** Modelled from the spec: the test [value < best - delta] of section
    4.1; every value is below +infinity. *)
Definition improves (s : EarlyStopper) (value : Q) : bool :=
  match best s with
  | None => true
  | Some b => Qltb value (b - delta s)%Q
  end.

(** Modelled from the spec: one call [stopper(value)], section 4.1. *)
Definition call (s : EarlyStopper) (value : Q) : bool * EarlyStopper :=
  if improves s value then
    (false, mkEarlyStopper (delta s) (patience s) (Some value) 0)
  else
    let c := counter s + 1 in
    (patience s <=? c, mkEarlyStopper (delta s) (patience s) (best s) c).



End EarlyStopperSpec.

(** ** The script from the stochasticity probe to the end of the
    checkpoint loop (lines 153-353) *)

Module TrainNN.
Import Cli.

Abbreviation Tensor := (list Q).

(** What [predict] returns: one forward pass, or a stack of them. *)
Inductive prediction : Type :=
| Point (t : Tensor)
| Samples (ts : list Tensor).

(** What an attribute of the data module can hold: a tensor, or an
    object without a [.to] method. *)
Inductive pygrid : Type :=
| GTensor (t : Tensor)
| GOther.

(** The interfaces the script is written against.  [forward] is
    [NN(points)]: it reads the weights and may draw from the random
    generator.  [gradient_step] is [loss.backward(); optimizer.step();
    optimizer.zero_grad()] for the loss of one batch, computed from the
    given generator state on the Monte-Carlo path ([true], with the number
    of samples) or the plain one.  The metrics are those of
    [bnns.metrics], used as black boxes; [clock] and
    [generate_json_filename] are read at the given position of the log. *)
Class Collaborators : Type := {
  Params : Type;
  Rng : Type;
  Stopper : Type;
  (* the model module and torch *)
  forward : Params -> Rng -> Tensor -> Tensor * Rng;
  loss_fn : Tensor -> Tensor -> Q;
  gradient_step : Params -> Rng -> bool -> Z -> Tensor -> Tensor -> Params;
  to_device : Tensor -> result Tensor;
  (* bnns.utils *)
  EarlyStopper : Q -> Z -> Stopper;
  stopper_call : Stopper -> Q -> bool * Stopper;
  plot_nn : bool -> Params -> Rng -> Tensor -> Rng;
  generate_json_filename : nat -> string;
  (* bnns.metrics *)
  rmse_of_median : prediction -> Tensor -> Q;
  rmse_of_mean : prediction -> Tensor -> Q;
  mae_of_median : prediction -> Tensor -> Q;
  mae_of_mean : prediction -> Tensor -> Q;
  max_norm_of_median : prediction -> Tensor -> Q;
  max_norm_of_mean : prediction -> Tensor -> Q;
  median_energy_score : prediction -> Tensor -> Q;
  aggregate_covarge : prediction -> Tensor -> bool -> Q;
  median_avg_interval_score : prediction -> Tensor -> bool -> Q;
  uncertainty_vs_accuracy : prediction -> Tensor -> bool -> bool -> bool -> bool -> Q * Q;
  uncertainty_vs_proximity : prediction -> bool -> Tensor -> Tensor -> bool -> string -> bool -> Q * Q;
  uncertainty_spread : prediction -> bool -> Q;
  rmse : Params -> Rng -> Tensor -> Tensor -> Q * Rng;
  mae : Params -> Rng -> Tensor -> Tensor -> Q * Rng;
  max_norm : Params -> Rng -> Tensor -> Tensor -> Q * Rng;
  (* quality_of_life, os, time *)
  process_for_saving : string -> string;
  model_path : string -> string -> string;
  clock : nat -> Q
}.

(** The data module, after the datasets are converted to tensors.
    [probe_batch] is the first batch of ten of [D_train] (absent when the
    dataset is empty), [dataloader] its batches of [BATCH_SIZE], in the
    order every epoch visits them. *)
Record data_module : Type := mkData {
  dataloader : list (Tensor * Tensor);
  probe_batch : option Tensor;
  x_train : Tensor;
  x_test : Tensor;
  y_test : Tensor;
  data_is_univariate : bool;
  data_grid : option Tensor;
  data_interpolary_grid : option pygrid;
  data_extrapolary_grid : option pygrid
}.

(** The hyperparameters the modelled lines read from the global
    namespace. *)
Record config : Type := mkConfig {
  N_EPOCHS : pyval;
  EARLY_STOPPING : bool;
  DELTA : Q;
  PATIENCE : Z;
  STRIDE : Z;
  N_MC_SAMPLES : Z;
  MAKE_GIF : bool;
  HOW_OFTEN : Z;
  INITIAL_FRAME_REPETITIONS : Z;
  VISUALIZE_DISTRIBUTION_USING_QUANTILES : bool;
  N_POSTERIOR_SAMPLES_EVALUATION : Z;
  SHOW_DIAGNOSTICS : bool
}.

(** The globals that are assigned once and only read afterwards. *)
Record env : Type := mkEnv {
  cfg : config;
  data : data_module;
  args : cli;
  dropout : bool
}.

(** The log.  [mc] tells which of the two code paths ran: [true] for the
    Monte-Carlo one. *)
Inductive event : Type :=
| EvProbe (flag : bool)
| EvEpoch (n_epochs : Z) (e : nat)
| EvTrainStep (mc : bool)
| EvTick (n : Z)
| EvStopper (value : Q) (stop : bool)
| EvPredict (mc : bool)
| EvWarnGrids
| EvMetrics (n_epochs : Z) (mc : bool)
| EvWarnDemo
| EvRemove (filename : string)
| EvSaveModel (path : string)
| EvSaveJson (filename : string) (record : gmap string pyval)
| EvPrint.

Record state `{Collaborators} : Type := mkState {
  nn : Params;   (* the network's weights together with the optimizer's state *)
  rng : Rng;   (* torch's random generator *)
  pbar_n : Z;   (* [pbar.n], the progress bar's counter *)
  train_loss_curve : list Q;
  val_loss_curve : list Q;
  last_checkpoint : Z;
  first_round : bool;
  decided_to_stop_early : bool;
  early_stopper : option Stopper;   (* unbound unless [EARLY_STOPPING] *)
  hyperparameters : gmap string pyval;
  predictions : option prediction;
  interpolary_grid : option Tensor;   (* unbound until line 278 succeeds *)
  extrapolary_grid : option Tensor;
  predictions_on_interpolary_grid : option prediction;
  predictions_on_extrapolary_grid : option prediction;
  gif_frames : nat;   (* [len(gif.frames)] *)
  log : list event   (* ghost: what ran, oldest first; the script never reads it *)
}.
Arguments mkState {_}.

(** Assignments to one global, the others unchanged. *)
Definition set_nn `{Collaborators} (v : Params) (st : state) : state :=
  mkState v (rng st) (pbar_n st) (train_loss_curve st) (val_loss_curve st) (last_checkpoint st) (first_round st) (decided_to_stop_early st) (early_stopper st) (hyperparameters st) (predictions st) (interpolary_grid st) (extrapolary_grid st) (predictions_on_interpolary_grid st) (predictions_on_extrapolary_grid st) (gif_frames st) (log st).

Definition set_rng `{Collaborators} (v : Rng) (st : state) : state :=
  mkState (nn st) v (pbar_n st) (train_loss_curve st) (val_loss_curve st) (last_checkpoint st) (first_round st) (decided_to_stop_early st) (early_stopper st) (hyperparameters st) (predictions st) (interpolary_grid st) (extrapolary_grid st) (predictions_on_interpolary_grid st) (predictions_on_extrapolary_grid st) (gif_frames st) (log st).

Definition set_pbar_n `{Collaborators} (v : Z) (st : state) : state :=
  mkState (nn st) (rng st) v (train_loss_curve st) (val_loss_curve st) (last_checkpoint st) (first_round st) (decided_to_stop_early st) (early_stopper st) (hyperparameters st) (predictions st) (interpolary_grid st) (extrapolary_grid st) (predictions_on_interpolary_grid st) (predictions_on_extrapolary_grid st) (gif_frames st) (log st).

Definition set_train_loss_curve `{Collaborators} (v : list Q) (st : state) : state :=
  mkState (nn st) (rng st) (pbar_n st) v (val_loss_curve st) (last_checkpoint st) (first_round st) (decided_to_stop_early st) (early_stopper st) (hyperparameters st) (predictions st) (interpolary_grid st) (extrapolary_grid st) (predictions_on_interpolary_grid st) (predictions_on_extrapolary_grid st) (gif_frames st) (log st).

Definition set_val_loss_curve `{Collaborators} (v : list Q) (st : state) : state :=
  mkState (nn st) (rng st) (pbar_n st) (train_loss_curve st) v (last_checkpoint st) (first_round st) (decided_to_stop_early st) (early_stopper st) (hyperparameters st) (predictions st) (interpolary_grid st) (extrapolary_grid st) (predictions_on_interpolary_grid st) (predictions_on_extrapolary_grid st) (gif_frames st) (log st).

Definition set_last_checkpoint `{Collaborators} (v : Z) (st : state) : state :=
  mkState (nn st) (rng st) (pbar_n st) (train_loss_curve st) (val_loss_curve st) v (first_round st) (decided_to_stop_early st) (early_stopper st) (hyperparameters st) (predictions st) (interpolary_grid st) (extrapolary_grid st) (predictions_on_interpolary_grid st) (predictions_on_extrapolary_grid st) (gif_frames st) (log st).

Definition set_first_round `{Collaborators} (v : bool) (st : state) : state :=
  mkState (nn st) (rng st) (pbar_n st) (train_loss_curve st) (val_loss_curve st) (last_checkpoint st) v (decided_to_stop_early st) (early_stopper st) (hyperparameters st) (predictions st) (interpolary_grid st) (extrapolary_grid st) (predictions_on_interpolary_grid st) (predictions_on_extrapolary_grid st) (gif_frames st) (log st).

Definition set_decided_to_stop_early `{Collaborators} (v : bool) (st : state) : state :=
  mkState (nn st) (rng st) (pbar_n st) (train_loss_curve st) (val_loss_curve st) (last_checkpoint st) (first_round st) v (early_stopper st) (hyperparameters st) (predictions st) (interpolary_grid st) (extrapolary_grid st) (predictions_on_interpolary_grid st) (predictions_on_extrapolary_grid st) (gif_frames st) (log st).

Definition set_early_stopper `{Collaborators} (v : option Stopper) (st : state) : state :=
  mkState (nn st) (rng st) (pbar_n st) (train_loss_curve st) (val_loss_curve st) (last_checkpoint st) (first_round st) (decided_to_stop_early st) v (hyperparameters st) (predictions st) (interpolary_grid st) (extrapolary_grid st) (predictions_on_interpolary_grid st) (predictions_on_extrapolary_grid st) (gif_frames st) (log st).

Definition set_hyperparameters `{Collaborators} (v : gmap string pyval) (st : state) : state :=
  mkState (nn st) (rng st) (pbar_n st) (train_loss_curve st) (val_loss_curve st) (last_checkpoint st) (first_round st) (decided_to_stop_early st) (early_stopper st) v (predictions st) (interpolary_grid st) (extrapolary_grid st) (predictions_on_interpolary_grid st) (predictions_on_extrapolary_grid st) (gif_frames st) (log st).

Definition set_predictions `{Collaborators} (v : option prediction) (st : state) : state :=
  mkState (nn st) (rng st) (pbar_n st) (train_loss_curve st) (val_loss_curve st) (last_checkpoint st) (first_round st) (decided_to_stop_early st) (early_stopper st) (hyperparameters st) v (interpolary_grid st) (extrapolary_grid st) (predictions_on_interpolary_grid st) (predictions_on_extrapolary_grid st) (gif_frames st) (log st).

Definition set_interpolary_grid `{Collaborators} (v : option Tensor) (st : state) : state :=
  mkState (nn st) (rng st) (pbar_n st) (train_loss_curve st) (val_loss_curve st) (last_checkpoint st) (first_round st) (decided_to_stop_early st) (early_stopper st) (hyperparameters st) (predictions st) v (extrapolary_grid st) (predictions_on_interpolary_grid st) (predictions_on_extrapolary_grid st) (gif_frames st) (log st).

Definition set_extrapolary_grid `{Collaborators} (v : option Tensor) (st : state) : state :=
  mkState (nn st) (rng st) (pbar_n st) (train_loss_curve st) (val_loss_curve st) (last_checkpoint st) (first_round st) (decided_to_stop_early st) (early_stopper st) (hyperparameters st) (predictions st) (interpolary_grid st) v (predictions_on_interpolary_grid st) (predictions_on_extrapolary_grid st) (gif_frames st) (log st).

Definition set_predictions_on_interpolary_grid `{Collaborators} (v : option prediction) (st : state) : state :=
  mkState (nn st) (rng st) (pbar_n st) (train_loss_curve st) (val_loss_curve st) (last_checkpoint st) (first_round st) (decided_to_stop_early st) (early_stopper st) (hyperparameters st) (predictions st) (interpolary_grid st) (extrapolary_grid st) v (predictions_on_extrapolary_grid st) (gif_frames st) (log st).

Definition set_predictions_on_extrapolary_grid `{Collaborators} (v : option prediction) (st : state) : state :=
  mkState (nn st) (rng st) (pbar_n st) (train_loss_curve st) (val_loss_curve st) (last_checkpoint st) (first_round st) (decided_to_stop_early st) (early_stopper st) (hyperparameters st) (predictions st) (interpolary_grid st) (extrapolary_grid st) (predictions_on_interpolary_grid st) v (gif_frames st) (log st).

Definition set_gif_frames `{Collaborators} (v : nat) (st : state) : state :=
  mkState (nn st) (rng st) (pbar_n st) (train_loss_curve st) (val_loss_curve st) (last_checkpoint st) (first_round st) (decided_to_stop_early st) (early_stopper st) (hyperparameters st) (predictions st) (interpolary_grid st) (extrapolary_grid st) (predictions_on_interpolary_grid st) (predictions_on_extrapolary_grid st) v (log st).

Definition set_log `{Collaborators} (v : list event) (st : state) : state :=
  mkState (nn st) (rng st) (pbar_n st) (train_loss_curve st) (val_loss_curve st) (last_checkpoint st) (first_round st) (decided_to_stop_early st) (early_stopper st) (hyperparameters st) (predictions st) (interpolary_grid st) (extrapolary_grid st) (predictions_on_interpolary_grid st) (predictions_on_extrapolary_grid st) (gif_frames st) v.

(** *** Statements: state passing with exceptions *)

Inductive outcome (A : Type) : Type :=
| Normal (a : A)
| Raised (e : exn).
Arguments Normal {A} a.
Arguments Raised {A} e.

Definition M `{Collaborators} (A : Type) : Type := state -> outcome A * state.

Definition ret `{Collaborators} {A : Type} (a : A) : M A :=
  fun st => (Normal a, st).

Definition bind `{Collaborators} {A B : Type} (m : M A) (k : A -> M B) : M B :=
  fun st =>
    match m st with
    | (Normal a, st') => k a st'
    | (Raised e, st') => (Raised e, st')
    end.

Notation "x <- m ;; k" := (bind m (fun x => k))
  (at level 100, m at next level, right associativity,
   format "'[v' x  <-  m  ;;  '/' k ']'").
Notation "m ;;; k" := (bind m (fun _ => k))
  (at level 100, right associativity,
   format "'[v' m  ;;;  '/' k ']'").

Definition raise `{Collaborators} {A : Type} (e : exn) : M A :=
  fun st => (Raised e, st).

Definition get `{Collaborators} : M state :=
  fun st => (Normal st, st).

Definition modify `{Collaborators} (f : state -> state) : M unit :=
  fun st => (Normal tt, f st).

Definition emit `{Collaborators} (ev : event) : M unit :=
  modify (fun st => set_log (log st ++ [ev]) st).

Definition lift `{Collaborators} {A : Type} (r : result A) : M A :=
  match r with
  | Ok a => ret a
  | Raise e => raise e
  end.

(** [try: m except <caught>: handler] followed by [except: raise]; what
    [m] did before raising stays done. *)
Definition try_except `{Collaborators} {A : Type}
    (m : M A) (caught : exn -> bool) (handler : M A) : M A :=
  fun st =>
    match m st with
    | (Normal a, st') => (Normal a, st')
    | (Raised e, st') => if caught e then handler st' else (Raised e, st')
    end.

(** [for x in l: body(x)]. *)
Fixpoint for_each `{Collaborators} {A : Type} (body : A -> M unit) (l : list A) : M unit :=
  match l with
  | [] => ret tt
  | x :: rest => body x ;;; for_each body rest
  end.

(** [for x in l: body(x)] where the body answers whether it reached
    [break]. *)
Fixpoint for_each_break `{Collaborators} {A : Type} (body : A -> M bool) (l : list A) : M unit :=
  match l with
  | [] => ret tt
  | x :: rest =>
      stop <- body x ;;
      if (stop : bool) then ret tt else for_each_break body rest
  end.

(** *** Lines 153-157: is the forward pass stochastic? *)

(** [a - b] on tensors of one shape. *)
Fixpoint tensor_sub (a b : Tensor) : result Tensor :=
  match a, b with
  | [], [] => Ok []
  | x :: a', y :: b' =>
      match tensor_sub a' b' with
      | Ok d => Ok ((x - y)%Q :: d)
      | Raise e => Raise e
      end
  | _, _ => Raise (OtherError "The size of tensor a must match the size of tensor b")
  end.

(** [(t.abs().mean() > 0).item()]; the mean of an empty tensor is [nan],
    which is not greater than zero. *)
Definition abs_mean_positive (t : Tensor) : bool :=
  match avg (map Qabs t) with
  | Ok m => Qltb 0 m
  | Raise _ => false
  end.

Definition probe `{Collaborators} (d : data_module) : M bool :=
  match probe_batch d with
  | None => raise StopIteration
  | Some X =>
      st <- get ;;
      let '(out1, r1) := forward (nn st) (rng st) X in
      let '(out2, r2) := forward (nn st) r1 X in
      modify (set_rng r2) ;;;
      difference <- lift (tensor_sub out1 out2) ;;
      let flag := abs_mean_positive difference in
      emit (EvProbe flag) ;;;
      ret flag
  end.

(** *** Lines 177-198: the state of the model upon initialization *)

(** [plot_nn(fig, ax, grid, ...)]; [grid] is bound only when the data
    module has one (lines 137-140). *)
Definition plot `{Collaborators} (E : env) : M unit :=
  match data_grid (data E) with
  | None => raise NameError
  | Some g => modify (fun st => set_rng (plot_nn (dropout E) (nn st) (rng st) g) st)
  end.

Definition capture `{Collaborators} (k : nat) : M unit :=
  modify (fun st => set_gif_frames (gif_frames st + k)%nat st).

Definition initial_frames `{Collaborators} (E : env) : M unit :=
  if data_is_univariate (data E) && MAKE_GIF (cfg E) then
    plot E ;;;
    capture (range_len (INITIAL_FRAME_REPETITIONS (cfg E)))
  else ret tt.

(** *** Lines 202-212: the checkpoint list *)

Definition normalize (n_epochs : pyval) : result (list pyval) :=
  match py_list n_epochs with
  | Ok l => Ok l
  | Raise e => if is_TypeError e then Ok [n_epochs] else Raise e
  end.

Fixpoint validate (checkpoints : list pyval) : result unit :=
  match checkpoints with
  | [] => Ok tt
  | n_epochs :: rest =>
      if negb (isinstance_int n_epochs) then Raise AssertionError
      else if negb (0 <=? int_value n_epochs) then Raise AssertionError
      else validate rest
  end.

(** What the two assertions of lines 211-212 accept. *)
Definition is_checkpoint (n_epochs : pyval) : bool :=
  isinstance_int n_epochs && (0 <=? int_value n_epochs).

Definition CHECKPOINTS (n_epochs : pyval) : result (list pyval) :=
  match normalize n_epochs with
  | Ok l => match validate l with Ok _ => Ok l | Raise e => Raise e end
  | Raise e => Raise e
  end.

(** *** Lines 237-264: one mini-batch *)

(** Lines 240-242: [loss += loss_fn(NN(X),y)/N_MC_SAMPLES], [k] times. *)
Fixpoint mc_loss `{Collaborators} (k : nat) (p : Params) (r : Rng) (X y : Tensor)
    (n : Z) (loss : Q) : Q * Rng :=
  match k with
  | O => (loss, r)
  | S k' =>
      let '(out, r') := forward p r X in
      mc_loss k' p r' X y n (loss + loss_fn out y / inject_Z n)%Q
  end.

(** Lines 251-264, the diagnostic block; answers whether [break] was
    reached. *)
Definition diagnostic `{Collaborators} (E : env) (loss : Q) : M bool :=
  st <- get ;;
  emit (EvTick (pbar_n st)) ;;;
  (if data_is_univariate (data E) && MAKE_GIF (cfg E)
   then plot E ;;; capture 1
   else ret tt) ;;;
  modify (fun st => set_train_loss_curve (train_loss_curve st ++ [loss]) st) ;;;
  st <- get ;;
  let '(out, r') := forward (nn st) (rng st) (x_test (data E)) in
  modify (fun st => set_val_loss_curve (val_loss_curve st ++ [loss_fn out (y_test (data E))])
                      (set_rng r' st)) ;;;
  if EARLY_STOPPING (cfg E) then
    st <- get ;;
    value <- lift (avg (slice_from_neg (val_loss_curve st) (STRIDE (cfg E)))) ;;
    match early_stopper st with
    | None => raise NameError
    | Some s =>
        let '(stop, s') := stopper_call s value in
        modify (fun st => set_decided_to_stop_early stop (set_early_stopper (Some s') st)) ;;;
        emit (EvStopper value stop) ;;;
        ret stop
    end
  else ret false.

(** Lines 238-264; answers whether [break] was reached.  On the
    Monte-Carlo path with no sample the loss stays the float [0.], which
    has no [backward]. *)
Definition batch_step `{Collaborators} (E : env) (b : Tensor * Tensor) : M bool :=
  let '(X, y) := b in
  st <- get ;;
  let n := N_MC_SAMPLES (cfg E) in
  let '(loss, r') :=
    if dropout E then mc_loss (range_len n) (nn st) (rng st) X y n 0%Q
    else let '(out, r') := forward (nn st) (rng st) X in (loss_fn out y, r') in
  (if dropout E && (n <=? 0) then raise AttributeError else ret tt) ;;;
  modify (fun st' => set_nn (gradient_step (nn st) (rng st) (dropout E) n X y) (set_rng r' st')) ;;;
  emit (EvTrainStep (dropout E)) ;;;
  modify (fun st => set_pbar_n (pbar_n st + 1) st) ;;;
  st <- get ;;
  r <- lift (py_mod (pbar_n st + 1) (HOW_OFTEN (cfg E))) ;;
  if r =? 0 then diagnostic E loss else ret false.

(** *** Lines 226-266: training up to one checkpoint *)

(** Lines 228-264, one iteration of [for e in range(...)]. *)
Definition epoch_body `{Collaborators} (E : env) (n_epochs : Z) (e : nat) : M unit :=
  emit (EvEpoch n_epochs e) ;;;
  st <- get ;;
  if decided_to_stop_early st then ret tt
  else for_each_break (batch_step E) (dataloader (data E)).

(** Lines 227-266; [tqdm(..., initial=last_checkpoint)] starts the
    counter of the new progress bar at [last_checkpoint]. *)
Definition train_block `{Collaborators} (E : env) (n_epochs : Z) : M unit :=
  st <- get ;;
  modify (set_pbar_n (last_checkpoint st)) ;;;
  for_each (epoch_body E n_epochs) (seq 0 (range_len (n_epochs - last_checkpoint st))) ;;;
  modify (set_last_checkpoint n_epochs).

(** *** Lines 273-285: predictions at a checkpoint *)

(** [[NN(points) for _ in range(k)]]. *)
Fixpoint stack_forward `{Collaborators} (k : nat) (p : Params) (r : Rng) (points : Tensor)
    : list Tensor * Rng :=
  match k with
  | O => ([], r)
  | S k' =>
      let '(t, r1) := forward p r points in
      let '(ts, r2) := stack_forward k' p r1 points in
      (t :: ts, r2)
  end.

(** Line 274, the lambda [predict]; [torch.stack] refuses an empty list. *)
Definition predict `{Collaborators} (E : env) (points : Tensor) : M prediction :=
  st <- get ;;
  emit (EvPredict (dropout E)) ;;;
  if dropout E then
    let '(ts, r') :=
      stack_forward (range_len (N_POSTERIOR_SAMPLES_EVALUATION (cfg E))) (nn st) (rng st) points in
    modify (set_rng r') ;;;
    match ts with
    | [] => raise (OtherError "stack expects a non-empty TensorList")
    | _ => ret (Samples ts)
    end
  else
    let '(t, r') := forward (nn st) (rng st) points in
    modify (set_rng r') ;;;
    ret (Point t).

(** [data.<grid>.to( device=DEVICE, dtype=DTYPE )]. *)
Definition grid_to `{Collaborators} (attribute : option pygrid) : M Tensor :=
  match attribute with
  | None => raise AttributeError
  | Some GOther => raise AttributeError
  | Some (GTensor t) => lift (to_device t)
  end.

(** Lines 278-281, the body of the [try]. *)
Definition grid_predictions `{Collaborators} (E : env) : M unit :=
  g <- grid_to (data_interpolary_grid (data E)) ;;
  modify (set_interpolary_grid (Some g)) ;;;
  g' <- grid_to (data_extrapolary_grid (data E)) ;;
  modify (set_extrapolary_grid (Some g')) ;;;
  p <- predict E g ;;
  modify (set_predictions_on_interpolary_grid (Some p)) ;;;
  p' <- predict E g' ;;
  modify (set_predictions_on_extrapolary_grid (Some p')).

(** Lines 277-285. *)
Definition grid_block `{Collaborators} (E : env) : M unit :=
  try_except (grid_predictions E) is_AttributeError (emit EvWarnGrids).

(** *** Lines 288-318: the metrics *)

(** [hyperparameters[key] = v]. *)
Definition assign `{Collaborators} (key : string) (v : pyval) : M unit :=
  modify (fun st => set_hyperparameters (<[key := v]> (hyperparameters st)) st).

(** Reading a global that may be unbound. *)
Definition name `{Collaborators} {A : Type} (binding : state -> option A) : M A :=
  st <- get ;;
  match binding st with
  | Some a => ret a
  | None => raise NameError
  end.

Definition tag_of (use_quantiles : bool) : string :=
  if use_quantiles then "quantile" else "pm2_std".

(** Lines 307-310, the body of the inner [try]. *)
Definition grid_metrics `{Collaborators} (E : env) (use_quantiles show : bool) : M unit :=
  let tag := tag_of use_quantiles in
  let verbose := SHOW_DIAGNOSTICS (cfg E) in
  pe <- name predictions_on_extrapolary_grid ;;
  ge <- name extrapolary_grid ;;
  let '(slope, cor) :=
    uncertainty_vs_proximity pe use_quantiles ge (x_train (data E)) show
      "Uncertainty vs Proximity to Data Outside the Region of Interpolation" verbose in
  assign ("METRIC_extrapolation_uncertainty_vs_proximity_slope_" ++ tag) (PFloat slope) ;;;
  assign ("METRIC_uncertainty_vs_proximity_cor_" ++ tag) (PFloat cor) ;;;
  pi <- name predictions_on_interpolary_grid ;;
  gi <- name interpolary_grid ;;
  let '(slope, cor) :=
    uncertainty_vs_proximity pi use_quantiles gi (x_train (data E)) show
      "Uncertainty vs Proximity to Data Within the Region of Interpolation" verbose in
  assign ("METRIC_interpolation_uncertainty_vs_proximity_slope_" ++ tag) (PFloat slope) ;;;
  assign ("METRIC_uncertainty_vs_proximity_cor_" ++ tag) (PFloat cor) ;;;
  pe <- name predictions_on_extrapolary_grid ;;
  assign ("METRIC_extrapolation_uncertainty_spread_" ++ tag)
         (PFloat (uncertainty_spread pe use_quantiles)) ;;;
  pi <- name predictions_on_interpolary_grid ;;
  assign ("METRIC_interpolation_uncertainty_spread_" ++ tag)
         (PFloat (uncertainty_spread pi use_quantiles)).

(** Lines 303-314, one iteration of [for use_quantiles in (True,False)]. *)
Definition uncertainty_metrics `{Collaborators} (E : env) (use_quantiles : bool) : M unit :=
  let q := VISUALIZE_DISTRIBUTION_USING_QUANTILES (cfg E) in
  let show := SHOW_DIAGNOSTICS (cfg E) && Bool.eqb use_quantiles q in
  let tag := tag_of use_quantiles in
  p <- name predictions ;;
  let '(slope, cor) :=
    uncertainty_vs_accuracy p (y_test (data E)) q use_quantiles show (SHOW_DIAGNOSTICS (cfg E)) in
  assign ("METRIC_uncertainty_vs_accuracy_slope_" ++ tag) (PFloat slope) ;;;
  assign ("METRIC_uncertainty_vs_accuracy_cor_" ++ tag) (PFloat cor) ;;;
  try_except (grid_metrics E use_quantiles show) is_NameError (ret tt).

(** Lines 293-301. *)
Definition distributional_metrics `{Collaborators} (E : env) : M unit :=
  let q := VISUALIZE_DISTRIBUTION_USING_QUANTILES (cfg E) in
  let y := y_test (data E) in
  p <- name predictions ;;
  assign "METRIC_rmse_of_median" (PFloat (rmse_of_median p y)) ;;;
  assign "METRIC_rmse_of_mean" (PFloat (rmse_of_mean p y)) ;;;
  assign "METRIC_mae_of_median" (PFloat (mae_of_median p y)) ;;;
  assign "METRIC_mae_of_mean" (PFloat (mae_of_mean p y)) ;;;
  assign "METRIC_max_norm_of_median" (PFloat (max_norm_of_median p y)) ;;;
  assign "METRIC_max_norm_of_mean" (PFloat (max_norm_of_mean p y)) ;;;
  assign "METRIC_median_energy_score" (PFloat (median_energy_score p y)) ;;;
  assign "METRIC_coverage" (PFloat (aggregate_covarge p y q)) ;;;
  assign "METRIC_median_avg_inverval_score" (PFloat (median_avg_interval_score p y q)).

(** Lines 316-318. *)
Definition point_metrics `{Collaborators} (E : env) : M unit :=
  st <- get ;;
  let '(v, r) := rmse (nn st) (rng st) (x_test (data E)) (y_test (data E)) in
  modify (set_rng r) ;;;
  assign "METRIC_rmse" (PFloat v) ;;;
  st <- get ;;
  let '(v, r) := mae (nn st) (rng st) (x_test (data E)) (y_test (data E)) in
  modify (set_rng r) ;;;
  assign "METRIC_mae" (PFloat v) ;;;
  st <- get ;;
  let '(v, r) := max_norm (nn st) (rng st) (x_test (data E)) (y_test (data E)) in
  modify (set_rng r) ;;;
  assign "METRIC_max_norm" (PFloat v).

(** Lines 288-318.  The record holds the two curve lists themselves; they
    are not appended to between here and the write of line 345, so the
    value stored here is the one written. *)
Definition metrics `{Collaborators} (E : env) (n_epochs : Z) : M unit :=
  emit (EvMetrics n_epochs (dropout E)) ;;;
  st <- get ;;
  let len := Z.of_nat (List.length (dataloader (data E))) in
  (if len =? 0 then raise ZeroDivisionError
   else assign "n_epochs" (PFloat (inject_Z (pbar_n st) / inject_Z len))) ;;;
  assign "compute_time" (PFloat (clock (List.length (log st)))) ;;;
  assign "val_loss_curve" (PList (map PFloat (val_loss_curve st))) ;;;
  assign "train_loss_curve" (PList (map PFloat (train_loss_curve st))) ;;;
  if dropout E then
    distributional_metrics E ;;;
    for_each (uncertainty_metrics E) [true; false]
  else point_metrics E.

(** Lines 273-318. *)
Definition evaluation `{Collaborators} (E : env) (n_epochs : Z) : M unit :=
  p <- predict E (x_test (data E)) ;;
  modify (set_predictions (Some p)) ;;;
  grid_block E ;;;
  metrics E n_epochs.

(** *** Lines 321-353: saving and showing the results *)

Definition persistence `{Collaborators} (E : env) : M unit :=
  let input := input_json_filename (args E) in
  (if startswith input "demo" then emit EvWarnDemo
   else
     st <- get ;;
     let output :=
       if overwrite_json (args E) then input
       else generate_json_filename (List.length (log st)) in
     (if first_round st then
        modify (set_first_round false) ;;;
        if overwrite_json (args E) then emit (EvRemove input) else ret tt
      else ret tt) ;;;
     let output := process_for_saving output in
     assign "filname" (PStr output) ;;;
     match model_save_dir (args E) with
     | Some dir =>
         let model_save_path := model_path dir output in
         assign "MODEL_SAVE_PATH" (PStr model_save_path) ;;;
         emit (EvSaveModel model_save_path)
     | None => ret tt
     end ;;;
     st <- get ;;
     emit (EvSaveJson output (hyperparameters st))) ;;;
  if SHOW_DIAGNOSTICS (cfg E) then emit EvPrint else ret tt.

(** *** Lines 224-353: the checkpoint loop *)

Definition checkpoint_body `{Collaborators} (E : env) (n_epochs : Z) : M unit :=
  st <- get ;;
  if decided_to_stop_early st then ret tt
  else
    train_block E n_epochs ;;;
    evaluation E n_epochs ;;;
    persistence E.

Definition checkpoint_loop `{Collaborators} (E : env) (checkpoints : list pyval) : M unit :=
  for_each (checkpoint_body E) (map int_value checkpoints).

(** *** Lines 153-353 *)

Definition script `{Collaborators} (c : cli) (cf : config) (d : data_module) : M unit :=
  flag <- probe d ;;
  let E := mkEnv cf d c flag in
  initial_frames E ;;;
  checkpoints <- lift (CHECKPOINTS (N_EPOCHS cf)) ;;
  modify (fun st => set_train_loss_curve [] (set_val_loss_curve [] (set_last_checkpoint 0
                      (set_first_round true (set_decided_to_stop_early false st))))) ;;;
  (if EARLY_STOPPING cf
   then modify (set_early_stopper (Some (EarlyStopper (DELTA cf) (PATIENCE cf))))
   else ret tt) ;;;
  checkpoint_loop E checkpoints.

(** The globals before line 153: the network as the model module gives
    it, the seeded generator and the dictionary read from the json file. *)
Definition initial_state `{Collaborators} (p : Params) (r : Rng) (h : gmap string pyval) : state :=
  mkState p r 0 [] [] 0 true false None h None None None None None 0%nat [].


(** *** Specifications of statements *)

(** From a state in [P], the statement ends in [Q] when it returns and in
    [R] when it raises. *)
Definition hoare `{Collaborators} {A : Type} (P : state -> Prop) (m : M A)
    (Q : A -> state -> Prop) (R : exn -> state -> Prop) : Prop :=
  forall st, P st ->
    match m st with
    | (Normal a, st') => Q a st'
    | (Raised e, st') => R e st'
    end.

(** [keeps I m]: the statement [m] keeps [I], however it ends. *)
Abbreviation keeps I m := (hoare I%function m (fun _ => I%function) (fun _ => I%function)).

(** The log grew from [l0] by events that all pass [allowed]. *)
Definition grew `{Collaborators} (l0 : list event) (allowed : event -> bool) (st : state) : Prop :=
  exists evs, log st = (l0 ++ evs)%list /\ forallb allowed evs = true.

(** The two loss curves have one length. *)
Definition aligned `{Collaborators} (st : state) : Prop :=
  List.length (train_loss_curve st) = List.length (val_loss_curve st).

(** The number of iterations of the epoch loop logged so far. *)
Definition epochs `{Collaborators} (st : state) : nat :=
  List.length (List.filter (fun ev => match ev with EvEpoch _ _ => true | _ => false end) (log st)).

(** A configuration under which a mini-batch step raises nothing: the
    remainder by [HOW_OFTEN] is defined, the Monte-Carlo loss is a tensor,
    the plot has its grid, the slice of the validation curve is not
    empty. *)
Definition trainable (E : env) : Prop :=
  HOW_OFTEN (cfg E) <> 0
  /\ (dropout E = true -> 0 < N_MC_SAMPLES (cfg E))
  /\ (data_is_univariate (data E) && MAKE_GIF (cfg E) = true -> is_Some (data_grid (data E)))
  /\ (EARLY_STOPPING (cfg E) = true -> 0 <= STRIDE (cfg E)).

(** [early_stopper] is bound when early stopping is on. *)
Definition stopper_bound `{Collaborators} (E : env) (st : state) : Prop :=
  EARLY_STOPPING (cfg E) = true -> is_Some (early_stopper st).

(** *** What a run shows: projections of the log *)

(** What one mini-batch can log, on the code path [mc]. *)
Definition train_event (mc : bool) (ev : event) : bool :=
  match ev with
  | EvTrainStep mc' => Bool.eqb mc' mc
  | EvTick _ | EvStopper _ _ => true
  | _ => false
  end.

(** What the training up to a checkpoint can log. *)
Definition loop_event (mc : bool) (ev : event) : bool :=
  match ev with
  | EvEpoch _ _ => true
  | _ => train_event mc ev
  end.

(** What the evaluation at a checkpoint can log. *)
Definition evaluation_event (mc : bool) (ev : event) : bool :=
  match ev with
  | EvPredict mc' | EvMetrics _ mc' => Bool.eqb mc' mc
  | EvWarnGrids => true
  | _ => false
  end.

(** What the persistence at a checkpoint can log. *)
Definition persistence_event (ev : event) : bool :=
  match ev with
  | EvWarnDemo | EvRemove _ | EvSaveModel _ | EvSaveJson _ _ | EvPrint => true
  | _ => false
  end.

(** What the checkpoint loop can log. *)
Definition run_event (mc : bool) (ev : event) : bool :=
  loop_event mc ev || evaluation_event mc ev || persistence_event ev.

Definition is_epoch (ev : event) : bool :=
  match ev with EvEpoch _ _ => true | _ => false end.

Definition is_stopper (ev : event) : bool :=
  match ev with EvStopper _ _ => true | _ => false end.

(** The events logged after the first raised stop signal. *)
Fixpoint after_stop (l : list event) : list event :=
  match l with
  | [] => []
  | EvStopper _ true :: rest => rest
  | _ :: rest => after_stop rest
  end.


Definition is_train_step (ev : event) : bool :=
  match ev with EvTrainStep _ => true | _ => false end.

Definition is_tick (ev : event) : bool :=
  match ev with EvTick _ => true | _ => false end.

Definition is_warn_grids (ev : event) : bool :=
  match ev with EvWarnGrids => true | _ => false end.

Definition is_save_json (ev : event) : bool :=
  match ev with EvSaveJson _ _ => true | _ => false end.

Definition is_stop (ev : event) : bool :=
  match ev with EvStopper _ true => true | _ => false end.

(** The flag is set exactly when the log holds a raised stop signal, and
    then what was logged after the signal passes [later]. *)
Definition flag_inv `{Collaborators} (later : event -> bool) (st : state) : Prop :=
  if decided_to_stop_early st
  then existsb is_stop (log st) = true /\ forallb later (after_stop (log st)) = true
  else existsb is_stop (log st) = false.

(** What the training loops keep: the curves aligned, the flag in step
    with the log (after a stop signal only bare iterations of the epoch
    loop), and a log that grew from [l0] by [allowed] events. *)
Definition training_inv `{Collaborators} (allowed : event -> bool) (l0 : list event)
    (st : state) : Prop :=
  aligned st /\ flag_inv is_epoch st /\ grew l0 allowed st.

(** What evaluation and persistence leave as it was. *)
Definition unchanged `{Collaborators} (st0 st : state) : Prop :=
  decided_to_stop_early st = decided_to_stop_early st0
  /\ train_loss_curve st = train_loss_curve st0
  /\ val_loss_curve st = val_loss_curve st0
  /\ nn st = nn st0
  /\ last_checkpoint st = last_checkpoint st0
  /\ pbar_n st = pbar_n st0
  /\ early_stopper st = early_stopper st0.

(** The record holds the two curves as they are. *)
Definition curves_recorded `{Collaborators} (st : state) : Prop :=
  hyperparameters st !! "val_loss_curve" = Some (PList (map PFloat (val_loss_curve st)))
  /\ hyperparameters st !! "train_loss_curve" = Some (PList (map PFloat (train_loss_curve st))).

(** What evaluation and persistence keep, from the state [st0] they
    start in; [recorded] tells whether the curves have been stored in
    the record yet. *)
Definition stage_inv `{Collaborators} (allowed : event -> bool) (st0 : state)
    (recorded : bool) (st : state) : Prop :=
  unchanged st0 st /\ grew (log st0) allowed st /\ (recorded = true -> curves_recorded st).

(** No gradient step, no diagnostic tick, no call of the stopper. *)
Definition quiet (ev : event) : bool :=
  negb (is_train_step ev) && negb (is_tick ev) && negb (is_stopper ev).

(** The numbers of the mini-batch steps, counted over the whole run from
    one, after which the diagnostic block ran. *)
Fixpoint tick_steps (steps : Z) (l : list event) : list Z :=
  match l with
  | [] => []
  | EvTrainStep _ :: rest => tick_steps (steps + 1) rest
  | EvTick _ :: rest => steps :: tick_steps steps rest
  | _ :: rest => tick_steps steps rest
  end.


(** The curve stored under [key], when it is a list. *)
Definition curve_length (record : gmap string pyval) (key : string) : option nat :=
  match record !! key with
  | Some (PList l) => Some (List.length l)
  | _ => None
  end.

Definition aligned_record (ev : event) : Prop :=
  match ev with
  | EvSaveJson _ record =>
      curve_length record "train_loss_curve" = curve_length record "val_loss_curve"
      /\ is_Some (curve_length record "train_loss_curve")
  | _ => True
  end.

(** What the checkpoint loop keeps: the curves aligned, the flag in step
    with the log (after a stop signal only quiet events), a log that grew
    from [l0] by [allowed] events, and only aligned records written. *)
Definition run_inv `{Collaborators} (allowed : event -> bool) (l0 : list event)
    (st : state) : Prop :=
  aligned st /\ flag_inv quiet st /\ grew l0 allowed st /\ Forall aligned_record (log st).

(** What a run of the script keeps, from the log [l0] it starts with:
    the curves and the written records aligned, only quiet events after
    a stop signal, and a log that is [l0], or [l0], the probe and events
    of the code path the probe chose. *)
Definition script_inv `{Collaborators} (l0 : list event) (st : state) : Prop :=
  aligned st
  /\ forallb quiet (after_stop (log st)) = true
  /\ Forall aligned_record (log st)
  /\ (log st = l0
      \/ exists mc evs, log st = (l0 ++ EvProbe mc :: evs)%list
                        /\ forallb (run_event mc) evs = true).

(** *** The keys of the record *)

Definition bookkeeping_keys : list string :=
  ["n_epochs"; "compute_time"; "val_loss_curve"; "train_loss_curve"].

(** Lines 316-318. *)
Definition point_keys : list string :=
  ["METRIC_rmse"; "METRIC_mae"; "METRIC_max_norm"].

(** Lines 293-301. *)
Definition distributional_keys : list string :=
  ["METRIC_rmse_of_median"; "METRIC_rmse_of_mean";
   "METRIC_mae_of_median"; "METRIC_mae_of_mean";
   "METRIC_max_norm_of_median"; "METRIC_max_norm_of_mean";
   "METRIC_median_energy_score"; "METRIC_coverage";
   "METRIC_median_avg_inverval_score"].

(** Line 305. *)
Definition accuracy_keys (use_quantiles : bool) : list string :=
  [("METRIC_uncertainty_vs_accuracy_slope_" ++ tag_of use_quantiles)%string;
   ("METRIC_uncertainty_vs_accuracy_cor_" ++ tag_of use_quantiles)%string].

(** Lines 307-310, the metrics that need the auxiliary grids. *)
Definition grid_keys (use_quantiles : bool) : list string :=
  [("METRIC_extrapolation_uncertainty_vs_proximity_slope_" ++ tag_of use_quantiles)%string;
   ("METRIC_uncertainty_vs_proximity_cor_" ++ tag_of use_quantiles)%string;
   ("METRIC_interpolation_uncertainty_vs_proximity_slope_" ++ tag_of use_quantiles)%string;
   ("METRIC_extrapolation_uncertainty_spread_" ++ tag_of use_quantiles)%string;
   ("METRIC_interpolation_uncertainty_spread_" ++ tag_of use_quantiles)%string].

(** The metric keys a checkpoint evaluation assigns on each path, the
    metrics that need the auxiliary grids apart. *)
Definition metric_keys (mc : bool) : list string :=
  if mc
  then (distributional_keys ++ accuracy_keys true ++ accuracy_keys false)%list
  else point_keys.

Definition all_grid_keys : list string := (grid_keys true ++ grid_keys false)%list.

(** Every key a checkpoint evaluation can assign on each path. *)
Definition assigned_keys (mc : bool) : list string :=
  (bookkeeping_keys ++ metric_keys mc ++ (if mc then all_grid_keys else []))%list.

Definition is_key (keys : list string) (key : string) : bool :=
  existsb (String.eqb key) keys.

(** A property of the state that no assignment to the generator, to a
    key in [K] of the record, to [predictions] or to [first_round], and
    no event in [V] appended to the log can break. *)
Record stable `{Collaborators} (I : state -> Prop) (K : string -> bool) (V : event -> bool)
    : Prop := mkStable {
  stable_rng : forall r st, I st -> I (set_rng r st);
  stable_log : forall ev st, V ev = true -> I st -> I (set_log (log st ++ [ev]) st);
  stable_record : forall key v st,
      K key = true -> I st -> I (set_hyperparameters (<[key := v]> (hyperparameters st)) st);
  stable_predictions : forall p st, I st -> I (set_predictions (Some p) st);
  stable_first_round : forall b st, I st -> I (set_first_round b st)
}.

(** A property that binding the grids and the predictions on them cannot
    break. *)
Record stable_grids `{Collaborators} (I : state -> Prop) : Prop := mkStableGrids {
  stable_interpolary_grid : forall g st, I st -> I (set_interpolary_grid (Some g) st);
  stable_extrapolary_grid : forall g st, I st -> I (set_extrapolary_grid (Some g) st);
  stable_predictions_on_interpolary_grid : forall p st,
      I st -> I (set_predictions_on_interpolary_grid (Some p) st);
  stable_predictions_on_extrapolary_grid : forall p st,
      I st -> I (set_predictions_on_extrapolary_grid (Some p) st)
}.

(** A configuration and data under which the evaluation at a checkpoint
    raises nothing: the realized epoch count is defined, the stack of
    posterior samples is not empty, the grids that exist reach the
    device. *)
Definition evaluable `{Collaborators} (E : env) : Prop :=
  dataloader (data E) <> []
  /\ (dropout E = true -> 0 < N_POSTERIOR_SAMPLES_EVALUATION (cfg E))
  /\ (forall t, data_interpolary_grid (data E) = Some (GTensor t)
                \/ data_extrapolary_grid (data E) = Some (GTensor t) ->
                exists t', to_device t = Ok t').

(** The data module has neither of the two auxiliary grids. *)
Definition grids_missing (d : data_module) : Prop :=
  data_interpolary_grid d = None /\ data_extrapolary_grid d = None.

(** The number of warnings about the grids in a log. *)
Definition warnings (l : list event) : nat := List.length (List.filter is_warn_grids l).

(** *** A small instance to run the script on *)

Module Toy.

(** A network that scales its input by the draw it takes from the
    generator ([noise] tells the scale of each draw), a loss that is the
    first component of the output, an optimizer that counts its steps. *)
Definition collaborators (noise : Z -> Q) : Collaborators := {|
  Params := Z;
  Rng := Z;
  Stopper := EarlyStopperSpec.EarlyStopper;
  forward := fun _ r x => (map (fun v => (v * noise r)%Q) x, r + 1);
  loss_fn := fun out _ => match out with v :: _ => v | [] => 0%Q end;
  gradient_step := fun p _ _ _ _ _ => p + 1;
  to_device := fun t => match t with [] => Raise (OtherError "device") | _ => Ok t end;
  EarlyStopper := EarlyStopperSpec.init;
  stopper_call := EarlyStopperSpec.call;
  plot_nn := fun _ _ r _ => r;
  generate_json_filename := fun _ => "run.json";
  rmse_of_median := fun _ _ => 0%Q;
  rmse_of_mean := fun _ _ => 0%Q;
  mae_of_median := fun _ _ => 0%Q;
  mae_of_mean := fun _ _ => 0%Q;
  max_norm_of_median := fun _ _ => 0%Q;
  max_norm_of_mean := fun _ _ => 0%Q;
  median_energy_score := fun _ _ => 0%Q;
  aggregate_covarge := fun _ _ _ => 0%Q;
  median_avg_interval_score := fun _ _ _ => 0%Q;
  uncertainty_vs_accuracy := fun _ _ _ _ _ _ => (0%Q, 0%Q);
  uncertainty_vs_proximity := fun _ _ _ _ _ _ _ => (0%Q, 0%Q);
  uncertainty_spread := fun _ _ => 0%Q;
  rmse := fun _ r _ _ => (0%Q, r);
  mae := fun _ r _ _ => (0%Q, r);
  max_norm := fun _ r _ _ => (0%Q, r);
  process_for_saving := fun s => s;
  model_path := fun dir s => dir ++ "/" ++ s ++ ".pth";
  clock := fun _ => 0%Q
|}.

Definition deterministic : Collaborators := collaborators (fun _ => 1%Q).
Definition stochastic : Collaborators := collaborators inject_Z.

(** Three batches of one point each, no auxiliary grid. *)
Definition three_batches : data_module :=
  mkData [([1%Q], [1%Q]); ([2%Q], [2%Q]); ([3%Q], [3%Q])] (Some [1%Q; 2%Q; 3%Q])
         [1%Q; 2%Q; 3%Q] [1%Q] [1%Q] false None None None.

(** The same with both grids. *)
Definition with_grids : data_module :=
  mkData [([1%Q], [1%Q]); ([2%Q], [2%Q]); ([3%Q], [3%Q])] (Some [1%Q; 2%Q; 3%Q])
         [1%Q; 2%Q; 3%Q] [1%Q] [1%Q] false None (Some (GTensor [1%Q])) (Some (GTensor [5%Q])).

(** A grid whose transfer to the device fails. *)
Definition broken_grid : data_module :=
  mkData [([1%Q], [1%Q]); ([2%Q], [2%Q]); ([3%Q], [3%Q])] (Some [1%Q; 2%Q; 3%Q])
         [1%Q; 2%Q; 3%Q] [1%Q] [1%Q] false None (Some (GTensor [])) (Some (GTensor [5%Q])).


Definition configuration (n_epochs : pyval) (early_stopping : bool) (how_often : Z) : config :=
  mkConfig n_epochs early_stopping 0%Q 2 30 1 false how_often 24 true 2 false.

Definition command_line : cli := mkCli "run.json" None false false.

Definition environment (cf : config) (d : data_module) (flag : bool) : env :=
  mkEnv cf d command_line flag.

(** No early stopping, a diagnostic tick every third count. *)
Definition plain (n_epochs : pyval) : env :=
  environment (configuration n_epochs false 3) three_batches false.

(** The globals before line 153, for either network. *)
Definition start : @state deterministic := @initial_state deterministic 0 0 ∅.
Definition start_stochastic : @state stochastic := @initial_state stochastic 0 0 ∅.

(** The state in which checkpoint 10 has been reached. *)
Definition reached_10 : @state deterministic := set_last_checkpoint 10 start.

(** The run on the checkpoint list [1, 2]. *)
Definition two_checkpoints : @state deterministic :=
  snd (script command_line (configuration (PList [PInt 1; PInt 2]) false 3) three_batches start).

(** The stochastic network with early stopping on: the state in which the
    run on the checkpoint list [20, 30] ends. *)
Definition early_stopping : env :=
  environment (configuration (PList [PInt 20; PInt 30]) true 3) three_batches true.
Definition stopped : @state stochastic :=
  snd (script command_line (configuration (PList [PInt 20; PInt 30]) true 3) three_batches
         start_stochastic).

(** The stochastic network on the data with both grids. *)
Definition sampled : env :=
  environment (configuration (PInt 1) false 3) with_grids true.

(** The state after the boundary 20 of the checkpoint list [20, 10]. *)
Definition after_20 : @state deterministic :=
  snd (checkpoint_body (plain (PList [PInt 20; PInt 10])) 20 start).

End Toy.

End TrainNN.

(** ** What the further properties are stated with *)

(** *** Frames: what a group of assignments cannot break *)

Module Frame.
Import TrainNN.

(** A property of the state that no draw from the generator and no event
    in [V] appended to the log can break. *)
Record stable_step `{Collaborators} (I : state -> Prop) (V : event -> bool) : Prop :=
  mkStableStep {
  step_rng : forall r st, I st -> I (set_rng r st);
  step_log : forall ev st, V ev = true -> I st -> I (set_log (log st ++ [ev]) st)
}.

(** A property that no assignment of the training loops to the weights,
    the counter of the progress bar, the curves, the frames or
    [last_checkpoint] can break. *)
Record stable_loop `{Collaborators} (I : state -> Prop) : Prop := mkStableLoop {
  stable_nn : forall v st, I st -> I (set_nn v st);
  stable_pbar_n : forall v st, I st -> I (set_pbar_n v st);
  stable_train_loss_curve : forall v st, I st -> I (set_train_loss_curve v st);
  stable_val_loss_curve : forall v st, I st -> I (set_val_loss_curve v st);
  stable_last_checkpoint : forall v st, I st -> I (set_last_checkpoint v st);
  stable_gif_frames : forall v st, I st -> I (set_gif_frames v st)
}.

(** A property that a call of the stopper (lines 262-263: the flag, the
    stopper's state and the logged call) cannot break. *)
Record stable_stopper `{Collaborators} (I : state -> Prop) : Prop := mkStableStopper {
  stable_decided_to_stop_early : forall v st, I st -> I (set_decided_to_stop_early v st);
  stable_early_stopper : forall v st, I st -> I (set_early_stopper v st);
  stable_call : forall value stop st, I st -> I (set_log (log st ++ [EvStopper value stop]) st)
}.

(** A property that no assignment of the evaluation to a key in [K] of
    the record or to [predictions] can break. *)
Record stable_eval `{Collaborators} (I : state -> Prop) (K : string -> bool) : Prop :=
  mkStableEval {
  eval_record : forall key v st,
      K key = true -> I st -> I (set_hyperparameters (<[key := v]> (hyperparameters st)) st);
  eval_predictions : forall p st, I st -> I (set_predictions (Some p) st)
}.

(** Lines 214-220. *)
Definition reset `{Collaborators} (st : state) : state :=
  set_train_loss_curve [] (set_val_loss_curve [] (set_last_checkpoint 0
    (set_first_round true (set_decided_to_stop_early false st)))).

End Frame.

(** *** The file system: lines 321-349 seen from the log *)

Module Files.
Import TrainNN.

Definition is_remove (ev : event) : bool :=
  match ev with EvRemove _ => true | _ => false end.

Definition is_save_model (ev : event) : bool :=
  match ev with EvSaveModel _ => true | _ => false end.

(** [os.remove], [torch.save] and [dict_to_json]: what touches the file
    system. *)
Definition is_file_op (ev : event) : bool :=
  is_remove ev || is_save_model ev || is_save_json ev.

Definition file_ops (l : list event) : list event := List.filter is_file_op l.

(** The record written to a json file holds the name of that file. *)
Definition names_its_file (ev : event) : Prop :=
  match ev with
  | EvSaveJson filename record => record !! "filname" = Some (PStr filename)
  | _ => True
  end.

(** The record written holds [value] under [key]. *)
Definition writes_back (key : string) (value : option pyval) (ev : event) : Prop :=
  match ev with
  | EvSaveJson _ record => record !! key = value
  | _ => True
  end.

(** Every key the script can assign in the record. *)
Definition result_keys : list string :=
  (assigned_keys true ++ assigned_keys false ++ ["filname"; "MODEL_SAVE_PATH"])%list.

(** The model file that goes with a record written, and what the record
    says of it. *)
Definition model_saved `{Collaborators} (dir : string) (ev : event) : event :=
  match ev with
  | EvSaveJson filename _ => EvSaveModel (model_path dir filename)
  | _ => ev
  end.

Definition names_its_model `{Collaborators} (dir : string) (ev : event) : Prop :=
  match ev with
  | EvSaveJson filename record =>
      record !! "MODEL_SAVE_PATH" = Some (PStr (model_path dir filename))
  | _ => True
  end.

(** The only removal of a run is its first file operation, of the input
    file, under [--overwrite_json]. *)
Definition removes_first (c : Cli.cli) (ops : list event) : Prop :=
  match ops with
  | [] => True
  | first :: rest =>
      forallb (fun ev => negb (is_remove ev)) rest = true
      /\ (is_remove first = true ->
          first = EvRemove (Cli.input_json_filename c) /\ Cli.overwrite_json c = true)
  end.

(** One model file is saved for every record written, in the same order,
    and every record written names its model file. *)
Definition models_follow_records `{Collaborators} (dir : string) (l : list event) : Prop :=
  List.filter is_save_model l = map (model_saved dir) (List.filter is_save_json l)
  /\ Forall (names_its_model dir) l.

(** No file is touched while [first_round] holds, and the only removal
    is the first file operation. *)
Definition removal_inv `{Collaborators} (c : Cli.cli) (st : state) : Prop :=
  (first_round st = true -> file_ops (log st) = [])
  /\ removes_first c (file_ops (log st)).

(** The value under [key] stays what it was and is what every record
    written holds. *)
Definition kept `{Collaborators} (key : string) (value : option pyval) (st : state) : Prop :=
  hyperparameters st !! key = value /\ Forall (writes_back key value) (log st).

End Files.

(** *** The checkpoint schedule seen from the log *)

Module Schedule.
Import TrainNN.

Definition is_metrics (ev : event) : bool :=
  match ev with EvMetrics _ _ => true | _ => false end.

(** The boundaries whose metrics were started, in the order of the log. *)
Fixpoint evaluated (l : list event) : list Z :=
  match l with
  | [] => []
  | EvMetrics n_epochs _ :: rest => n_epochs :: evaluated rest
  | _ :: rest => evaluated rest
  end.

(** The number of records written. *)
Definition records (l : list event) : nat := List.length (List.filter is_save_json l).

(** The state in which the checkpoint loop starts when the script is run
    from [st0] and the probe answers [flag]: lines 153-222 have logged the
    probe and set the globals of lines 214-222. *)
Definition ready `{Collaborators} (cf : config) (st0 : state) (flag : bool) (st : state) : Prop :=
  log st = (log st0 ++ [EvProbe flag])%list
  /\ decided_to_stop_early st = false
  /\ first_round st = true
  /\ last_checkpoint st = 0
  /\ train_loss_curve st = []
  /\ val_loss_curve st = []
  /\ nn st = nn st0
  /\ hyperparameters st = hyperparameters st0
  /\ early_stopper st = (if EARLY_STOPPING cf
                         then Some (EarlyStopper (DELTA cf) (PATIENCE cf))
                         else early_stopper st0).

(** A property of the boundaries evaluated and of the number of records
    written. *)
Definition counted `{Collaborators} (P : list Z -> nat -> Prop) (st : state) : Prop :=
  P (evaluated (log st)) (records (log st)).

(** With the flag set, the log holds a raised stop signal, and the
    boundaries evaluated and the records written after it satisfy [P]. *)
Definition stop_counted `{Collaborators} (P : list Z -> nat -> Prop) (st : state) : Prop :=
  decided_to_stop_early st = true ->
  existsb is_stop (log st) = true
  /\ P (evaluated (after_stop (log st))) (records (after_stop (log st))).

End Schedule.

(** *** The progress bar *)

Module Progress.
Import TrainNN.

(** [len(dataloader)]. *)
Definition n_batches (E : env) : Z := Z.of_nat (List.length (dataloader (data E))).

(** What [pbar.n] holds after the training to the boundary [n_epochs]
    went through every mini-batch of every epoch. *)
Definition counter_after `{Collaborators} (E : env) (n_epochs : Z) (st : state) : Z :=
  last_checkpoint st + Z.of_nat (range_len (n_epochs - last_checkpoint st)) * n_batches E.

(** What line 288 stores when [pbar.n] is [k]. *)
Definition epochs_recorded `{Collaborators} (E : env) (k : Z) (st : state) : Prop :=
  hyperparameters st !! "n_epochs" = Some (PFloat (inject_Z k / inject_Z (n_batches E))).

End Progress.

(** *** The command line *)

Module CommandLine.
Import Cli.

(** Two namespaces that hold the same values but for the truth value
    under [final_test] or under [overwrite_json], which both hold. *)
Definition same_but_flags (ns1 ns2 : namespace) : Prop :=
  ns_json ns1 = ns_json ns2
  /\ ns_model_save_dir ns1 = ns_model_save_dir ns2
  /\ (is_Some (ns_final_test ns1) <-> is_Some (ns_final_test ns2))
  /\ (is_Some (ns_overwrite_json ns1) <-> is_Some (ns_overwrite_json ns2)).

End CommandLine.

(** *** Losses and the window of the early stopper *)

Module Losses.
Import TrainNN.


(** [l[-k:]] spelled out for [0 <= k]: the whole list for [k = 0], since
    [-0] is [0]; else the last [k] elements, or all when there are
    fewer. *)
Definition window {A : Type} (l : list A) (k : Z) : list A :=
  if k =? 0 then l else skipn (List.length l - Z.to_nat k) l.

End Losses.

(** *** The record of the grid metrics *)

Module Metrics.
Import TrainNN.

(** The record after lines 307-310 ran to their end on the record [h]:
    the five keys of the tag, with the one correlation that is left. *)
Definition with_grid_metrics (tag : string) (slope_extrapolation slope_interpolation
    correlation spread_extrapolation spread_interpolation : Q) (h : gmap string pyval)
    : gmap string pyval :=
  <[("METRIC_interpolation_uncertainty_spread_" ++ tag)%string := PFloat spread_interpolation]>
    (<[("METRIC_extrapolation_uncertainty_spread_" ++ tag)%string := PFloat spread_extrapolation]>
       (<[("METRIC_uncertainty_vs_proximity_cor_" ++ tag)%string := PFloat correlation]>
          (<[("METRIC_interpolation_uncertainty_vs_proximity_slope_" ++ tag)%string
               := PFloat slope_interpolation]>
             (<[("METRIC_extrapolation_uncertainty_vs_proximity_slope_" ++ tag)%string
                  := PFloat slope_extrapolation]> h)))).

End Metrics.

(** *** Gradient steps *)

Module Steps.
Import TrainNN.

(** The gradient steps of a log. *)
Definition steps (l : list event) : list event := List.filter is_train_step l.

(** The weights and the gradient steps logged are those of [st0]. *)
Definition untrained `{Collaborators} (st0 st : state) : Prop :=
  nn st = nn st0 /\ steps (log st) = steps (log st0).

(** A run that took one gradient step since [st0] and raised
    [ZeroDivisionError] right after it. *)
Definition failed_after_one_step `{Collaborators} (mc : bool) (st0 : state) (e : exn)
    (st : state) : Prop :=
  e = ZeroDivisionError
  /\ exists l, log st = (l ++ [EvTrainStep mc])%list /\ steps l = steps (log st0).

End Steps.

(** *** The frames of the gif *)

Module Gif.
Import TrainNN.





End Gif.

(** * Properties *)

(** ** Python built-ins *)




Lemma py_mod_ok (a b r : Z) : py_mod a b = Ok r <-> b <> 0 /\ r = a mod b.
Proof.
  unfold py_mod. destruct (Z.eqb_spec b 0); split.
  - discriminate.
  - intros [? _]. contradiction.
  - intros [= <-]. auto.
  - intros [_ ->]. reflexivity.
Qed.

Lemma py_mod_raise (a b : Z) (e : exn) :
  py_mod a b = Raise e <-> b = 0 /\ e = ZeroDivisionError.
Proof.
  unfold py_mod. destruct (Z.eqb_spec b 0); split.
  - intros [= <-]. auto.
  - intros [_ ->]. reflexivity.
  - discriminate.
  - intros [? _]. contradiction.
Qed.

(** [l[-k:]] for a positive [k]: the last [k] elements, or all of them
    when there are fewer. *)
Lemma slice_from_neg_last {A : Type} (l : list A) (k : Z) :
  0 < k ->
  slice_from_neg l k = skipn (List.length l - Z.to_nat k) l.
Proof.
  intros Hk. unfold slice_from_neg.
  destruct (Z.ltb_spec (- k) 0); [|lia].
  f_equal. lia.
Qed.

Lemma slice_from_neg_length {A : Type} (l : list A) (k : Z) :
  0 < k ->
  List.length (slice_from_neg l k) = Nat.min (Z.to_nat k) (List.length l).
Proof.
  intros Hk. rewrite slice_from_neg_last by assumption.
  rewrite length_skipn. lia.
Qed.

Lemma slice_from_neg_nonempty {A : Type} (l : list A) (k : Z) :
  0 <= k -> l <> [] -> slice_from_neg l k <> [].
Proof.
  intros Hk Hl Hs. apply (f_equal (@List.length A)) in Hs.
  unfold slice_from_neg in Hs. rewrite length_skipn in Hs. simpl in Hs.
  destruct l as [|x l]; [congruence|]. simpl in Hs.
  destruct (Z.ltb_spec (- k) 0); lia.
Qed.

Lemma avg_ok (l : list Q) : l <> [] -> exists m, avg l = Ok m.
Proof. destruct l; [congruence|]. intros _. eexists. reflexivity. Qed.

(** ** EarlyStopper *)

Module EarlyStopperFacts.
Import EarlyStopperSpec.







Lemma repeat_snoc {A : Type} (x : A) (n : nat) : repeat x (S n) = (repeat x n ++ [x])%list.
Proof. induction n as [|n IH]; [reflexivity|]. cbn in *. rewrite <- IH. reflexivity. Qed.




End EarlyStopperFacts.

(** ** The command line block *)

Module CliFacts.
Import Cli.





End CliFacts.

(** ** Rules for statements *)

Module Rules.
Import TrainNN.

Section Rules.
Context `{Collaborators}.

Lemma hoare_ret {A : Type} (a : A) (P : state -> Prop) Q R :
  (forall st, P st -> Q a st) -> hoare P (ret a) Q R.
Proof. intros HQ st HP. cbn. auto. Qed.

Lemma hoare_raise {A : Type} (e : exn) (P : state -> Prop) (Q : A -> state -> Prop) R :
  (forall st, P st -> R e st) -> hoare P (raise e) Q R.
Proof. intros HR st HP. cbn. auto. Qed.

Lemma hoare_bind {A B : Type} (m : M A) (k : A -> M B) (P : state -> Prop) Q1 Q R :
  hoare P m Q1 R ->
  (forall a, hoare (Q1 a) (k a) Q R) ->
  hoare P (bind m k) Q R.
Proof.
  intros Hm Hk st HP. unfold bind. specialize (Hm st HP).
  destruct (m st) as [[a|e] st']; [exact (Hk a st' Hm)|exact Hm].
Qed.

Lemma hoare_conseq {A : Type} (m : M A) (P P' : state -> Prop)
    (Q Q' : A -> state -> Prop) (R R' : exn -> state -> Prop) :
  hoare P' m Q' R' ->
  (forall st, P st -> P' st) ->
  (forall a st, Q' a st -> Q a st) ->
  (forall e st, R' e st -> R e st) ->
  hoare P m Q R.
Proof.
  intros Hm HP HQ HR st Hst. specialize (Hm st (HP st Hst)).
  destruct (m st) as [[a|e] st']; auto.
Qed.

Lemma hoare_get (P : state -> Prop) Q R :
  (forall st, P st -> Q st st) -> hoare P get Q R.
Proof. intros HQ st HP. cbn. auto. Qed.

Lemma hoare_modify (f : state -> state) (P : state -> Prop) Q R :
  (forall st, P st -> Q tt (f st)) -> hoare P (modify f) Q R.
Proof. intros HQ st HP. cbn. auto. Qed.

Lemma hoare_lift {A : Type} (r : result A) (P : state -> Prop) (Q : A -> state -> Prop) R :
  (forall a st, r = Ok a -> P st -> Q a st) ->
  (forall e st, r = Raise e -> P st -> R e st) ->
  hoare P (lift r) Q R.
Proof. intros HQ HR st HP. destruct r; cbn; auto. Qed.

Lemma hoare_try_except {A : Type} (m handler : M A) (caught : exn -> bool)
    (P : state -> Prop) Q R R1 :
  hoare P m Q R1 ->
  (forall e, caught e = true -> hoare (R1 e) handler Q R) ->
  (forall e st, caught e = false -> R1 e st -> R e st) ->
  hoare P (try_except m caught handler) Q R.
Proof.
  intros Hm Hh Hp st HP. unfold try_except. specialize (Hm st HP).
  destruct (m st) as [[a|e] st']; [exact Hm|].
  destruct (caught e) eqn:Hc; [exact (Hh e Hc st' Hm)|exact (Hp e st' Hc Hm)].
Qed.

(** A loop keeps what every iteration keeps. *)
Lemma hoare_for_each {A : Type} (body : A -> M unit) (l : list A)
    (Inv : state -> Prop) (R : exn -> state -> Prop) :
  (forall x, In x l -> hoare Inv (body x) (fun _ => Inv) R) ->
  hoare Inv (for_each body l) (fun _ => Inv) R.
Proof.
  induction l as [|x l IH]; intros Hbody.
  - apply hoare_ret. auto.
  - cbn [for_each]. eapply hoare_bind.
    + apply Hbody. left. reflexivity.
    + intros u. apply IH. intros y Hy. apply Hbody. right. exact Hy.
Qed.

(** A loop with [break]: [Inv] holds while it goes on, [Out] when it is
    left by [break]. *)
Lemma hoare_for_each_break {A : Type} (body : A -> M bool) (l : list A)
    (Inv Out : state -> Prop) (R : exn -> state -> Prop) :
  (forall x, In x l ->
     hoare Inv (body x) (fun stop st => if stop then Out st else Inv st) R) ->
  hoare Inv (for_each_break body l) (fun _ st => Inv st \/ Out st) R.
Proof.
  induction l as [|x l IH]; intros Hbody.
  - apply hoare_ret. auto.
  - cbn [for_each_break]. eapply hoare_bind.
    + apply Hbody. left. reflexivity.
    + intros [|].
      * apply hoare_ret. auto.
      * apply IH. intros y Hy. apply Hbody. right. exact Hy.
Qed.

End Rules.
End Rules.

(** ** The training loops *)

(** Destructs the next test the run of a statement depends on. *)
Ltac run_step :=
  match goal with
  | |- context [match ?x with _ => _ end] =>
      lazymatch x with
      | context [match _ with _ => _ end] => fail
      | _ => destruct x eqn:?
      end
  end.

Ltac run_all := repeat (run_step; cbn in * ).

Ltac unfold_statements :=
  unfold TrainNN.batch_step, TrainNN.diagnostic, TrainNN.plot, TrainNN.capture, TrainNN.emit,
    TrainNN.lift, TrainNN.bind, TrainNN.get, TrainNN.modify, TrainNN.ret, TrainNN.raise.

Module TrainingFacts.
Import TrainNN Rules.

Section Training.
Context `{Collaborators}.

Lemma after_stop_app_none (l evs : list event) :
  existsb is_stop l = false -> after_stop (l ++ evs) = after_stop evs.
Proof.
  induction l as [|ev l IH]; [reflexivity|]. cbn [existsb]. intros Hn.
  apply orb_false_elim in Hn as [H1 H2]. cbn [app after_stop].
  destruct ev; try (apply IH; exact H2).
  destruct stop; [discriminate|apply IH; exact H2].
Qed.

Lemma after_stop_app_some (l evs : list event) :
  existsb is_stop l = true -> after_stop (l ++ evs) = (after_stop l ++ evs)%list.
Proof.
  induction l as [|ev l IH]; [discriminate|]. cbn [existsb app after_stop]. intros Hs.
  destruct ev; try (apply IH; exact Hs).
  destruct stop; [reflexivity|apply IH; exact Hs].
Qed.

Lemma grew_refl (allowed : event -> bool) (st : state) : grew (log st) allowed st.
Proof. exists []. rewrite app_nil_r. auto. Qed.

Lemma grew_app (allowed : event -> bool) (l0 evs : list event) (st st' : state) :
  grew l0 allowed st ->
  log st' = (log st ++ evs)%list ->
  forallb allowed evs = true ->
  grew l0 allowed st'.
Proof.
  intros (evs0 & Hl & Ha) Hl' Ha'. exists (evs0 ++ evs)%list.
  rewrite Hl', Hl, <- app_assoc, forallb_app, Ha, Ha'. auto.
Qed.

Lemma grew_weaken (allowed allowed' : event -> bool) (l0 : list event) (st : state) :
  (forall ev, allowed ev = true -> allowed' ev = true) ->
  grew l0 allowed st -> grew l0 allowed' st.
Proof.
  intros Hw (evs & Hl & Ha). exists evs. split; [exact Hl|].
  rewrite forallb_forall in *. auto.
Qed.

Lemma grew_trans (allowed : event -> bool) (l0 : list event) (st st' : state) :
  grew l0 allowed st -> grew (log st) allowed st' -> grew l0 allowed st'.
Proof.
  intros (evs0 & Hl & Ha) (evs & Hl' & Ha'). exists (evs0 ++ evs)%list.
  rewrite Hl', Hl, <- app_assoc, forallb_app, Ha, Ha'. auto.
Qed.

Lemma batch_step_inv (E : env) (b : Tensor * Tensor) (allowed : event -> bool) (l0 : list event) :
  (forall ev, train_event (dropout E) ev = true -> allowed ev = true) ->
  hoare (fun st => training_inv allowed l0 st /\ decided_to_stop_early st = false)
        (batch_step E b)
        (fun stop st => training_inv allowed l0 st /\ decided_to_stop_early st = stop)
        (fun _ st => training_inv allowed l0 st).
Proof.
  intros Hall st ((Hal & Hfl & Hg) & Hd).
  unfold flag_inv in Hfl. rewrite Hd in Hfl. unfold aligned in Hal.
  assert (Hts : allowed (EvTrainStep (dropout E)) = true)
    by (apply Hall; cbn; apply eqb_reflx).
  assert (Htk : forall n, allowed (EvTick n) = true) by (intros; apply Hall; reflexivity).
  assert (Hsp : forall v s, allowed (EvStopper v s) = true) by (intros; apply Hall; reflexivity).
  destruct (dropout E) eqn:Hdrop.
  all: destruct b as [X y]; unfold_statements; rewrite ?Hdrop.
  all: run_all.
  all: unfold training_inv, aligned, flag_inv; cbn.
  all: repeat match goal with |- _ /\ _ => split end.
  all: try (eapply grew_app; [exact Hg|cbn; rewrite <- ?app_assoc; reflexivity|
                              cbn; rewrite ?Hts, ?Htk, ?Hsp; reflexivity]).
  all: rewrite ?length_app, ?Hd; cbn; try lia; try reflexivity.
  all: try match goal with
         | |- context [EvStopper _ ?b] => destruct b
         end; cbn.
  all: repeat match goal with |- _ /\ _ => split end.
  all: rewrite ?existsb_app, ?Hfl; try reflexivity.
  all: try (rewrite after_stop_app_none by (rewrite ?existsb_app, Hfl; reflexivity); reflexivity).
  all: try assumption.
Qed.

Lemma batches_inv (E : env) (bs : list (Tensor * Tensor)) (allowed : event -> bool)
    (l0 : list event) :
  (forall ev, train_event (dropout E) ev = true -> allowed ev = true) ->
  hoare (fun st => training_inv allowed l0 st /\ decided_to_stop_early st = false)
        (for_each_break (batch_step E) bs)
        (fun _ st => training_inv allowed l0 st)
        (fun _ st => training_inv allowed l0 st).
Proof.
  intros Hall.
  eapply hoare_conseq.
  - apply (hoare_for_each_break (batch_step E) bs
             (fun st => training_inv allowed l0 st /\ decided_to_stop_early st = false)
             (fun st => training_inv allowed l0 st)
             (fun _ st => training_inv allowed l0 st)).
    intros b _. eapply hoare_conseq; [apply (batch_step_inv E b allowed l0 Hall)|auto| |auto].
    intros [|] st [Hinv Hd]; auto.
  - auto.
  - intros _ st [[Hinv _]|Hinv]; exact Hinv.
  - auto.
Qed.

Lemma training_inv_epoch (allowed : event -> bool) (l0 : list event) (st : state) n e :
  allowed (EvEpoch n e) = true ->
  training_inv allowed l0 st ->
  training_inv allowed l0 (set_log (log st ++ [EvEpoch n e]) st).
Proof.
  intros Hep (Hal & Hfl & Hg). split; [exact Hal|]. split.
  - unfold flag_inv in *. cbn. destruct (decided_to_stop_early st).
    + destruct Hfl as [Hs Hl]. rewrite existsb_app, Hs. split; [reflexivity|].
      rewrite after_stop_app_some by exact Hs. rewrite forallb_app, Hl. reflexivity.
    + rewrite existsb_app, Hfl. reflexivity.
  - eapply grew_app; [exact Hg|reflexivity|cbn; rewrite Hep; reflexivity].
Qed.

Lemma epoch_body_inv (E : env) (n_epochs : Z) (e : nat) (allowed : event -> bool)
    (l0 : list event) :
  (forall ev, loop_event (dropout E) ev = true -> allowed ev = true) ->
  hoare (training_inv allowed l0) (epoch_body E n_epochs e)
        (fun _ st => training_inv allowed l0 st)
        (fun _ st => training_inv allowed l0 st).
Proof.
  intros Hall. unfold epoch_body, emit.
  apply (hoare_bind _ _ _ (fun _ st => training_inv allowed l0 st)).
  { apply hoare_modify. intros st Hinv.
    apply (training_inv_epoch allowed l0 st n_epochs e); [apply Hall; reflexivity|exact Hinv]. }
  intros u. apply (hoare_bind _ _ _ (fun a st => a = st /\ training_inv allowed l0 st)).
  { apply hoare_get. auto. }
  intros st0. cbn beta. destruct (decided_to_stop_early st0) eqn:Hd.
  - apply hoare_ret. intros st [_ Hinv]. exact Hinv.
  - eapply hoare_conseq; [apply (batches_inv E _ allowed l0)| | |]; cbn beta; auto.
    + intros ev Hev. apply Hall. destruct ev; cbn in *; congruence.
    + intros st [-> Hinv]. auto.
Qed.

Lemma train_block_inv (E : env) (n_epochs : Z) (allowed : event -> bool) (l0 : list event) :
  (forall ev, loop_event (dropout E) ev = true -> allowed ev = true) ->
  hoare (training_inv allowed l0) (train_block E n_epochs)
        (fun _ st => training_inv allowed l0 st)
        (fun _ st => training_inv allowed l0 st).
Proof.
  intros Hall. unfold train_block.
  apply (hoare_bind _ _ _ (fun _ st => training_inv allowed l0 st)).
  { apply hoare_get. auto. }
  intros st0. apply (hoare_bind _ _ _ (fun _ st => training_inv allowed l0 st)).
  { apply hoare_modify. intros st Hinv. exact Hinv. }
  intros u. apply (hoare_bind _ _ _ (fun _ st => training_inv allowed l0 st)).
  { apply hoare_for_each. intros e _. apply epoch_body_inv. exact Hall. }
  intros u'. apply hoare_modify. intros st Hinv. exact Hinv.
Qed.

End Training.
End TrainingFacts.

(** ** Resuming from the last checkpoint *)

Module CheckpointFacts.
Import TrainNN Rules TrainingFacts.

Section Resumption.
Context `{Collaborators}.

Lemma epochs_app (st st' : state) (evs : list event) :
  log st' = (log st ++ evs)%list ->
  epochs st' = (epochs st + List.length (List.filter is_epoch evs))%nat.
Proof.
  intros Hl. unfold epochs. rewrite Hl, List.filter_app, length_app. reflexivity.
Qed.

(** Under a trainable configuration a mini-batch step returns; it logs
    no iteration of the epoch loop and keeps the stopper bound. *)
Lemma batch_step_returns (E : env) (b : Tensor * Tensor) (k : nat) :
  trainable E ->
  hoare (fun st => epochs st = k /\ stopper_bound E st)
        (batch_step E b)
        (fun _ st => epochs st = k /\ stopper_bound E st)
        (fun _ _ => False).
Proof.
  intros (Hhow & Hmc & Hplot & Hstride) st [Hk Hsb].
  unfold stopper_bound in *.
  destruct b as [X y]. unfold_statements.
  run_all.
  all: unfold epochs in *; cbn.
  all: rewrite ?List.filter_app, ?length_app; cbn.
  all: repeat match goal with |- _ /\ _ => split end.
  all: try lia.
  all: try assumption.
  all: try (intros He; first [discriminate He|eexists; reflexivity|exact (Hsb He)]).
  all: try match goal with
         | Hr : py_mod _ _ = Raise _ |- _ => apply py_mod_raise in Hr; tauto
         | Hn : true = true -> is_Some None |- _ =>
             destruct (Hn eq_refl) as [? Hx]; discriminate Hx
         | Hle : (N_MC_SAMPLES _ <=? 0) = true |- _ =>
             specialize (Hmc eq_refl); apply Z.leb_le in Hle; lia
         end.
  all: try match goal with
         | Hr : avg (slice_from_neg (?l ++ [?x]) _) = Raise _ |- _ =>
             let Hne := fresh in
             assert (Hne : slice_from_neg (l ++ [x]) (STRIDE (cfg E)) <> [])
               by (apply slice_from_neg_nonempty; [auto|intros Hnil; destruct l; discriminate Hnil]);
             destruct (avg_ok _ Hne) as [m Hm]; congruence
         end.
Qed.

Lemma batches_return (E : env) (bs : list (Tensor * Tensor)) (k : nat) :
  trainable E ->
  hoare (fun st => epochs st = k /\ stopper_bound E st)
        (for_each_break (batch_step E) bs)
        (fun _ st => epochs st = k /\ stopper_bound E st)
        (fun _ _ => False).
Proof.
  intros Ht. eapply hoare_conseq.
  - apply (hoare_for_each_break (batch_step E) bs
             (fun st => epochs st = k /\ stopper_bound E st)
             (fun st => epochs st = k /\ stopper_bound E st)
             (fun _ _ => False)).
    intros b _. eapply hoare_conseq; [apply (batch_step_returns E b k Ht)|auto| |auto].
    intros [|] st Hst; exact Hst.
  - auto.
  - intros _ st [Hst|Hst]; exact Hst.
  - auto.
Qed.

Lemma epoch_body_returns (E : env) (n_epochs : Z) (e : nat) (k : nat) :
  trainable E ->
  hoare (fun st => epochs st = k /\ stopper_bound E st)
        (epoch_body E n_epochs e)
        (fun _ st => epochs st = S k /\ stopper_bound E st)
        (fun _ _ => False).
Proof.
  intros Ht. unfold epoch_body, emit.
  apply (hoare_bind _ _ _ (fun _ st => epochs st = S k /\ stopper_bound E st)).
  { apply hoare_modify. intros st [Hk Hsb]. split; [|exact Hsb].
    rewrite (epochs_app st _ [EvEpoch n_epochs e]) by reflexivity. cbn. lia. }
  intros u.
  apply (hoare_bind _ _ _ (fun _ st => epochs st = S k /\ stopper_bound E st)).
  { apply hoare_get. auto. }
  intros st0. destruct (decided_to_stop_early st0).
  - apply hoare_ret. auto.
  - apply batches_return. exact Ht.
Qed.

Lemma epoch_loop_returns (E : env) (n_epochs : Z) (l : list nat) :
  trainable E ->
  forall k,
    hoare (fun st => epochs st = k /\ stopper_bound E st)
          (for_each (epoch_body E n_epochs) l)
          (fun _ st => epochs st = (k + List.length l)%nat /\ stopper_bound E st)
          (fun _ _ => False).
Proof.
  intros Ht. induction l as [|e l IH]; intros k.
  - apply hoare_ret. intros st [Hk Hsb]. cbn. split; [lia|exact Hsb].
  - cbn [for_each].
    apply (hoare_bind _ _ _ (fun _ st => epochs st = S k /\ stopper_bound E st)).
    + apply epoch_body_returns. exact Ht.
    + intros u. eapply hoare_conseq; [apply (IH (S k))|auto| |auto].
      intros _ st [Hk Hsb]. cbn [List.length]. split; [lia|exact Hsb].
Qed.

Lemma train_block_returns (E : env) (n_epochs : Z) (st0 : state) :
  trainable E ->
  hoare (fun st => st = st0 /\ stopper_bound E st)
        (train_block E n_epochs)
        (fun _ st => epochs st = (epochs st0 + range_len (n_epochs - last_checkpoint st0))%nat
                     /\ last_checkpoint st = n_epochs
                     /\ stopper_bound E st)
        (fun _ _ => False).
Proof.
  intros Ht. unfold train_block.
  apply (hoare_bind _ _ _ (fun a st => a = st0 /\ st = st0 /\ stopper_bound E st)).
  { apply hoare_get. intros st [-> Hsb]. auto. }
  intros a.
  apply (hoare_bind _ _ _
           (fun _ st => a = st0 /\ epochs st = epochs st0 /\ stopper_bound E st)).
  { apply hoare_modify. intros st (-> & -> & Hsb). auto. }
  intros u.
  apply (hoare_bind _ _ _
           (fun _ st => epochs st = (epochs st0 + range_len (n_epochs - last_checkpoint st0))%nat
                        /\ stopper_bound E st)).
  { intros st (-> & Hk & Hsb).
    pose proof (epoch_loop_returns E n_epochs
                  (seq 0 (range_len (n_epochs - last_checkpoint st0))) Ht (epochs st0) st
                  (conj Hk Hsb)) as Hrun.
    rewrite length_seq in Hrun. exact Hrun. }
  intros u'. apply hoare_modify. intros st [Hk Hsb]. auto.
Qed.

End Resumption.

(** C1, as amended.  Under a configuration whose mini-batch steps raise
    nothing, training up to the boundary [n_epochs] returns, runs exactly
    [max(0, n_epochs - last_checkpoint)] iterations of the epoch loop and
    leaves [last_checkpoint = n_epochs]; the count is
    [n_epochs - last_checkpoint] whenever the boundary is not below the
    previous one, so that from checkpoint 10 the boundary 20 runs 10
    iterations. *)
Theorem resumes_from_last_checkpoint `{Collaborators} (E : env) (n_epochs : Z) (st : state)
    (Ht : trainable E) (Hsb : stopper_bound E st) :
  exists st',
    train_block E n_epochs st = (Normal tt, st')
    /\ Z.of_nat (epochs st' - epochs st) = Z.max 0 (n_epochs - last_checkpoint st)
    /\ last_checkpoint st' = n_epochs
    /\ (last_checkpoint st <= n_epochs ->
        Z.of_nat (epochs st' - epochs st) = n_epochs - last_checkpoint st)
    /\ (last_checkpoint st = 10 -> n_epochs = 20 -> (epochs st' - epochs st)%nat = 10%nat).
Proof.
  pose proof (train_block_returns E n_epochs st Ht st (conj eq_refl Hsb)) as Hrun.
  destruct (train_block E n_epochs st) as [[[]|e] st']; [|contradiction].
  destruct Hrun as (Hk & Hlast & _). exists st'. unfold range_len in Hk.
  split; [reflexivity|]. repeat split; try assumption; try lia.
Qed.

Lemma resumes_from_last_checkpoint_witness :
  trainable (Toy.plain (PInt 20)) /\ stopper_bound (Toy.plain (PInt 20)) Toy.reached_10
  /\ exists st', train_block (Toy.plain (PInt 20)) 20 Toy.reached_10 = (Normal tt, st')
                 /\ (epochs st' - epochs Toy.reached_10)%nat = 10%nat.
Proof.
  assert (Ht : trainable (Toy.plain (PInt 20))).
  { unfold trainable. cbn. repeat split; try discriminate; lia. }
  assert (Hsb : stopper_bound (Toy.plain (PInt 20)) Toy.reached_10)
    by (intros He; discriminate He).
  destruct (resumes_from_last_checkpoint (Toy.plain (PInt 20)) 20 Toy.reached_10 Ht Hsb)
    as (st' & Hrun & _ & _ & _ & Hten).
  exact (conj Ht (conj Hsb (ex_intro _ st' (conj Hrun (Hten eq_refl eq_refl))))).
Defined.

(** C1 as stated fails on a checkpoint list that decreases: after the
    boundary 20 the boundary 10 is processed with the flag unset, and its
    epoch loop runs no iteration, not [10 - 20]. *)
Lemma decreasing_checkpoints_run_no_epoch :
  CHECKPOINTS (PList [PInt 20; PInt 10]) = Ok [PInt 20; PInt 10]
  /\ decided_to_stop_early Toy.after_20 = false
  /\ last_checkpoint Toy.after_20 = 20
  /\ Z.of_nat (epochs (snd (train_block (Toy.plain (PList [PInt 20; PInt 10])) 10 Toy.after_20))
               - epochs Toy.after_20)
     <> 10 - last_checkpoint Toy.after_20.
Proof. vm_compute. repeat split; discriminate. Qed.

End CheckpointFacts.

(** ** The diagnostic recorder *)

Module RecorderFacts.
Import TrainNN Rules TrainingFacts.

Section Recorder.
Context `{Collaborators}.

(** What one mini-batch step does to the counter, the log and the
    curves.  The diagnostic block runs exactly when the counter of the
    progress bar, after its update, satisfies [(n+1) % HOW_OFTEN == 0];
    it then appends the loss of the batch to the training curve and the
    loss of one forward pass on the held-out set to the validation curve,
    and, with early stopping, calls the stopper on the mean of the slice
    [val_loss_curve[-STRIDE:]]. *)
Lemma batch_step_records (E : env) (X y : Tensor) (st : state) :
  trainable E ->
  let st' := snd (batch_step E (X, y) st) in
  pbar_n st' = pbar_n st + 1
  /\ if (pbar_n st + 1 + 1) mod HOW_OFTEN (cfg E) =? 0
     then exists loss r rest,
         log st' = (log st ++ EvTrainStep (dropout E) :: EvTick (pbar_n st') :: rest)%list
         /\ train_loss_curve st' = (train_loss_curve st ++ [loss])%list
         /\ val_loss_curve st'
            = (val_loss_curve st
               ++ [loss_fn (fst (forward (nn st') r (x_test (data E)))) (y_test (data E))])%list
         /\ (if EARLY_STOPPING (cfg E)
             then forall s, early_stopper st = Some s ->
                  exists m,
                    avg (slice_from_neg (val_loss_curve st') (STRIDE (cfg E))) = Ok m
                    /\ rest = [EvStopper m (fst (stopper_call s m))]
                    /\ decided_to_stop_early st' = fst (stopper_call s m)
                    /\ early_stopper st' = Some (snd (stopper_call s m))
             else rest = [] /\ decided_to_stop_early st' = decided_to_stop_early st)
     else log st' = (log st ++ [EvTrainStep (dropout E)])%list
          /\ train_loss_curve st' = train_loss_curve st
          /\ val_loss_curve st' = val_loss_curve st
          /\ decided_to_stop_early st' = decided_to_stop_early st.
Proof.
  intros (Hhow & Hmc & Hplot & Hstride). cbn zeta.
  remember ((pbar_n st + 1 + 1) mod HOW_OFTEN (cfg E) =? 0) as tick eqn:Htick.
  destruct (dropout E) eqn:Hdrop.
  all: unfold_statements; rewrite ?Hdrop.
  all: run_all.
  all: repeat match goal with
         | Hr : py_mod _ _ = Ok _ |- _ => apply py_mod_ok in Hr; destruct Hr as [_ ->]
         | Hr : py_mod _ _ = Raise _ |- _ => apply py_mod_raise in Hr; tauto
         | Hn : true = true -> is_Some None |- _ =>
             destruct (Hn eq_refl) as [? Hx]; discriminate Hx
         | Hle : (N_MC_SAMPLES _ <=? 0) = true |- _ =>
             specialize (Hmc eq_refl); apply Z.leb_le in Hle; lia
         end.
  all: try congruence.
  all: try match goal with
         | Hr : avg (slice_from_neg (?l ++ [?x]) _) = Raise _ |- _ =>
             let Hne := fresh in
             assert (Hne : slice_from_neg (l ++ [x]) (STRIDE (cfg E)) <> [])
               by (apply slice_from_neg_nonempty; [auto|intros Hnil; destruct l; discriminate Hnil]);
             destruct (avg_ok _ Hne) as [m Hm]; congruence
         end.
  all: split; [reflexivity|].
  all: try (repeat split; rewrite <- ?app_assoc; reflexivity).
  all: match goal with
       | Hf : forward _ ?r (x_test _) = _ |- _ => eexists _, r, _; rewrite Hf
       end.
  all: repeat match goal with |- _ /\ _ => split end.
  all: rewrite <- ?app_assoc; cbn [app fst]; try reflexivity.
  all: intros s1 Hs1; try discriminate Hs1.
  all: injection Hs1 as <-.
  all: match goal with
       | Ha : avg _ = Ok ?m, Hc : stopper_call _ ?m = _ |- _ =>
           exists m; rewrite Hc; cbn [fst snd]; auto
       end.
Qed.
End Recorder.

(** C3 at its failing input.  With the checkpoints [1, 2], three batches
    an epoch and [HOW_OFTEN = 3], the diagnostic block runs after the
    mini-batch steps 2 and 4 of the run, both times at the count 2 of a
    progress bar that the second boundary restarts at [last_checkpoint]:
    the step 4 does not satisfy [(step+1) % 3 == 0], and the two ticks
    are two steps apart.  The same counter gives the realized epoch count
    recorded at the second boundary, [4/3] for two epochs. *)
Theorem ticks_drift_across_checkpoints :
  tick_steps 0 (log Toy.two_checkpoints) = [2; 4]
  /\ (2 + 1) mod 3 = 0
  /\ (4 + 1) mod 3 <> 0
  /\ List.filter is_tick (log Toy.two_checkpoints) = [EvTick 2; EvTick 2]
  /\ hyperparameters Toy.two_checkpoints !! "n_epochs" = Some (PFloat (4 # 3)).
Proof. vm_compute. repeat split; discriminate. Qed.

End RecorderFacts.

(** ** Evaluation and persistence at a checkpoint *)

Ltac unfold_stage :=
  unfold TrainNN.persistence, TrainNN.grid_predictions, TrainNN.uncertainty_metrics,
    TrainNN.grid_metrics, TrainNN.distributional_metrics, TrainNN.point_metrics,
    TrainNN.predict, TrainNN.grid_to, TrainNN.assign, TrainNN.name, TrainNN.try_except,
    TrainNN.emit, TrainNN.lift, TrainNN.bind, TrainNN.get, TrainNN.modify, TrainNN.ret,
    TrainNN.raise.

Module StageFacts.
Import TrainNN Rules TrainingFacts.

Section Stage.
Context `{Collaborators}.

(** Closes the goals a run of a stage statement leaves: the frame, the
    growth of the log, the curves in the record. *)
Ltac stage_solve Hun Hg Hrec :=
  split; [exact Hun|];
  split;
  [ first [ exact Hg
          | eapply grew_app;
            [exact Hg|cbn; rewrite <- ?app_assoc; reflexivity|
             cbn; repeat (apply andb_true_intro; split); auto] ]
  | let Hr := fresh in
    intros Hr; specialize (Hrec Hr); unfold curves_recorded in *; cbn;
    rewrite ?lookup_insert_ne by discriminate; exact Hrec ].

Lemma predict_inv (E : env) (points : Tensor) (allowed : event -> bool) (st0 : state)
    (recorded : bool) :
  (forall ev, evaluation_event (dropout E) ev = true -> allowed ev = true) ->
  hoare (stage_inv allowed st0 recorded) (predict E points)
        (fun _ st => stage_inv allowed st0 recorded st)
        (fun _ st => stage_inv allowed st0 recorded st).
Proof.
  intros Hall st (Hun & Hg & Hrec).
  assert (Hp : allowed (EvPredict (dropout E)) = true) by (apply Hall; cbn; apply eqb_reflx).
  unfold_stage. run_all.
  all: stage_solve Hun Hg Hrec.
Qed.


Lemma grid_predictions_inv (E : env) (allowed : event -> bool) (st0 : state) (recorded : bool) :
  (forall ev, evaluation_event (dropout E) ev = true -> allowed ev = true) ->
  hoare (stage_inv allowed st0 recorded) (grid_predictions E)
        (fun _ st => stage_inv allowed st0 recorded st)
        (fun _ st => stage_inv allowed st0 recorded st).
Proof.
  intros Hall st (Hun & Hg & Hrec).
  assert (Hp : allowed (EvPredict (dropout E)) = true) by (apply Hall; cbn; apply eqb_reflx).
  unfold_stage. run_all.
  all: stage_solve Hun Hg Hrec.
Qed.

Lemma grid_block_inv (E : env) (allowed : event -> bool) (st0 : state) (recorded : bool) :
  (forall ev, evaluation_event (dropout E) ev = true -> allowed ev = true) ->
  hoare (stage_inv allowed st0 recorded) (grid_block E)
        (fun _ st => stage_inv allowed st0 recorded st)
        (fun _ st => stage_inv allowed st0 recorded st).
Proof.
  intros Hall. unfold grid_block.
  apply (hoare_try_except _ _ _ _ _ _ (fun _ st => stage_inv allowed st0 recorded st)).
  - apply grid_predictions_inv. exact Hall.
  - intros e _. unfold emit. apply hoare_modify. intros st (Hun & Hg & Hrec).
    assert (Hw : allowed EvWarnGrids = true) by (apply Hall; reflexivity).
    stage_solve Hun Hg Hrec.
  - auto.
Qed.

Lemma uncertainty_metrics_inv (E : env) (use_quantiles : bool) (allowed : event -> bool)
    (st0 : state) (recorded : bool) :
  hoare (stage_inv allowed st0 recorded) (uncertainty_metrics E use_quantiles)
        (fun _ st => stage_inv allowed st0 recorded st)
        (fun _ st => stage_inv allowed st0 recorded st).
Proof.
  intros st (Hun & Hg & Hrec).
  destruct use_quantiles.
  all: unfold_stage; cbn [tag_of String.append].
  all: run_all.
  all: stage_solve Hun Hg Hrec.
Qed.

Lemma distributional_metrics_inv (E : env) (allowed : event -> bool) (st0 : state)
    (recorded : bool) :
  hoare (stage_inv allowed st0 recorded) (distributional_metrics E)
        (fun _ st => stage_inv allowed st0 recorded st)
        (fun _ st => stage_inv allowed st0 recorded st).
Proof.
  intros st (Hun & Hg & Hrec).
  unfold_stage. run_all.
  all: stage_solve Hun Hg Hrec.
Qed.

Lemma point_metrics_inv (E : env) (allowed : event -> bool) (st0 : state) (recorded : bool) :
  hoare (stage_inv allowed st0 recorded) (point_metrics E)
        (fun _ st => stage_inv allowed st0 recorded st)
        (fun _ st => stage_inv allowed st0 recorded st).
Proof.
  intros st (Hun & Hg & Hrec).
  unfold_stage. run_all.
  all: stage_solve Hun Hg Hrec.
Qed.


Lemma stage_inv_assign (allowed : event -> bool) (st0 st : state) (recorded : bool)
    (key : string) (v : pyval) :
  key <> "val_loss_curve" -> key <> "train_loss_curve" ->
  stage_inv allowed st0 recorded st ->
  stage_inv allowed st0 recorded (set_hyperparameters (<[key := v]> (hyperparameters st)) st).
Proof.
  intros Hv Ht (Hun & Hg & Hrec). split; [exact Hun|]. split; [exact Hg|].
  intros Hr. destruct (Hrec Hr) as [H1 H2]. split; cbn.
  - rewrite lookup_insert_ne by exact Hv. exact H1.
  - rewrite lookup_insert_ne by exact Ht. exact H2.
Qed.

Lemma metrics_inv (E : env) (n_epochs : Z) (allowed : event -> bool) (st0 : state)
    (recorded : bool) :
  (forall ev, evaluation_event (dropout E) ev = true -> allowed ev = true) ->
  hoare (stage_inv allowed st0 recorded) (metrics E n_epochs)
        (fun _ st => stage_inv allowed st0 true st)
        (fun _ st => stage_inv allowed st0 false st).
Proof.
  intros Hall.
  assert (Hm : allowed (EvMetrics n_epochs (dropout E)) = true).
  { apply Hall. cbn. apply eqb_reflx. }
  assert (Hweak : forall st, stage_inv allowed st0 recorded st -> stage_inv allowed st0 false st).
  { intros st (Hun & Hg & _). split; [exact Hun|]. split; [exact Hg|discriminate]. }
  assert (Hweak' : forall st, stage_inv allowed st0 true st -> stage_inv allowed st0 false st).
  { intros st (Hun & Hg & _). split; [exact Hun|]. split; [exact Hg|discriminate]. }
  unfold metrics, emit, assign.
  apply (hoare_bind _ _ _ (fun _ st => stage_inv allowed st0 recorded st)).
  { apply hoare_modify. intros st (Hun & Hg & Hrec). stage_solve Hun Hg Hrec. }
  intros u.
  apply (hoare_bind _ _ _ (fun a st => a = st /\ stage_inv allowed st0 recorded st)).
  { apply hoare_get. auto. }
  intros st1.
  apply (hoare_bind _ _ _ (fun _ st =>
           val_loss_curve st = val_loss_curve st1 /\ train_loss_curve st = train_loss_curve st1
           /\ stage_inv allowed st0 recorded st)).
  { destruct (_ =? 0).
    - apply hoare_raise. intros st [_ Hinv]. auto.
    - apply hoare_modify. intros st [-> Hinv]. split; [reflexivity|]. split; [reflexivity|].
      apply stage_inv_assign; [discriminate|discriminate|exact Hinv]. }
  intros u1.
  apply (hoare_bind _ _ _ (fun _ st =>
           val_loss_curve st = val_loss_curve st1 /\ train_loss_curve st = train_loss_curve st1
           /\ stage_inv allowed st0 recorded st)).
  { apply hoare_modify. intros st (Hv & Ht & Hinv). split; [exact Hv|]. split; [exact Ht|].
    apply stage_inv_assign; [discriminate|discriminate|exact Hinv]. }
  intros u2.
  apply (hoare_bind _ _ _ (fun _ st =>
           train_loss_curve st = train_loss_curve st1
           /\ hyperparameters st !! "val_loss_curve"
              = Some (PList (map PFloat (val_loss_curve st)))
           /\ stage_inv allowed st0 false st)).
  { apply hoare_modify. intros st (Hv & Ht & Hinv). cbn. rewrite Hv.
    split; [exact Ht|]. split; [apply lookup_insert_eq|].
    destruct Hinv as (Hun & Hg & _). split; [exact Hun|]. split; [exact Hg|discriminate]. }
  intros u3.
  apply (hoare_bind _ _ _ (fun _ st => stage_inv allowed st0 true st)).
  { apply hoare_modify. intros st (Ht & Hv & Hun & Hg & _).
    split; [exact Hun|]. split; [exact Hg|]. intros _. split; cbn.
    - rewrite lookup_insert_ne by discriminate. exact Hv.
    - rewrite Ht. apply lookup_insert_eq. }
  intros u4. destruct (dropout E).
  - apply (hoare_bind _ _ _ (fun _ st => stage_inv allowed st0 true st)).
    + eapply hoare_conseq; [apply (distributional_metrics_inv E allowed st0 true)|auto|auto|auto].
    + intros u5. eapply hoare_conseq.
      * apply (hoare_for_each _ _ (stage_inv allowed st0 true)
                 (fun _ st => stage_inv allowed st0 true st)).
        intros q _. eapply hoare_conseq; [apply (uncertainty_metrics_inv E q allowed st0 true)|auto|auto|auto].
      * auto.
      * auto.
      * auto.
  - eapply hoare_conseq; [apply (point_metrics_inv E allowed st0 true)|auto|auto|auto].
Qed.

Lemma evaluation_inv (E : env) (n_epochs : Z) (allowed : event -> bool) (st0 : state)
    (recorded : bool) :
  (forall ev, evaluation_event (dropout E) ev = true -> allowed ev = true) ->
  hoare (stage_inv allowed st0 recorded) (evaluation E n_epochs)
        (fun _ st => stage_inv allowed st0 true st)
        (fun _ st => stage_inv allowed st0 false st).
Proof.
  intros Hall.
  assert (Hweak : forall st, stage_inv allowed st0 recorded st -> stage_inv allowed st0 false st).
  { intros st (Hun & Hg & _). split; [exact Hun|]. split; [exact Hg|discriminate]. }
  unfold evaluation.
  apply (hoare_bind _ _ _ (fun _ st => stage_inv allowed st0 recorded st)).
  { eapply hoare_conseq; [apply (predict_inv E _ allowed st0 recorded Hall)|auto|auto|auto]. }
  intros p.
  apply (hoare_bind _ _ _ (fun _ st => stage_inv allowed st0 recorded st)).
  { apply hoare_modify. intros st (Hun & Hg & Hrec). stage_solve Hun Hg Hrec. }
  intros u.
  apply (hoare_bind _ _ _ (fun _ st => stage_inv allowed st0 recorded st)).
  { eapply hoare_conseq; [apply (grid_block_inv E allowed st0 recorded Hall)|auto|auto|auto]. }
  intros u'. apply metrics_inv. exact Hall.
Qed.


Lemma aligned_record_saved (st : state) (filename : string) (record : gmap string pyval) :
  aligned st ->
  record !! "val_loss_curve" = Some (PList (map PFloat (val_loss_curve st))) ->
  record !! "train_loss_curve" = Some (PList (map PFloat (train_loss_curve st))) ->
  aligned_record (EvSaveJson filename record).
Proof.
  intros Hal Hv Ht. unfold aligned_record, curve_length. rewrite Hv, Ht.
  rewrite !length_map. unfold aligned in Hal. rewrite Hal. split; [reflexivity|eexists; reflexivity].
Qed.

Lemma persistence_inv (E : env) (allowed : event -> bool) (st0 : state) :
  (forall ev, persistence_event ev = true -> allowed ev = true) ->
  hoare (fun st => stage_inv allowed st0 true st /\ aligned st
                   /\ Forall aligned_record (log st))
        (persistence E)
        (fun _ st => stage_inv allowed st0 true st /\ Forall aligned_record (log st))
        (fun _ st => stage_inv allowed st0 true st /\ Forall aligned_record (log st)).
Proof.
  intros Hall st ((Hun & Hg & Hrec) & Hal & Hlog).
  assert (Hw : allowed EvWarnDemo = true) by (apply Hall; reflexivity).
  assert (Hr : forall f, allowed (EvRemove f) = true) by (intros; apply Hall; reflexivity).
  assert (Hm : forall f, allowed (EvSaveModel f) = true) by (intros; apply Hall; reflexivity).
  assert (Hj : forall f r, allowed (EvSaveJson f r) = true) by (intros; apply Hall; reflexivity).
  assert (Hp : allowed EvPrint = true) by (apply Hall; reflexivity).
  destruct (Hrec eq_refl) as [Hcv Hct].
  unfold_stage. run_all.
  all: split; [stage_solve Hun Hg Hrec|].
  all: cbn; rewrite ?Forall_app; repeat split; try exact Hlog.
  all: repeat (apply Forall_cons; split); try apply Forall_nil; try exact I.
  all: apply (aligned_record_saved st); [exact Hal| |]; cbn;
       rewrite ?lookup_insert_ne by discriminate; assumption.
Qed.

End Stage.
End StageFacts.

(** ** The checkpoint loop and the whole run *)

Module RunFacts.
Import TrainNN Rules TrainingFacts StageFacts.

Section Run.
Context `{Collaborators}.

Lemma after_stop_none (l : list event) : existsb is_stop l = false -> after_stop l = [].
Proof.
  intros Hn. rewrite <- (app_nil_r l). rewrite after_stop_app_none by exact Hn. reflexivity.
Qed.

Lemma flag_inv_weaken (later later' : event -> bool) (st : state) :
  (forall ev, later ev = true -> later' ev = true) ->
  flag_inv later st -> flag_inv later' st.
Proof.
  intros Hw. unfold flag_inv. destruct (decided_to_stop_early st); [|auto].
  intros [Hs Hl]. split; [exact Hs|]. rewrite forallb_forall in *. auto.
Qed.

(** Events that are neither a stop signal nor loud keep the flag in step
    with the log. *)
Lemma flag_inv_grew (later allowed : event -> bool) (st st' : state) :
  (forall ev, allowed ev = true -> later ev = true /\ is_stop ev = false) ->
  flag_inv later st ->
  decided_to_stop_early st' = decided_to_stop_early st ->
  grew (log st) allowed st' ->
  flag_inv later st'.
Proof.
  intros Hev Hfl Hd (evs & Hl & Ha). unfold flag_inv in *. rewrite Hd, Hl.
  assert (Hns : existsb is_stop evs = false).
  { apply not_true_is_false. intros Hex. apply existsb_exists in Hex as (ev & Hin & Hs).
    rewrite forallb_forall in Ha. destruct (Hev ev (Ha ev Hin)) as [_ Hn]. congruence. }
  assert (Hlater : forallb later evs = true).
  { rewrite forallb_forall in *. intros ev Hin. apply (Hev ev (Ha ev Hin)). }
  destruct (decided_to_stop_early st).
  - destruct Hfl as [Hs Hq]. rewrite existsb_app, Hs. split; [reflexivity|].
    rewrite after_stop_app_some by exact Hs. rewrite forallb_app, Hq, Hlater. reflexivity.
  - rewrite existsb_app, Hfl, Hns. reflexivity.
Qed.

Lemma aligned_records_grew (allowed : event -> bool) (st st' : state) :
  (forall ev, allowed ev = true -> is_save_json ev = false) ->
  Forall aligned_record (log st) ->
  grew (log st) allowed st' ->
  Forall aligned_record (log st').
Proof.
  intros Hev Hlog (evs & Hl & Ha). rewrite Hl. apply Forall_app. split; [exact Hlog|].
  apply Forall_forall. intros ev Hin. rewrite forallb_forall in Ha.
  apply list_elem_of_In in Hin.
  specialize (Hev ev (Ha ev Hin)). destruct ev; try exact I. discriminate Hev.
Qed.

Lemma run_inv_training (E : env) (allowed : event -> bool) (l0 : list event) (st st' : state) :
  (forall ev, run_event (dropout E) ev = true -> allowed ev = true) ->
  run_inv allowed l0 st ->
  training_inv (loop_event (dropout E)) (log st) st' ->
  run_inv allowed l0 st'.
Proof.
  intros Hall (_ & _ & Hg & Hlog) (Hal' & Hfl' & Hg'). split; [exact Hal'|]. split.
  - apply (flag_inv_weaken is_epoch); [|exact Hfl']. intros ev Hev. destruct ev; try discriminate; reflexivity.
  - split.
    + apply (grew_trans allowed l0 st); [exact Hg|].
      apply (grew_weaken (loop_event (dropout E))); [|exact Hg'].
      intros ev Hev. apply Hall. unfold run_event. rewrite Hev. reflexivity.
    + apply (aligned_records_grew (loop_event (dropout E)) st); [|exact Hlog|exact Hg'].
      intros ev Hev. destruct ev; try reflexivity; discriminate.
Qed.

Lemma stage_inv_refl (allowed : event -> bool) (st : state) (recorded : bool) :
  (recorded = true -> curves_recorded st) -> stage_inv allowed st recorded st.
Proof.
  intros Hrec. split; [|split; [apply grew_refl|exact Hrec]].
  unfold unchanged. repeat split; reflexivity.
Qed.

Lemma run_inv_stage (E : env) (allowed stage : event -> bool) (l0 : list event)
    (st st' : state) (recorded : bool) :
  (forall ev, run_event (dropout E) ev = true -> allowed ev = true) ->
  (forall ev, stage ev = true ->
     evaluation_event (dropout E) ev || persistence_event ev = true) ->
  run_inv allowed l0 st ->
  stage_inv stage st recorded st' ->
  Forall aligned_record (log st') ->
  run_inv allowed l0 st'.
Proof.
  intros Hall Hst (Hal & Hfl & Hg & _) ((Hd & Ht & Hv & _) & Hg' & _) Hlog'.
  split; [unfold aligned in *; rewrite Ht, Hv; exact Hal|]. split.
  - apply (flag_inv_grew quiet stage st st'); [|exact Hfl|exact Hd|exact Hg'].
    intros ev Hev. specialize (Hst ev Hev).
    destruct ev; try discriminate Hst; split; reflexivity.
  - split; [|exact Hlog'].
    apply (grew_trans allowed l0 st); [exact Hg|].
    apply (grew_weaken stage); [|exact Hg'].
    intros ev Hev. apply Hall. specialize (Hst ev Hev). unfold run_event.
    apply orb_true_iff in Hst as [Hst|Hst]; rewrite Hst; rewrite ?orb_true_r; reflexivity.
Qed.

Lemma checkpoint_body_inv (E : env) (n_epochs : Z) (allowed : event -> bool) (l0 : list event) :
  (forall ev, run_event (dropout E) ev = true -> allowed ev = true) ->
  hoare (run_inv allowed l0) (checkpoint_body E n_epochs)
        (fun _ st => run_inv allowed l0 st)
        (fun _ st => run_inv allowed l0 st).
Proof.
  intros Hall. unfold checkpoint_body.
  apply (hoare_bind _ _ _ (fun a st => a = st /\ run_inv allowed l0 st)).
  { apply hoare_get. auto. }
  intros st0. destruct (decided_to_stop_early st0) eqn:Hd.
  { apply hoare_ret. intros st [_ Hinv]. exact Hinv. }
  apply (hoare_bind _ _ _ (fun _ st => run_inv allowed l0 st)).
  { intros st [-> Hinv].
    assert (Htr : training_inv (loop_event (dropout E)) (log st) st).
    { destruct Hinv as (Hal & Hfl & _). split; [exact Hal|]. split; [|apply grew_refl].
      unfold flag_inv in *. rewrite Hd in *. exact Hfl. }
    pose proof (train_block_inv E n_epochs (loop_event (dropout E)) (log st)
                  (fun ev Hev => Hev) st Htr) as Hrun.
    destruct (train_block E n_epochs st) as [[u|e] st'];
      apply (run_inv_training E allowed l0 st st' Hall Hinv Hrun). }
  intros u.
  apply (hoare_bind _ _ _ (fun _ st => run_inv allowed l0 st /\ curves_recorded st)).
  { intros st Hinv.
    pose proof (evaluation_inv E n_epochs (evaluation_event (dropout E)) st false
                  (fun ev Hev => Hev) st
                  (stage_inv_refl _ st false (fun Hf => False_ind _ (diff_false_true Hf)))) as Hrun.
    assert (Hsub : forall ev, evaluation_event (dropout E) ev = true ->
                     evaluation_event (dropout E) ev || persistence_event ev = true)
      by (intros ev ->; reflexivity).
    assert (Hlog : forall st' r, stage_inv (evaluation_event (dropout E)) st r st' ->
                     Forall aligned_record (log st')).
    { intros st' r (_ & Hg' & _).
      apply (aligned_records_grew (evaluation_event (dropout E)) st); [|apply Hinv|exact Hg'].
      intros ev Hev. destruct ev; try reflexivity; discriminate. }
    destruct (evaluation E n_epochs st) as [[u0|e] st'].
    - split; [|apply Hrun; reflexivity].
      apply (run_inv_stage E allowed _ l0 st st' true Hall Hsub Hinv Hrun (Hlog _ _ Hrun)).
    - apply (run_inv_stage E allowed _ l0 st st' false Hall Hsub Hinv Hrun (Hlog _ _ Hrun)). }
  intros u'. intros st [Hinv Hrec].
  pose proof (persistence_inv E persistence_event st (fun ev Hev => Hev) st
                (conj (stage_inv_refl _ st true (fun _ => Hrec))
                      (conj (proj1 Hinv) (proj2 (proj2 (proj2 Hinv)))))) as Hrun.
  assert (Hsub : forall ev, persistence_event ev = true ->
                   evaluation_event (dropout E) ev || persistence_event ev = true)
    by (intros ev ->; apply orb_true_r).
  destruct (persistence E st) as [[u0|e] st']; destruct Hrun as [Hst Hlog];
    apply (run_inv_stage E allowed _ l0 st st' true Hall Hsub Hinv Hst Hlog).
Qed.

Lemma checkpoint_loop_inv (E : env) (checkpoints : list pyval) (allowed : event -> bool)
    (l0 : list event) :
  (forall ev, run_event (dropout E) ev = true -> allowed ev = true) ->
  hoare (run_inv allowed l0) (checkpoint_loop E checkpoints)
        (fun _ st => run_inv allowed l0 st)
        (fun _ st => run_inv allowed l0 st).
Proof.
  intros Hall. unfold checkpoint_loop. apply hoare_for_each.
  intros n _. apply checkpoint_body_inv. exact Hall.
Qed.

(** Once the flag is set the checkpoint loop does nothing at all. *)
Lemma checkpoint_loop_skips (E : env) (checkpoints : list pyval) (st : state) :
  decided_to_stop_early st = true ->
  checkpoint_loop E checkpoints st = (Normal tt, st).
Proof.
  intros Hd. unfold checkpoint_loop.
  induction (map int_value checkpoints) as [|n l IH]; [reflexivity|].
  cbn [for_each]. unfold bind at 1. unfold checkpoint_body at 1.
  unfold bind, get. rewrite Hd. cbn. exact IH.
Qed.

(** With the flag set an iteration of the epoch loop only logs itself. *)
Lemma epoch_loop_idles (E : env) (n_epochs : Z) (l : list nat) (st : state) :
  decided_to_stop_early st = true ->
  for_each (epoch_body E n_epochs) l st
  = (Normal tt, set_log (log st ++ map (EvEpoch n_epochs) l) st).
Proof.
  revert st. induction l as [|e l IH]; intros st Hd.
  - cbn. rewrite app_nil_r. destruct st. reflexivity.
  - cbn [for_each]. unfold bind at 1. unfold epoch_body at 1.
    unfold bind, emit, modify, get. cbn. rewrite Hd. cbn.
    rewrite IH by exact Hd. cbn. rewrite <- app_assoc. reflexivity.
Qed.

(** The mini-batch loop is left as soon as a step answers [break]. *)
Lemma batches_break (E : env) (b : Tensor * Tensor) (rest : list (Tensor * Tensor))
    (st st' : state) :
  batch_step E b st = (Normal true, st') ->
  for_each_break (batch_step E) (b :: rest) st = (Normal tt, st').
Proof. intros Hb. cbn [for_each_break]. unfold bind. rewrite Hb. reflexivity. Qed.


Lemma aligned_records_probe (l : list event) (mc : bool) :
  Forall aligned_record l -> Forall aligned_record (l ++ [EvProbe mc]).
Proof.
  intros Hl. apply Forall_app. split; [exact Hl|].
  apply List.Forall_cons; [exact I|apply List.Forall_nil].
Qed.

Lemma run_inv_script (mc : bool) (l0 : list event) (st : state) :
  run_inv (run_event mc) (l0 ++ [EvProbe mc]) st -> script_inv l0 st.
Proof.
  intros (Hal & Hfl & (evs & Hl & Ha) & Hlog). split; [exact Hal|]. split.
  - unfold flag_inv in Hfl. destruct (decided_to_stop_early st).
    + apply Hfl.
    + rewrite after_stop_none by exact Hfl. reflexivity.
  - split; [exact Hlog|]. right. exists mc, evs. rewrite Hl, <- app_assoc. auto.
Qed.

Lemma script_keeps (c : Cli.cli) (cf : config) (d : data_module) (st : state) :
  aligned st -> existsb is_stop (log st) = false -> Forall aligned_record (log st) ->
  script_inv (log st) (snd (script c cf d st)).
Proof.
  intros Hal Hns Hlog.
  assert (Hdone : forall E l s2,
             dropout E = dropout E ->
             run_inv (run_event (dropout E)) (log st ++ [EvProbe (dropout E)]) s2 ->
             script_inv (log st) (snd (checkpoint_loop E l s2))).
  { intros E l s2 _ Hinv.
    pose proof (checkpoint_loop_inv E l (run_event (dropout E)) _ (fun ev Hev => Hev) s2 Hinv)
      as Hrun.
    destruct (checkpoint_loop E l s2) as [[u|e] st']; apply (run_inv_script _ _ _ Hrun). }
  unfold script, probe, initial_frames, plot, capture, emit, lift, bind, get, modify, ret, raise.
  run_all.
  all: try match goal with
         | |- script_inv _ (snd (checkpoint_loop ?E ?l ?s2)) =>
             apply (Hdone E l s2 eq_refl); unfold run_inv, aligned, flag_inv; cbn;
             split; [reflexivity|]; split; [rewrite existsb_app, Hns; reflexivity|];
             split; [exists []; rewrite app_nil_r; auto|];
             apply aligned_records_probe; exact Hlog
         end.
  all: unfold script_inv; cbn.
  all: split; [exact Hal|].
  all: split; [rewrite after_stop_none; [reflexivity|rewrite ?existsb_app, Hns; reflexivity]|].
  all: split; [first [exact Hlog|apply aligned_records_probe; exact Hlog]|].
  all: first [left; reflexivity|right; eexists _, []; split; reflexivity].
Qed.

(** When the checkpoint list is rejected the script raises before the
    checkpoint loop: the network is as it was and the log holds at most
    the probe. *)
Lemma script_rejects (c : Cli.cli) (cf : config) (d : data_module) (st : state) (e : exn) :
  CHECKPOINTS (N_EPOCHS cf) = Raise e ->
  (exists e', fst (script c cf d st) = Raised e')
  /\ nn (snd (script c cf d st)) = nn st
  /\ (log (snd (script c cf d st)) = log st
      \/ exists mc, log (snd (script c cf d st)) = (log st ++ [EvProbe mc])%list).
Proof.
  intros Hck.
  unfold script, probe, initial_frames, plot, capture, emit, lift, bind, get, modify, ret, raise.
  rewrite Hck.
  run_all.
  all: split; [eexists; reflexivity|]; split; [reflexivity|].
  all: first [left; reflexivity|right; eexists; reflexivity].
Qed.


(** A step that answers [break] has just set the flag, and one that goes
    on has left it unset. *)
Lemma batch_step_break_iff (E : env) (b : Tensor * Tensor) (st st' : state) (stop : bool) :
  decided_to_stop_early st = false ->
  batch_step E b st = (Normal stop, st') ->
  decided_to_stop_early st' = stop.
Proof.
  intros Hd. destruct b as [X y]. unfold_statements.
  run_all; intros [= <- <-]; cbn; congruence.
Qed.


End Run.

(** C4.  In the log of a run nothing after the first raised stop signal
    is a gradient step, a diagnostic tick or a call of the stopper.  The
    step that sets the flag answers [break], which leaves the mini-batch
    loop at once; with the flag set the remaining iterations of the
    epoch loop only pass, and the checkpoint loop leaves the state as it
    is for every remaining boundary. *)
Theorem early_stop_unwinds `{Collaborators} :
  (forall c cf d p r h,
      forallb quiet (after_stop (log (snd (script c cf d (initial_state p r h))))) = true)
  /\ (forall E b st st' stop,
        decided_to_stop_early st = false ->
        batch_step E b st = (Normal stop, st') ->
        decided_to_stop_early st' = stop)
  /\ (forall E b rest st st',
        batch_step E b st = (Normal true, st') ->
        for_each_break (batch_step E) (b :: rest) st = (Normal tt, st'))
  /\ (forall E n_epochs l st,
        decided_to_stop_early st = true ->
        for_each (epoch_body E n_epochs) l st
        = (Normal tt, set_log (log st ++ map (EvEpoch n_epochs) l) st))
  /\ (forall E checkpoints st,
        decided_to_stop_early st = true ->
        checkpoint_loop E checkpoints st = (Normal tt, st)).
Proof.
  split.
  { intros c cf d p r h.
    destruct (script_keeps c cf d (initial_state p r h)) as (_ & Hq & _);
      [reflexivity|reflexivity|constructor|exact Hq]. }
  split; [intros E b st st' stop; apply batch_step_break_iff|].
  split; [intros E b rest st st'; apply batches_break|].
  split; [intros E n l st; apply epoch_loop_idles|].
  intros E l st. apply checkpoint_loop_skips.
Qed.

Lemma early_stop_unwinds_witness :
  decided_to_stop_early Toy.stopped = true
  /\ existsb is_stop (log Toy.stopped) = true
  /\ checkpoint_loop Toy.early_stopping [PInt 30] Toy.stopped = (Normal tt, Toy.stopped).
Proof.
  assert (Hd : decided_to_stop_early Toy.stopped = true) by (vm_compute; reflexivity).
  assert (Hs : existsb is_stop (log Toy.stopped) = true) by (vm_compute; reflexivity).
  exact (conj Hd (conj Hs
           (proj2 (proj2 (proj2 (proj2 (@early_stop_unwinds Toy.stochastic))))
              Toy.early_stopping [PInt 30] Toy.stopped Hd))).
Defined.


End RunFacts.

(** ** The checkpoint list *)

Module CheckpointListFacts.
Import TrainNN Rules RunFacts.

Lemma normalize_total (v : pyval) : exists l, normalize v = Ok l.
Proof. destruct v; eexists; reflexivity. Qed.

Lemma validate_spec (l : list pyval) :
  validate l = if forallb is_checkpoint l then Ok tt else Raise AssertionError.
Proof.
  induction l as [|v l IH]; [reflexivity|].
  cbn [validate forallb]. unfold is_checkpoint at 1.
  destruct (isinstance_int v); [|reflexivity].
  destruct (0 <=? int_value v); [|reflexivity].
  exact IH.
Qed.

Lemma CHECKPOINTS_spec (v : pyval) (l : list pyval) :
  normalize v = Ok l ->
  CHECKPOINTS v = if forallb is_checkpoint l then Ok l else Raise AssertionError.
Proof.
  intros Hn. unfold CHECKPOINTS. rewrite Hn, validate_spec.
  destruct (forallb is_checkpoint l); reflexivity.
Qed.

(** C2.  An integer becomes the list of that integer and a list is kept
    as it is; the checkpoint list is accepted exactly when each element
    is an [int] (as [isinstance] has it) that is not negative, and is an
    [AssertionError] otherwise; when it is rejected the script raises
    with the network untouched and nothing but the probe logged. *)
Theorem checkpoints_normalized_and_validated `{Collaborators} :
  (forall n, normalize (PInt n) = Ok [PInt n])
  /\ (forall l, normalize (PList l) = Ok l)
  /\ (forall v, exists l,
         normalize v = Ok l
         /\ CHECKPOINTS v = if forallb is_checkpoint l then Ok l else Raise AssertionError)
  /\ (forall c cf d st e,
         CHECKPOINTS (N_EPOCHS cf) = Raise e ->
         (exists e', fst (script c cf d st) = Raised e')
         /\ nn (snd (script c cf d st)) = nn st
         /\ (log (snd (script c cf d st)) = log st
             \/ exists mc, log (snd (script c cf d st)) = (log st ++ [EvProbe mc])%list)).
Proof.
  split; [reflexivity|]. split; [reflexivity|]. split.
  - intros v. destruct (normalize_total v) as [l Hl]. exists l.
    split; [exact Hl|apply CHECKPOINTS_spec; exact Hl].
  - intros c cf d st e. apply script_rejects.
Qed.

Lemma checkpoints_normalized_and_validated_witness :
  CHECKPOINTS (PList [PInt 10; PInt (-1)]) = Raise AssertionError
  /\ fst (script Toy.command_line (Toy.configuration (PList [PInt 10; PInt (-1)]) false 3)
             Toy.three_batches Toy.start) = Raised AssertionError
  /\ nn (snd (script Toy.command_line (Toy.configuration (PList [PInt 10; PInt (-1)]) false 3)
                Toy.three_batches Toy.start)) = nn Toy.start.
Proof.
  assert (Hck : CHECKPOINTS (N_EPOCHS (Toy.configuration (PList [PInt 10; PInt (-1)]) false 3))
                = Raise AssertionError) by reflexivity.
  destruct (proj2 (proj2 (proj2 (@checkpoints_normalized_and_validated Toy.deterministic)))
              Toy.command_line _ Toy.three_batches Toy.start _ Hck) as (_ & Hnn & _).
  exact (conj Hck (conj eq_refl Hnn)).
Defined.

End CheckpointListFacts.

(** ** The stochasticity probe *)

Module ProbeFacts.
Import TrainNN Rules RunFacts.










Section Probe.
Context `{Collaborators}.



End Probe.




End ProbeFacts.

(** ** What the stage statements keep and what they set *)

Module EvaluationFacts.
Import TrainNN Rules TrainingFacts StageFacts.

Section Keeps.
Context `{Collaborators}.
Variable I : state -> Prop.

Lemma keeps_ret {A : Type} (a : A) : keeps I (ret a).
Proof. apply hoare_ret. auto. Qed.

Lemma keeps_raise {A : Type} (e : exn) : keeps I (@raise _ A e).
Proof. apply hoare_raise. auto. Qed.

Lemma keeps_get : keeps I get.
Proof. apply hoare_get. auto. Qed.

Lemma keeps_modify (f : state -> state) : (forall st, I st -> I (f st)) -> keeps I (modify f).
Proof. intros Hf. apply hoare_modify. exact Hf. Qed.

Lemma keeps_lift {A : Type} (r : result A) : keeps I (lift r).
Proof. apply hoare_lift; auto. Qed.

Lemma keeps_bind {A B : Type} (m : M A) (k : A -> M B) :
  keeps I m -> (forall a, keeps I (k a)) -> keeps I (bind m k).
Proof. intros Hm Hk. apply (hoare_bind _ _ _ (fun _ => I)); assumption. Qed.

Lemma keeps_try_except {A : Type} (m handler : M A) (caught : exn -> bool) :
  keeps I m -> keeps I handler -> keeps I (try_except m caught handler).
Proof.
  intros Hm Hh. apply (hoare_try_except _ _ _ _ _ _ (fun _ => I)); auto.
Qed.

Lemma keeps_for_each {A : Type} (body : A -> M unit) (l : list A) :
  (forall x, keeps I (body x)) -> keeps I (for_each body l).
Proof. intros Hb. apply hoare_for_each. intros x _. apply Hb. Qed.

End Keeps.

(** Walks through a statement, leaving the assignments to check. *)
Ltac keeps_step :=
  lazymatch goal with
  | |- hoare _ (TrainNN.bind _ _) _ _ => apply keeps_bind; [|intros ?]
  | |- hoare _ (TrainNN.ret _) _ _ => apply keeps_ret
  | |- hoare _ (TrainNN.raise _) _ _ => apply keeps_raise
  | |- hoare _ TrainNN.get _ _ => apply keeps_get
  | |- hoare _ (TrainNN.modify _) _ _ => apply keeps_modify; intros ? ?
  | |- hoare _ (TrainNN.lift _) _ _ => apply keeps_lift
  | |- hoare _ (TrainNN.try_except _ _ _) _ _ => apply keeps_try_except
  | |- hoare _ (TrainNN.for_each _ _) _ _ => apply keeps_for_each; intros ?
  | |- hoare _ (match ?x with _ => _ end) _ _ => destruct x
  end.

Ltac in_keys := cbn; repeat first [left; reflexivity|right].

Ltac keeps_auto HS HK :=
  repeat keeps_step;
  try (first
    [ apply (stable_rng _ _ _ HS)
    | apply (stable_predictions _ _ _ HS)
    | apply (stable_first_round _ _ _ HS)
    | apply (stable_log _ _ _ HS)
    | apply (stable_record _ _ _ HS);
      [apply (proj1 (forallb_forall _ _) HK); in_keys|] ];
    try assumption).

Section Stable.
Context `{Collaborators}.
Variables (I : state -> Prop) (K : string -> bool) (V : event -> bool).
Hypothesis HS : stable I K V.

Lemma predict_keeps (E : env) (points : Tensor) :
  V (EvPredict (dropout E)) = true -> keeps I (predict E points).
Proof. intros Hp. unfold predict, emit. keeps_auto HS Hp. Qed.

Lemma grid_predictions_keeps (E : env) :
  stable_grids I -> V (EvPredict (dropout E)) = true -> keeps I (grid_predictions E).
Proof.
  intros HG Hp. unfold grid_predictions, grid_to.
  repeat keeps_step; try (apply predict_keeps; exact Hp);
    first [ apply (stable_interpolary_grid _ HG)
          | apply (stable_extrapolary_grid _ HG)
          | apply (stable_predictions_on_interpolary_grid _ HG)
          | apply (stable_predictions_on_extrapolary_grid _ HG) ];
    assumption.
Qed.

Lemma grid_block_keeps (E : env) :
  stable_grids I -> V (EvPredict (dropout E)) = true -> V EvWarnGrids = true ->
  keeps I (grid_block E).
Proof.
  intros HG Hp Hw. unfold grid_block. apply keeps_try_except.
  - apply grid_predictions_keeps; assumption.
  - unfold emit. keeps_auto HS Hp.
Qed.

Lemma grid_metrics_keeps (E : env) (use_quantiles show : bool) :
  forallb K (grid_keys use_quantiles) = true ->
  keeps I (try_except (grid_metrics E use_quantiles show) is_NameError (ret tt)).
Proof.
  intros HK. unfold grid_metrics, name, assign.
  destruct use_quantiles; cbn [tag_of] in *; keeps_auto HS HK.
Qed.

(** With the predictions on the grids unbound the metrics that need them
    are skipped as a whole. *)
Lemma grid_metrics_skips (E : env) (use_quantiles show : bool) :
  (forall st, I st -> predictions_on_extrapolary_grid st = None) ->
  keeps I (try_except (grid_metrics E use_quantiles show) is_NameError (ret tt)).
Proof.
  intros Hnone st HI.
  unfold try_except, grid_metrics, name, bind, get, raise, ret.
  rewrite (Hnone st HI). cbn. exact HI.
Qed.

Lemma uncertainty_metrics_keeps (E : env) (use_quantiles : bool) :
  forallb K (accuracy_keys use_quantiles) = true ->
  (forall show, keeps I (try_except (grid_metrics E use_quantiles show) is_NameError (ret tt))) ->
  keeps I (uncertainty_metrics E use_quantiles).
Proof.
  intros HK Hgrid. unfold uncertainty_metrics, name, assign.
  destruct use_quantiles; cbn [tag_of] in *;
    repeat (lazymatch goal with
            | |- hoare _ (try_except _ _ _) _ _ => apply Hgrid
            | _ => keeps_step
            end);
    keeps_auto HS HK.
Qed.

Lemma distributional_metrics_keeps (E : env) :
  forallb K distributional_keys = true -> keeps I (distributional_metrics E).
Proof. intros HK. unfold distributional_metrics, name, assign. keeps_auto HS HK. Qed.

Lemma point_metrics_keeps (E : env) :
  forallb K point_keys = true -> keeps I (point_metrics E).
Proof. intros HK. unfold point_metrics, assign. keeps_auto HS HK. Qed.

Lemma metrics_keeps (E : env) (n_epochs : Z) :
  V (EvMetrics n_epochs (dropout E)) = true ->
  forallb K bookkeeping_keys = true ->
  forallb K (metric_keys (dropout E)) = true ->
  (dropout E = true ->
   forall q show, keeps I (try_except (grid_metrics E q show) is_NameError (ret tt))) ->
  keeps I (metrics E n_epochs).
Proof.
  intros Hm HB HK Hgrid. unfold metrics, emit, assign, metric_keys in *.
  destruct (dropout E).
  - specialize (Hgrid eq_refl). rewrite !forallb_app in HK.
    apply andb_prop in HK as [HD HK]. apply andb_prop in HK as [HA1 HA2].
    repeat keeps_step;
      try (apply distributional_metrics_keeps; exact HD);
      try (match goal with
           | |- hoare _ (uncertainty_metrics _ ?x) _ _ =>
               destruct x; apply uncertainty_metrics_keeps; first [assumption|apply Hgrid]
           end);
      keeps_auto HS HB.
  - repeat keeps_step; try (apply point_metrics_keeps; exact HK); keeps_auto HS HB.
Qed.

Lemma evaluation_keeps (E : env) (n_epochs : Z) :
  V (EvPredict (dropout E)) = true ->
  V (EvMetrics n_epochs (dropout E)) = true ->
  forallb K bookkeeping_keys = true ->
  forallb K (metric_keys (dropout E)) = true ->
  keeps I (grid_block E) ->
  (dropout E = true ->
   forall q show, keeps I (try_except (grid_metrics E q show) is_NameError (ret tt))) ->
  keeps I (evaluation E n_epochs).
Proof.
  intros Hp Hm HB HK Hblock Hgrid. unfold evaluation.
  repeat (lazymatch goal with
          | |- hoare _ (grid_block _) _ _ => exact Hblock
          | |- hoare _ (predict _ _) _ _ => apply predict_keeps; exact Hp
          | |- hoare _ (metrics _ _) _ _ => apply metrics_keeps; assumption
          | _ => keeps_step
          end);
    keeps_auto HS HB.
Qed.

Lemma persistence_keeps (E : env) :
  (forall ev, persistence_event ev = true -> V ev = true) ->
  K "filname" = true -> K "MODEL_SAVE_PATH" = true ->
  keeps I (persistence E).
Proof.
  intros HV Hf Hm. unfold persistence, emit, assign.
  repeat keeps_step;
    first [ apply (stable_first_round _ _ _ HS); assumption
          | apply (stable_log _ _ _ HS); [apply HV; reflexivity|assumption]
          | apply (stable_record _ _ _ HS); assumption ].
Qed.

End Stable.

Section Instances.
Context `{Collaborators}.

Lemma stable_and (I1 I2 : state -> Prop) (K1 K2 : string -> bool) (V1 V2 : event -> bool) :
  stable I1 K1 V1 -> stable I2 K2 V2 ->
  stable (fun st => I1 st /\ I2 st) (fun k => K1 k && K2 k) (fun ev => V1 ev && V2 ev).
Proof.
  intros [r1 l1 h1 p1 f1] [r2 l2 h2 p2 f2]. split.
  - intros r st [? ?]; auto.
  - intros ev st Hv [? ?]. apply andb_prop in Hv as [? ?]. auto.
  - intros key v st Hk [? ?]. apply andb_prop in Hk as [? ?]. auto.
  - intros p st [? ?]; auto.
  - intros b st [? ?]; auto.
Qed.

(** Keys that are in the record stay in it. *)
Lemma stable_some_keys (keys : list string) :
  stable (fun st => forall key, In key keys -> is_Some (hyperparameters st !! key))
         (fun _ => true) (fun _ => true).
Proof.
  split; try (intros ? st HI; exact HI).
  - intros ev st _ HI. exact HI.
  - intros k v st _ HI key Hin. cbn. apply lookup_insert_is_Some'. right. apply HI, Hin.
Qed.

Lemma stable_grids_some_keys (keys : list string) :
  stable_grids (fun st => forall key, In key keys -> is_Some (hyperparameters st !! key)).
Proof. split; intros ? st HI; exact HI. Qed.

Lemma stable_some_predictions :
  stable (fun st => is_Some (predictions st)) (fun _ => true) (fun _ => true).
Proof.
  split; try (intros ? st HI; exact HI).
  - intros ev st _ HI. exact HI.
  - intros k v st _ HI. exact HI.
  - intros p st _. eexists. reflexivity.
Qed.

Lemma stable_grids_some_predictions : stable_grids (fun st => is_Some (predictions st)).
Proof. split; intros ? st HI; exact HI. Qed.

(** A key that is not assigned keeps its entry. *)
Lemma stable_kept_key (key : string) (h0 : gmap string pyval) :
  stable (fun st => hyperparameters st !! key = h0 !! key)
         (fun k => negb (String.eqb k key)) (fun _ => true).
Proof.
  split; try (intros ? st HI; exact HI).
  - intros ev st _ HI. exact HI.
  - intros k v st Hk HI. cbn. rewrite lookup_insert_ne; [exact HI|].
    intros ->. rewrite String.eqb_refl in Hk. discriminate Hk.
Qed.

Lemma stable_grids_kept_key (key : string) (h0 : gmap string pyval) :
  stable_grids (fun st => hyperparameters st !! key = h0 !! key).
Proof. split; intros ? st HI; exact HI. Qed.

(** Events other than the warning keep the number of warnings. *)
Lemma stable_warnings (c : nat) :
  stable (fun st => warnings (log st) = c) (fun _ => true) (fun ev => negb (is_warn_grids ev)).
Proof.
  split; try (intros ? st HI; exact HI).
  - intros ev st Hv HI. cbn. unfold warnings in *. rewrite List.filter_app, length_app. cbn.
    apply negb_true_iff in Hv. rewrite Hv. cbn. lia.
  - intros k v st _ HI. exact HI.
Qed.

Lemma stable_unbound :
  stable (fun st => predictions_on_extrapolary_grid st = None) (fun _ => true) (fun _ => true).
Proof.
  split; try (intros ? st HI; exact HI).
  - intros ev st _ HI. exact HI.
  - intros k v st _ HI. exact HI.
Qed.

Lemma hoare_and {A : Type} (m : M A) (P1 P2 : state -> Prop) Q1 Q2 R1 R2 :
  hoare P1 m Q1 R1 -> hoare P2 m Q2 R2 ->
  hoare (fun st => P1 st /\ P2 st) m (fun a st => Q1 a st /\ Q2 a st)
        (fun e st => R1 e st /\ R2 e st).
Proof.
  intros H1 H2 st [HP1 HP2]. specialize (H1 st HP1). specialize (H2 st HP2).
  destruct (m st) as [[a|e] st']; auto.
Qed.

End Instances.

Section Returns.
Context `{Collaborators}.

Lemma stack_forward_nil (k : nat) (p : Params) (r r' : Rng) (points : Tensor) :
  stack_forward k p r points = ([], r') -> k = O.
Proof.
  destruct k as [|k]; [reflexivity|]. cbn.
  destruct (forward p r points) as [t r1]. destruct (stack_forward k p r1 points).
  discriminate.
Qed.

Lemma predict_returns (E : env) (points : Tensor) :
  (dropout E = true -> 0 < N_POSTERIOR_SAMPLES_EVALUATION (cfg E)) ->
  hoare (fun _ => True) (predict E points) (fun _ _ => True) (fun _ _ => False).
Proof.
  intros HN st _. unfold_stage. run_all; try exact I.
  match goal with Hs : stack_forward _ _ _ _ = ([], _) |- _ => apply stack_forward_nil in Hs end.
  specialize (HN eq_refl). unfold range_len in *. lia.
Qed.

Lemma grid_block_returns (E : env) :
  evaluable E ->
  hoare (fun _ => True) (grid_block E) (fun _ _ => True) (fun _ _ => False).
Proof.
  intros (_ & HN & Hdev) st _. unfold grid_block. unfold_stage. run_all; try exact I.
  all: try match goal with
         | Hs : stack_forward _ _ _ _ = ([], _) |- _ =>
             apply stack_forward_nil in Hs; specialize (HN eq_refl); unfold range_len in *; lia
         end.
  all: match goal with
       | Hg : _ = Some (GTensor ?t), Hr : to_device ?t = Raise _ |- _ =>
           destruct (Hdev t) as [t' Ht']; [auto|congruence]
       end.
Qed.

Ltac some_keys :=
  let key := fresh "key" in
  let Hin := fresh "Hin" in
  intros key Hin; cbn in Hin;
  repeat (destruct Hin as [<-|Hin]; [cbn; rewrite ?lookup_insert_ne by discriminate;
                                     rewrite lookup_insert_eq; eexists; reflexivity|]);
  destruct Hin.

Lemma distributional_metrics_sets (E : env) :
  hoare (fun st => is_Some (predictions st)) (distributional_metrics E)
        (fun _ st => forall key, In key distributional_keys ->
                       is_Some (hyperparameters st !! key))
        (fun _ _ => False).
Proof.
  intros st [p Hp]. unfold_stage. rewrite Hp. cbn. some_keys.
Qed.

Lemma point_metrics_sets (E : env) :
  hoare (fun _ => True) (point_metrics E)
        (fun _ st => forall key, In key point_keys -> is_Some (hyperparameters st !! key))
        (fun _ _ => False).
Proof.
  intros st _. unfold_stage. run_all. some_keys.
Qed.

Lemma uncertainty_metrics_sets (E : env) (use_quantiles : bool) :
  hoare (fun st => is_Some (predictions st)) (uncertainty_metrics E use_quantiles)
        (fun _ st => forall key, In key (accuracy_keys use_quantiles) ->
                       is_Some (hyperparameters st !! key))
        (fun _ _ => False).
Proof.
  intros st [p Hp]. destruct use_quantiles.
  all: unfold_stage; rewrite Hp; cbn [tag_of String.append].
  all: run_all.
  all: try discriminate.
  all: some_keys.
Qed.

End Returns.
End EvaluationFacts.

(** ** Metrics dispatch and the auxiliary grids *)

Module DispatchFacts.
Import TrainNN Rules TrainingFacts StageFacts EvaluationFacts.

Section Dispatch.
Context `{Collaborators}.

Lemma forallb_any {A : Type} (l : list A) : forallb (fun _ => true) l = true.
Proof. induction l; [reflexivity|exact IHl]. Qed.

(** The keys in [keys] are in the record and [predictions] is bound. *)
Lemma stable_set (keys : list string) :
  stable (fun st => (forall key, In key keys -> is_Some (hyperparameters st !! key))
                    /\ is_Some (predictions st))
         (fun _ => true) (fun _ => true).
Proof.
  pose proof (stable_and _ _ _ _ _ _ (stable_some_keys keys) stable_some_predictions) as HS.
  destruct HS as [r l h p f]. split; auto.
Qed.

Lemma uncertainty_metrics_returns (E : env) (use_quantiles : bool) (keys : list string) :
  hoare (fun st => (forall key, In key keys -> is_Some (hyperparameters st !! key))
                   /\ is_Some (predictions st))
        (uncertainty_metrics E use_quantiles)
        (fun _ st => (forall key, In key (keys ++ accuracy_keys use_quantiles) ->
                        is_Some (hyperparameters st !! key))
                     /\ is_Some (predictions st))
        (fun _ _ => False).
Proof.
  eapply hoare_conseq.
  - apply (hoare_and _ _ _ _ _ _ _
             (uncertainty_metrics_sets E use_quantiles)
             (uncertainty_metrics_keeps _ _ _ (stable_set keys) E use_quantiles
                (forallb_any _)
                (fun show => grid_metrics_keeps _ _ _ (stable_set keys) E use_quantiles show
                               (forallb_any _)))).
  - intros st [Hk Hp]. split; [exact Hp|]. split; assumption.
  - intros u st [Hacc [Hk Hp]]. split; [|exact Hp].
    intros key Hin. apply in_app_or in Hin as [Hin|Hin]; auto.
  - intros e st [[] _].
Qed.

Lemma metrics_returns (E : env) (n_epochs : Z) :
  dataloader (data E) <> [] ->
  hoare (fun st => dropout E = true -> is_Some (predictions st))
        (metrics E n_epochs)
        (fun _ st => forall key, In key (metric_keys (dropout E)) ->
                       is_Some (hyperparameters st !! key))
        (fun _ _ => False).
Proof.
  intros Hdata. unfold metrics, emit, assign.
  set (P := fun st : state => dropout E = true -> is_Some (predictions st)).
  apply (hoare_bind _ _ _ (fun _ => P)); [apply hoare_modify; auto|intros u].
  apply (hoare_bind _ _ _ (fun _ => P)); [apply hoare_get; auto|intros st0].
  apply (hoare_bind _ _ _ (fun _ => P)).
  { destruct (Z.eqb_spec (Z.of_nat (List.length (dataloader (data E)))) 0) as [Hz|_].
    - exfalso. apply Hdata. destruct (dataloader (data E)); [reflexivity|cbn in Hz; lia].
    - apply hoare_modify. auto. }
  intros u1.
  apply (hoare_bind _ _ _ (fun _ => P)); [apply hoare_modify; auto|intros u2].
  apply (hoare_bind _ _ _ (fun _ => P)); [apply hoare_modify; auto|intros u3].
  apply (hoare_bind _ _ _ (fun _ => P)); [apply hoare_modify; auto|intros u4].
  unfold P, metric_keys. destruct (dropout E).
  - apply (hoare_bind _ _ _
             (fun _ st => (forall key, In key distributional_keys ->
                             is_Some (hyperparameters st !! key))
                          /\ is_Some (predictions st))).
    { eapply hoare_conseq.
      - apply (hoare_and _ _ _ _ _ _ _
                 (distributional_metrics_sets E)
                 (distributional_metrics_keeps _ _ _ stable_some_predictions E (forallb_any _))).
      - intros st Hp. split; apply Hp; reflexivity.
      - intros u' st Hst. exact Hst.
      - intros e st [[] _]. }
    intros u5. cbn [for_each].
    apply (hoare_bind _ _ _ _ _ _ (uncertainty_metrics_returns E true distributional_keys)).
    intros u6.
    apply (hoare_bind _ _ _ _ _ _
             (uncertainty_metrics_returns E false (distributional_keys ++ accuracy_keys true))).
    intros u7. apply hoare_ret. intros st [Hk _] key Hin. apply Hk.
    rewrite <- app_assoc. exact Hin.
  - eapply hoare_conseq; [apply point_metrics_sets|intros; exact Logic.I|auto|auto].
Qed.

Lemma evaluation_returns (E : env) (n_epochs : Z) :
  evaluable E ->
  hoare (fun _ => True) (evaluation E n_epochs)
        (fun _ st => forall key, In key (metric_keys (dropout E)) ->
                       is_Some (hyperparameters st !! key))
        (fun _ _ => False).
Proof.
  intros Hev. pose proof Hev as (Hdata & HN & _). unfold evaluation.
  apply (hoare_bind _ _ _ _ _ _ (predict_returns E _ HN)). intros p.
  apply (hoare_bind _ _ _ (fun _ st => is_Some (predictions st))).
  { apply hoare_modify. intros st _. eexists. reflexivity. }
  intros u.
  apply (hoare_bind _ _ _ (fun _ st => is_Some (predictions st))).
  { eapply hoare_conseq.
    - apply (hoare_and _ _ _ _ _ _ _
               (grid_block_returns E Hev)
               (grid_block_keeps _ _ _ stable_some_predictions E
                  stable_grids_some_predictions eq_refl eq_refl)).
    - intros st Hp. split; [exact Logic.I|exact Hp].
    - intros u' st [_ Hp]. exact Hp.
    - intros e st [[] _]. }
  intros u'. eapply hoare_conseq;
    [apply (metrics_returns E n_epochs Hdata)|intros st Hp _; exact Hp
    |intros u0 st Hk; exact Hk|intros e st []].
Qed.


Lemma not_key_forallb (keys : list string) (key : string) :
  is_key keys key = false ->
  forallb (fun k => negb (String.eqb k key)) keys = true.
Proof.
  unfold is_key. induction keys as [|k keys IH]; [reflexivity|].
  cbn. intros Hn. apply orb_false_elim in Hn as [Hk Hn].
  rewrite String.eqb_sym, Hk. cbn. apply IH, Hn.
Qed.

Lemma is_key_app (xs ys : list string) (key : string) :
  is_key (xs ++ ys) key = is_key xs key || is_key ys key.
Proof. unfold is_key. apply existsb_app. Qed.

(** A key outside those a path assigns keeps its entry through the
    evaluation, however it ends. *)
Lemma evaluation_keeps_key (E : env) (n_epochs : Z) (key : string) (h0 : gmap string pyval) :
  is_key (assigned_keys (dropout E)) key = false ->
  keeps (fun st => hyperparameters st !! key = h0 !! key) (evaluation E n_epochs).
Proof.
  intros Hkey. unfold assigned_keys in Hkey. rewrite !is_key_app in Hkey.
  apply orb_false_elim in Hkey as [HB Hkey]. apply orb_false_elim in Hkey as [HM HG].
  apply (evaluation_keeps _ _ _ (stable_kept_key key h0)).
  - reflexivity.
  - reflexivity.
  - apply not_key_forallb, HB.
  - apply not_key_forallb, HM.
  - apply (grid_block_keeps _ _ _ (stable_kept_key key h0));
      [apply stable_grids_kept_key|reflexivity|reflexivity].
  - intros Hd q show. rewrite Hd in HG. unfold all_grid_keys in HG. rewrite is_key_app in HG.
    apply orb_false_elim in HG as [HG1 HG2].
    apply (grid_metrics_keeps _ _ _ (stable_kept_key key h0)).
    destruct q; apply not_key_forallb; assumption.
Qed.

End Dispatch.

(** C7.  Under a configuration whose evaluation raises nothing, the
    evaluation at a checkpoint returns with every metric key of the path
    of the flag in the record and with every key outside those the path
    assigns as it was.  On the stochastic path the plain keys are not
    assigned; on the deterministic path the only keys assigned that
    start with [METRIC_] are the three plain ones. *)
Theorem metrics_dispatch `{Collaborators} (E : env) (n_epochs : Z) (st : state)
    (Hev : evaluable E) :
  (exists st',
      evaluation E n_epochs st = (Normal tt, st')
      /\ (forall key, In key (metric_keys (dropout E)) ->
            is_Some (hyperparameters st' !! key))
      /\ (forall key, is_key (assigned_keys (dropout E)) key = false ->
            hyperparameters st' !! key = hyperparameters st !! key))
  /\ (forall key, In key distributional_keys -> In key (metric_keys true))
  /\ (forall key, In key point_keys -> is_key (assigned_keys true) key = false)
  /\ (forall key, In key point_keys <-> In key (metric_keys false))
  /\ (forall key, is_key (assigned_keys false) key = true ->
         startswith key "METRIC_" = true -> In key point_keys).
Proof.
  split; [|split; [|split; [|split]]].
  - pose proof (evaluation_returns E n_epochs Hev st Logic.I) as Hret.
    assert (Hkeep : forall key, is_key (assigned_keys (dropout E)) key = false ->
              match evaluation E n_epochs st with
              | (_, st') => hyperparameters st' !! key = hyperparameters st !! key
              end).
    { intros key Hkey.
      pose proof (evaluation_keeps_key E n_epochs key (hyperparameters st) Hkey st eq_refl) as Hk.
      destruct (evaluation E n_epochs st) as [[u|e] st']; exact Hk. }
    destruct (evaluation E n_epochs st) as [[[]|e] st']; [|contradiction].
    exists st'. split; [reflexivity|]. split; [exact Hret|exact Hkeep].
  - intros key Hin. unfold metric_keys. apply in_or_app. left. exact Hin.
  - intros key Hin. cbn in Hin.
    repeat (destruct Hin as [<-|Hin]; [reflexivity|]). destruct Hin.
  - intros key. reflexivity.
  - intros key Hkey Hpre. unfold is_key in Hkey.
    apply existsb_exists in Hkey as (k & Hin & Heq). apply String.eqb_eq in Heq. subst k.
    cbn in Hin.
    repeat (destruct Hin as [<-|Hin]; [first [discriminate Hpre|cbn; tauto]|]).
    destruct Hin.
Qed.

Lemma metrics_dispatch_witness :
  @evaluable Toy.stochastic Toy.sampled
  /\ exists st',
      evaluation Toy.sampled 1 Toy.start_stochastic = (Normal tt, st')
      /\ is_Some (hyperparameters st' !! "METRIC_coverage")
      /\ hyperparameters st' !! "METRIC_rmse" = None.
Proof.
  assert (Hev : @evaluable Toy.stochastic Toy.sampled).
  { split; [discriminate|]. split; [intros _; reflexivity|].
    intros t [Ht|Ht]; injection Ht as <-; eexists; reflexivity. }
  destruct (proj1 (metrics_dispatch Toy.sampled 1 Toy.start_stochastic Hev))
    as (st' & Hrun & Hset & Hkeep).
  assert (Hin : In "METRIC_coverage" (metric_keys (dropout Toy.sampled))).
  { cbn. tauto. }
  exact (conj Hev (ex_intro _ st'
           (conj Hrun (conj (Hset _ Hin) (Hkeep "METRIC_rmse" eq_refl))))).
Defined.

Section Grids.
Context `{Collaborators}.

(** Without the grids the block of lines 277-285 warns once and does
    nothing else. *)
Lemma grid_block_warns (E : env) (st : state) :
  grids_missing (data E) ->
  grid_block E st = (Normal tt, set_log (log st ++ [EvWarnGrids]) st).
Proof.
  intros [Hi _]. unfold grid_block, try_except, grid_predictions, grid_to, bind, raise.
  rewrite Hi. reflexivity.
Qed.

(** [except AttributeError] and [except: raise]. *)
Lemma grid_block_catches (E : env) (s s' : state) (e : exn) :
  grid_predictions E s = (Raised e, s') ->
  grid_block E s
  = if is_AttributeError e
    then (Normal tt, set_log (log s' ++ [EvWarnGrids]) s')
    else (Raised e, s').
Proof.
  intros Hg. unfold grid_block, try_except. rewrite Hg.
  destruct (is_AttributeError e); reflexivity.
Qed.

Lemma evaluation_propagates (E : env) (n_epochs : Z) (s0 s s' : state) (p : prediction)
    (e : exn) :
  predict E (x_test (data E)) s0 = (Normal p, s) ->
  grid_predictions E (set_predictions (Some p) s) = (Raised e, s') ->
  is_AttributeError e = false ->
  evaluation E n_epochs s0 = (Raised e, s').
Proof.
  intros Hp Hg He. unfold evaluation, bind at 1. rewrite Hp.
  unfold bind at 1. unfold modify at 1. unfold bind at 1.
  rewrite (grid_block_catches E _ _ _ Hg), He. reflexivity.
Qed.

Lemma stable_kept_keys (keys : list string) (h0 : gmap string pyval) :
  stable (fun st => forall key, In key keys -> hyperparameters st !! key = h0 !! key)
         (fun k => negb (is_key keys k)) (fun _ => true).
Proof.
  split; try (intros ? st HI; exact HI).
  - intros ev st _ HI. exact HI.
  - intros k v st Hk HI key Hin. cbn. rewrite lookup_insert_ne; [apply HI, Hin|].
    intros ->. apply negb_true_iff in Hk. unfold is_key in Hk.
    assert (Hex : existsb (String.eqb key) keys = true).
    { apply existsb_exists. exists key. split; [exact Hin|apply String.eqb_refl]. }
    congruence.
Qed.

Lemma persistence_saves (E : env) :
  hoare (fun _ => True) (persistence E)
        (fun _ st => startswith (Cli.input_json_filename (args E)) "demo" = false ->
                     exists filename record, In (EvSaveJson filename record) (log st))
        (fun _ _ => False).
Proof.
  intros st _. unfold_stage. run_all.
  all: intros Hdemo; try discriminate Hdemo.
  all: eexists _, _; rewrite ?in_app_iff; cbn; eauto 10.
Qed.


Lemma missing_evaluable (E : env) :
  grids_missing (data E) ->
  dataloader (data E) <> [] ->
  (dropout E = true -> 0 < N_POSTERIOR_SAMPLES_EVALUATION (cfg E)) ->
  evaluable E.
Proof.
  intros [Hi He] Hdata HN. split; [exact Hdata|]. split; [exact HN|].
  intros t [Ht|Ht]; congruence.
Qed.

(** Evaluation and persistence return and leave the metric keys of the
    path in the record. *)
Lemma stage_returns (E : env) (n_epochs : Z) :
  evaluable E ->
  hoare (fun _ => True) (evaluation E n_epochs ;;; persistence E)
        (fun _ st => (forall key, In key (metric_keys (dropout E)) ->
                        is_Some (hyperparameters st !! key))
                     /\ (startswith (Cli.input_json_filename (args E)) "demo" = false ->
                         exists filename record, In (EvSaveJson filename record) (log st)))
        (fun _ _ => False).
Proof.
  intros Hev. apply (hoare_bind _ _ _ _ _ _ (evaluation_returns E n_epochs Hev)).
  intros u. eapply hoare_conseq.
  - apply (hoare_and _ _ _ _ _ _ _
             (persistence_saves E)
             (persistence_keeps _ _ _ (stable_some_keys (metric_keys (dropout E))) E
                (fun _ _ => eq_refl) eq_refl eq_refl)).
  - intros st Hk. split; [exact Logic.I|exact Hk].
  - intros u' st [Hs Hk]. split; assumption.
  - intros e st [[] _].
Qed.

(** Without the grids, and with the predictions on them unbound, the
    grid keys of the record are left as they were. *)
Lemma stage_skips_grid_keys (E : env) (n_epochs : Z) (h0 : gmap string pyval) :
  grids_missing (data E) ->
  keeps (fun st => predictions_on_extrapolary_grid st = None
                   /\ forall key, In key all_grid_keys -> hyperparameters st !! key = h0 !! key)
        (evaluation E n_epochs ;;; persistence E).
Proof.
  intros Hmiss.
  pose proof (stable_and _ _ _ _ _ _ stable_unbound (stable_kept_keys all_grid_keys h0)) as HS.
  apply keeps_bind; [|intros u].
  - apply (evaluation_keeps _ _ _ HS).
    + reflexivity.
    + reflexivity.
    + reflexivity.
    + destruct (dropout E); reflexivity.
    + intros st HA. rewrite (grid_block_warns E st Hmiss).
      apply (stable_log _ _ _ HS); [reflexivity|exact HA].
    + intros _ q show. apply grid_metrics_skips. intros st [Hu _]. exact Hu.
  - apply (persistence_keeps _ _ _ HS); [intros ev _; reflexivity|reflexivity|reflexivity].
Qed.

(** Without the grids a checkpoint stage adds one warning to the log. *)
Lemma stage_warns_once (E : env) (n_epochs : Z) (c : nat) :
  grids_missing (data E) ->
  hoare (fun st => warnings (log st) = c)
        (evaluation E n_epochs ;;; persistence E)
        (fun _ st => warnings (log st) = S c)
        (fun _ _ => True).
Proof.
  intros Hmiss. unfold evaluation.
  assert (Hweak : forall k (e : exn) (st : state), warnings (log st) = k -> True) by auto.
  apply (hoare_bind _ _ _ (fun _ st => warnings (log st) = S c)).
  - apply (hoare_bind _ _ _ (fun _ st => warnings (log st) = c)).
    { eapply hoare_conseq;
        [apply (predict_keeps _ _ _ (stable_warnings c) E _ eq_refl)|auto|auto|auto]. }
    intros p.
    apply (hoare_bind _ _ _ (fun _ st => warnings (log st) = c)).
    { apply hoare_modify. intros st Hc. exact Hc. }
    intros u.
    apply (hoare_bind _ _ _ (fun _ st => warnings (log st) = S c)).
    { intros st Hc. rewrite (grid_block_warns E st Hmiss). cbn.
      unfold warnings in *. rewrite List.filter_app, length_app, Hc. cbn. lia. }
    intros u'. eapply hoare_conseq.
    + apply (metrics_keeps _ _ _ (stable_warnings (S c)) E n_epochs eq_refl
               (forallb_any _) (forallb_any _)).
      intros _ q show. apply (grid_metrics_keeps _ _ _ (stable_warnings (S c))), forallb_any.
    + auto.
    + auto.
    + auto.
  - intros u. eapply hoare_conseq.
    + apply (persistence_keeps _ _ _ (stable_warnings (S c)) E).
      * intros ev Hev. destruct ev; try discriminate Hev; reflexivity.
      * reflexivity.
      * reflexivity.
    + auto.
    + auto.
    + auto.
Qed.

End Grids.

(** C8.  When the data module has neither grid, evaluation and
    persistence at a checkpoint return: the log gains exactly one
    warning about the grids, the metric keys that need the grids are left
    as they were, every other metric key of the path is in the record,
    and the record is written (unless the file is a demo).  The block of
    lines 277-285 turns an [AttributeError] of its body into that warning
    and lets any other exception through, which ends the evaluation. *)
Theorem missing_grids_are_recoverable `{Collaborators} (E : env) (n_epochs : Z) (st : state)
    (Hmiss : grids_missing (data E))
    (Hdata : dataloader (data E) <> [])
    (HN : dropout E = true -> 0 < N_POSTERIOR_SAMPLES_EVALUATION (cfg E))
    (Hunbound : predictions_on_extrapolary_grid st = None) :
  (exists st',
      (evaluation E n_epochs ;;; persistence E) st = (Normal tt, st')
      /\ warnings (log st') = S (warnings (log st))
      /\ (forall key, In key all_grid_keys ->
            hyperparameters st' !! key = hyperparameters st !! key)
      /\ (forall key, In key (metric_keys (dropout E)) ->
            is_Some (hyperparameters st' !! key))
      /\ (startswith (Cli.input_json_filename (args E)) "demo" = false ->
          exists filename record, In (EvSaveJson filename record) (log st')))
  /\ (forall s s' e,
        grid_predictions E s = (Raised e, s') ->
        grid_block E s
        = if is_AttributeError e
          then (Normal tt, set_log (log s' ++ [EvWarnGrids]) s')
          else (Raised e, s'))
  /\ (forall s0 s s' p e,
        predict E (x_test (data E)) s0 = (Normal p, s) ->
        grid_predictions E (set_predictions (Some p) s) = (Raised e, s') ->
        is_AttributeError e = false ->
        evaluation E n_epochs s0 = (Raised e, s')).
Proof.
  split; [|split].
  - pose proof (stage_returns E n_epochs (missing_evaluable E Hmiss Hdata HN) st Logic.I) as H1.
    pose proof (stage_skips_grid_keys E n_epochs (hyperparameters st) Hmiss st
                  (conj Hunbound (fun _ _ => eq_refl))) as H2.
    pose proof (stage_warns_once E n_epochs (warnings (log st)) Hmiss st eq_refl) as H3.
    destruct ((evaluation E n_epochs ;;; persistence E) st) as [[[]|e] st']; [|contradiction].
    exists st'. split; [reflexivity|]. split; [exact H3|]. split; [apply H2|].
    exact H1.
  - intros s s' e. apply grid_block_catches.
  - intros s0 s s' p e. apply evaluation_propagates.
Qed.

Lemma missing_grids_are_recoverable_witness :
  grids_missing (data (Toy.plain (PInt 1)))
  /\ dataloader (data (Toy.plain (PInt 1))) <> []
  /\ predictions_on_extrapolary_grid Toy.start = None
  /\ exists st',
      (evaluation (Toy.plain (PInt 1)) 1 ;;; persistence (Toy.plain (PInt 1))) Toy.start
      = (Normal tt, st')
      /\ warnings (log st') = 1%nat
      /\ is_Some (hyperparameters st' !! "METRIC_rmse").
Proof.
  assert (Hmiss : grids_missing (data (Toy.plain (PInt 1)))) by (split; reflexivity).
  assert (Hdata : dataloader (data (Toy.plain (PInt 1))) <> []) by discriminate.
  assert (HN : dropout (Toy.plain (PInt 1)) = true ->
               0 < N_POSTERIOR_SAMPLES_EVALUATION (cfg (Toy.plain (PInt 1))))
    by (intros _; reflexivity).
  destruct (proj1 (missing_grids_are_recoverable (Toy.plain (PInt 1)) 1 Toy.start
                     Hmiss Hdata HN eq_refl))
    as (st' & Hrun & Hwarn & _ & Hset & _).
  assert (Hin : In "METRIC_rmse" (metric_keys (dropout (Toy.plain (PInt 1))))).
  { cbn. tauto. }
  exact (conj Hmiss (conj Hdata (conj eq_refl
           (ex_intro _ st' (conj Hrun (conj Hwarn (Hset _ Hin))))))).
Defined.

(** A grid that exists and cannot be moved to the device is not the
    missing-attribute condition: the run ends with that exception. *)
Lemma broken_grid_is_fatal :
  fst (script Toy.command_line (Toy.configuration (PInt 1) false 3) Toy.broken_grid Toy.start)
  = Raised (OtherError "device").
Proof. vm_compute. reflexivity. Qed.

End DispatchFacts.

(** ** Frame rules for the training, the evaluation and the script *)

Module FrameFacts.
Import TrainNN Rules TrainingFacts StageFacts EvaluationFacts DispatchFacts Frame.

Section Loop.
Context `{Collaborators}.
Variables (I : state -> Prop) (V : event -> bool).
Hypothesis HS : stable_step I V.
Hypothesis HL : stable_loop I.

Lemma keeps_for_each_break {A : Type} (body : A -> M bool) (l : list A) :
  (forall x, keeps I (body x)) -> keeps I (for_each_break body l).
Proof.
  intros Hb. eapply hoare_conseq.
  - apply (hoare_for_each_break body l I I (fun _ => I)).
    intros x _. eapply hoare_conseq; [apply (Hb x)|auto| |auto].
    intros [|] st HI; exact HI.
  - auto.
  - intros _ st [HI|HI]; exact HI.
  - auto.
Qed.

Ltac loop_auto :=
  repeat keeps_step;
  repeat first
    [ assumption
    | apply (step_rng _ _ HS)
    | apply (step_log _ _ HS); [solve [auto]|]
    | apply (stable_nn _ HL)
    | apply (stable_pbar_n _ HL)
    | apply (stable_train_loss_curve _ HL)
    | apply (stable_val_loss_curve _ HL)
    | apply (stable_last_checkpoint _ HL)
    | apply (stable_gif_frames _ HL) ].

Lemma plot_keeps (E : env) : keeps I (plot E).
Proof. unfold plot. loop_auto. Qed.

Lemma initial_frames_keeps (E : env) : keeps I (initial_frames E).
Proof.
  unfold initial_frames, capture.
  repeat (lazymatch goal with
          | |- hoare _ (plot _) _ _ => apply plot_keeps
          | _ => keeps_step
          end).
  all: loop_auto.
Qed.

Lemma probe_keeps (d : data_module) :
  (forall flag, V (EvProbe flag) = true) -> keeps I (probe d).
Proof. intros Hprobe. unfold probe, emit. loop_auto. Qed.

(** The events of the training other than the calls of the stopper. *)
Hypothesis HV : forall mc n e, V (EvTrainStep mc) = true /\ V (EvTick n) = true
                               /\ V (EvEpoch n e) = true.

Lemma diagnostic_keeps (E : env) (loss : Q) :
  (EARLY_STOPPING (cfg E) = true -> stable_stopper I) ->
  keeps I (diagnostic E loss).
Proof.
  intros HT.
  assert (Htk : forall n, V (EvTick n) = true) by (intros; apply (HV true n O)).
  unfold diagnostic, capture, emit.
  destruct (EARLY_STOPPING (cfg E)).
  all: repeat (lazymatch goal with
               | |- hoare _ (plot _) _ _ => apply plot_keeps
               | _ => keeps_step
               end).
  all: loop_auto.
  all: specialize (HT eq_refl).
  - apply (stable_decided_to_stop_early _ HT), (stable_early_stopper _ HT). assumption.
  - apply (stable_call _ HT). assumption.
Qed.

Lemma batch_step_keeps (E : env) (b : Tensor * Tensor) :
  (EARLY_STOPPING (cfg E) = true -> stable_stopper I) ->
  keeps I (batch_step E b).
Proof.
  intros HT.
  assert (Hts : V (EvTrainStep (dropout E)) = true) by (apply (HV _ 0 O)).
  unfold batch_step, emit. destruct b as [X y].
  repeat (lazymatch goal with
          | |- hoare _ (diagnostic _ _) _ _ => apply diagnostic_keeps; exact HT
          | _ => keeps_step
          end).
  all: loop_auto.
Qed.

Lemma epoch_body_keeps (E : env) (n_epochs : Z) (e : nat) :
  (EARLY_STOPPING (cfg E) = true -> stable_stopper I) ->
  keeps I (epoch_body E n_epochs e).
Proof.
  intros HT.
  assert (Hep : V (EvEpoch n_epochs e) = true) by (apply (HV true)).
  unfold epoch_body, emit.
  repeat (lazymatch goal with
          | |- hoare _ (for_each_break _ _) _ _ =>
              apply keeps_for_each_break; intros b; apply batch_step_keeps; exact HT
          | _ => keeps_step
          end).
  all: loop_auto.
Qed.

Lemma train_block_keeps (E : env) (n_epochs : Z) :
  (EARLY_STOPPING (cfg E) = true -> stable_stopper I) ->
  keeps I (train_block E n_epochs).
Proof.
  intros HT. unfold train_block.
  repeat (lazymatch goal with
          | |- hoare _ (for_each (epoch_body _ _) _) _ _ =>
              apply keeps_for_each; intros e; apply epoch_body_keeps; exact HT
          | _ => keeps_step
          end).
  all: loop_auto.
Qed.

End Loop.

Section Evaluation.
Context `{Collaborators}.
Variables (I J : state -> Prop) (V : event -> bool) (K : string -> bool).
Hypothesis HSI : stable_step I V.
Hypothesis HEI : stable_eval I K.
Hypothesis HGI : stable_grids I.
Hypothesis HSJ : stable_step J V.
Hypothesis HEJ : stable_eval J K.
Hypothesis HGJ : stable_grids J.
Hypothesis HVp : forall mc, V (EvPredict mc) = true.
Hypothesis HVw : V EvWarnGrids = true.
Hypothesis HK1 : forallb K (assigned_keys true) = true.
Hypothesis HK0 : forallb K (assigned_keys false) = true.

Ltac stage_auto HS HE HG :=
  repeat keeps_step;
  repeat first
    [ assumption
    | apply (step_rng _ _ HS)
    | apply (step_log _ _ HS); [solve [apply HVp|exact HVw]|]
    | apply (eval_predictions _ _ HE)
    | apply (stable_interpolary_grid _ HG)
    | apply (stable_extrapolary_grid _ HG)
    | apply (stable_predictions_on_interpolary_grid _ HG)
    | apply (stable_predictions_on_extrapolary_grid _ HG)
    | apply (eval_record _ _ HE);
      [first [apply (proj1 (forallb_forall _ _) HK1); solve [in_keys]
             |apply (proj1 (forallb_forall _ _) HK0); solve [in_keys]]|] ].

Lemma predict_keeps_step (E : env) (points : Tensor) : keeps I (predict E points).
Proof. unfold predict, emit. stage_auto HSI HEI HGI. Qed.

Lemma grid_block_keeps_step (E : env) : keeps I (grid_block E).
Proof.
  unfold grid_block, grid_predictions, grid_to, predict, emit. stage_auto HSI HEI HGI.
Qed.

(** Lines 288-318: the metrics take [I] to [J] when logging their start
    does and nothing they assign breaks [J]. *)
Lemma metrics_steps (E : env) (n_epochs : Z) :
  (forall st, I st -> J (set_log (log st ++ [EvMetrics n_epochs (dropout E)]) st)) ->
  hoare I (metrics E n_epochs) (fun _ => J) (fun _ => J).
Proof.
  intros Hstart. unfold metrics, emit.
  apply (hoare_bind _ _ _ (fun _ => J)); [apply hoare_modify; exact Hstart|intros u].
  unfold distributional_metrics, point_metrics, assign.
  destruct (dropout E).
  all: cbn [for_each]; unfold uncertainty_metrics, grid_metrics, name, assign; cbn [tag_of].
  all: stage_auto HSJ HEJ HGJ.
Qed.

(** Lines 273-318: the same for the whole evaluation; when it raises
    before the metrics start, [I] still holds. *)
Lemma evaluation_steps (E : env) (n_epochs : Z) :
  (forall st, I st -> J (set_log (log st ++ [EvMetrics n_epochs (dropout E)]) st)) ->
  hoare I (evaluation E n_epochs) (fun _ => J) (fun _ st => I st \/ J st).
Proof.
  intros Hstart. unfold evaluation.
  apply (hoare_bind _ _ _ (fun _ => I)).
  { eapply hoare_conseq; [apply predict_keeps_step|auto|auto|auto]. }
  intros p. apply (hoare_bind _ _ _ (fun _ => I)).
  { apply hoare_modify. intros st HI. apply (eval_predictions _ _ HEI), HI. }
  intros u. apply (hoare_bind _ _ _ (fun _ => I)).
  { eapply hoare_conseq; [apply grid_block_keeps_step|auto|auto|auto]. }
  intros u'. eapply hoare_conseq; [apply metrics_steps; exact Hstart|auto|auto|auto].
Qed.

End Evaluation.

Section EvaluationKeeps.
Context `{Collaborators}.
Variables (I : state -> Prop) (V : event -> bool) (K : string -> bool).
Hypothesis HS : stable_step I V.
Hypothesis HE : stable_eval I K.
Hypothesis HG : stable_grids I.

(** The evaluation keeps what is stable under its events and under every
    key it can assign. *)
Lemma evaluation_keeps_all (E : env) (n_epochs : Z) :
  (forall ev mc, evaluation_event mc ev = true -> V ev = true) ->
  forallb K (assigned_keys true) = true ->
  forallb K (assigned_keys false) = true ->
  keeps I (evaluation E n_epochs).
Proof.
  intros HW HK1 HK0.
  eapply hoare_conseq;
    [ apply (evaluation_steps I I V K HS HE HG HS HE)
    | auto | auto | intros e st [HI|HI]; exact HI ]; try assumption.
  - intros mc. apply (HW _ mc). cbn. apply eqb_reflx.
  - apply (HW _ true). reflexivity.
  - intros st HI. apply (step_log _ _ HS); [|exact HI].
    apply (HW _ (dropout E)). cbn. apply eqb_reflx.
Qed.

End EvaluationKeeps.

Section Run.
Context `{Collaborators}.
Variable I : state -> Prop.

Lemma checkpoint_body_keeps (E : env) (n_epochs : Z) :
  keeps I (train_block E n_epochs) ->
  keeps I (evaluation E n_epochs) ->
  keeps I (persistence E) ->
  keeps I (checkpoint_body E n_epochs).
Proof.
  intros Ht He Hp. unfold checkpoint_body.
  apply keeps_bind; [apply keeps_get|intros st0].
  destruct (decided_to_stop_early st0); [apply keeps_ret|].
  apply keeps_bind; [exact Ht|intros u].
  apply keeps_bind; [exact He|intros u']. exact Hp.
Qed.

Lemma checkpoint_loop_keeps (E : env) (checkpoints : list pyval) :
  (forall n_epochs, keeps I (checkpoint_body E n_epochs)) ->
  keeps I (checkpoint_loop E checkpoints).
Proof. intros Hb. unfold checkpoint_loop. apply keeps_for_each. exact Hb. Qed.

(** The script keeps [I] from a state in [I0] when the probe and the
    initial frames keep [I0], the assignments of lines 214-222 turn [I0]
    into [I], and every checkpoint keeps [I]. *)
Lemma script_keeps_from (I0 : state -> Prop) (c : Cli.cli) (cf : config) (d : data_module) :
  (forall st, I0 st -> I st) ->
  keeps I0 (probe d) ->
  (forall flag, keeps I0 (initial_frames (mkEnv cf d c flag))) ->
  (forall st, I0 st -> I (reset st)) ->
  (forall s st, I st -> I (set_early_stopper (Some s) st)) ->
  (forall flag n_epochs, keeps I (checkpoint_body (mkEnv cf d c flag) n_epochs)) ->
  hoare I0 (script c cf d) (fun _ => I) (fun _ => I).
Proof.
  intros H0 Hprobe Hframes Hreset Hstop Hbody. unfold script.
  apply (hoare_bind _ _ _ (fun _ => I0)).
  { eapply hoare_conseq; [exact Hprobe|auto|auto|auto]. }
  intros flag.
  apply (hoare_bind _ _ _ (fun _ => I0)).
  { eapply hoare_conseq; [apply (Hframes flag)|auto|auto|auto]. }
  intros u.
  apply (hoare_bind _ _ _ (fun _ => I0)).
  { apply hoare_lift; auto. }
  intros checkpoints.
  apply (hoare_bind _ _ _ (fun _ => I)).
  { apply hoare_modify. intros st HI. apply (Hreset st HI). }
  intros u'.
  apply (hoare_bind _ _ _ (fun _ => I)).
  { destruct (EARLY_STOPPING cf); [apply hoare_modify; intros st HI; apply Hstop, HI|].
    apply hoare_ret. auto. }
  intros u''. apply checkpoint_loop_keeps. intros n. apply Hbody.
Qed.

End Run.

Section Script.
Context `{Collaborators}.
Variables (I : state -> Prop) (K : string -> bool) (V : event -> bool).
Hypothesis HS : stable_step I V.
Hypothesis HL : stable_loop I.
Hypothesis HE : stable_eval I K.
Hypothesis HG : stable_grids I.

(** A checkpoint keeps what is stable under the events of the training
    and the evaluation and under the keys the evaluation assigns, when
    the persistence keeps it too. *)
Hypothesis HT : stable_stopper I.
Hypothesis HV : forall mc n e, V (EvTrainStep mc) = true /\ V (EvTick n) = true
                               /\ V (EvEpoch n e) = true.
Hypothesis HW : forall ev mc, evaluation_event mc ev = true -> V ev = true.
Hypothesis HK1 : forallb K (assigned_keys true) = true.
Hypothesis HK0 : forallb K (assigned_keys false) = true.

Lemma checkpoint_body_keeps_stable (E : env) (n_epochs : Z) :
  keeps I (persistence E) ->
  keeps I (checkpoint_body E n_epochs).
Proof.
  intros Hpers. apply checkpoint_body_keeps.
  - apply (train_block_keeps _ _ HS HL HV). intros _. exact HT.
  - apply (evaluation_keeps_all _ _ _ HS HE HG); auto.
  - exact Hpers.
Qed.

(** The same for the whole script, for what the assignments of lines
    214-222 cannot break either. *)
Lemma script_keeps_stable (c : Cli.cli) (cf : config) (d : data_module) :
  (forall b st, I st -> I (set_first_round b st)) ->
  (forall flag, V (EvProbe flag) = true) ->
  (forall flag, keeps I (persistence (mkEnv cf d c flag))) ->
  keeps I (script c cf d).
Proof.
  intros Hfirst Hprobe Hpers.
  apply (script_keeps_from I I); auto.
  - apply (probe_keeps _ _ HS). exact Hprobe.
  - intros flag. apply (initial_frames_keeps _ _ HS HL).
  - intros st HI. unfold reset.
    apply (stable_train_loss_curve _ HL), (stable_val_loss_curve _ HL),
      (stable_last_checkpoint _ HL), Hfirst, (stable_decided_to_stop_early _ HT), HI.
  - intros s st HI. apply (stable_early_stopper _ HT), HI.
  - intros flag n. apply checkpoint_body_keeps_stable. apply Hpers.
Qed.

End Script.

Section Logs.
Context `{Collaborators}.
Variables (P : list event -> Prop) (V : event -> bool).
Hypothesis HP : forall l ev, V ev = true -> P l -> P (l ++ [ev])%list.

Lemma log_stable_step : stable_step (fun st => P (log st)) V.
Proof. split; [intros ? st HI; exact HI|]. intros ev st Hv HI. cbn. apply HP; assumption. Qed.

Lemma log_stable_loop : stable_loop (fun st => P (log st)).
Proof. split; intros ? st HI; exact HI. Qed.

Lemma log_stable_stopper :
  (forall value stop, V (EvStopper value stop) = true) ->
  stable_stopper (fun st => P (log st)).
Proof.
  intros Hc. split; try (intros ? st HI; exact HI).
  intros value stop st HI. cbn. apply HP; [apply Hc|exact HI].
Qed.

Lemma log_stable_eval : stable_eval (fun st => P (log st)) (fun _ => true).
Proof. split; [intros key v st _ HI; exact HI|intros ? st HI; exact HI]. Qed.

Lemma log_stable_grids : stable_grids (fun st => P (log st)).
Proof. split; intros ? st HI; exact HI. Qed.

End Logs.


(** The script keeps a property of the log that no event of the probe,
    the training and the evaluation can break, when the persistence
    keeps it too. *)
Lemma script_keeps_log `{Collaborators} (P : list event -> Prop) (V : event -> bool)
    (c : Cli.cli) (cf : config) (d : data_module) :
  (forall l ev, V ev = true -> P l -> P (l ++ [ev])%list) ->
  (forall ev, persistence_event ev = false -> V ev = true) ->
  (forall flag, keeps (fun st => P (log st)) (persistence (mkEnv cf d c flag))) ->
  keeps (fun st => P (log st)) (script c cf d).
Proof.
  intros HP HV Hpers.
  apply (script_keeps_stable (fun st => P (log st)) (fun _ => true) V
           (log_stable_step P V HP) (log_stable_loop P) (log_stable_eval P)
           (log_stable_grids P)).
  - apply (log_stable_stopper P V HP). intros value stop. apply HV. reflexivity.
  - intros mc n e. repeat split; apply HV; reflexivity.
  - intros ev mc Hev. apply HV. destruct ev; cbn in *; congruence.
  - apply forallb_any.
  - apply forallb_any.
  - intros b st HI. exact HI.
  - intros flag. apply HV. reflexivity.
  - exact Hpers.
Qed.

End FrameFacts.

(** ** What a run does to the file system *)

Module FileFacts.
Import TrainNN Rules TrainingFacts StageFacts EvaluationFacts DispatchFacts Frame FrameFacts Files.

Lemma Forall_snoc {A : Type} (P : A -> Prop) (l : list A) (x : A) :
  Forall P l -> P x -> Forall P (l ++ [x]).
Proof. intros Hl Hx. apply Forall_app. split; [exact Hl|]. constructor; [exact Hx|constructor]. Qed.

Lemma file_ops_nil (l : list event) :
  forallb (fun ev => negb (is_file_op ev)) l = true -> file_ops l = [].
Proof.
  unfold file_ops. induction l as [|ev l IH]; [reflexivity|]. cbn.
  intros Hl. apply andb_prop in Hl as [Hev Hl]. apply negb_true_iff in Hev.
  rewrite Hev. apply IH, Hl.
Qed.

Lemma forallb_snoc {A : Type} (f : A -> bool) (l : list A) (x : A) :
  f x = true -> forallb f l = true -> forallb f (l ++ [x]) = true.
Proof. intros Hx Hl. rewrite forallb_app, Hl. cbn. rewrite Hx. reflexivity. Qed.

Section Persistence.
Context `{Collaborators}.

(** With a file name that starts with [demo] the persistence only warns
    and prints. *)
Lemma persistence_demo_keeps (I : state -> Prop) (V : event -> bool) (E : env) :
  stable_step I V ->
  startswith (Cli.input_json_filename (args E)) "demo" = true ->
  V EvWarnDemo = true -> V EvPrint = true ->
  keeps I (persistence E).
Proof.
  intros HS Hdemo Hw Hp. unfold persistence, emit. rewrite Hdemo.
  repeat keeps_step; apply (step_log _ _ HS); assumption.
Qed.

Lemma demo_script_keeps (c : Cli.cli) (cf : config) (d : data_module) :
  startswith (Cli.input_json_filename c) "demo" = true ->
  keeps (fun st => forallb (fun ev => negb (is_file_op ev)) (log st) = true) (script c cf d).
Proof.
  intros Hdemo.
  assert (HP : forall l ev, negb (is_file_op ev) = true ->
                 forallb (fun ev => negb (is_file_op ev)) l = true ->
                 forallb (fun ev => negb (is_file_op ev)) (l ++ [ev])%list = true)
    by (intros l ev Hev Hl; apply (forallb_snoc (fun ev => negb (is_file_op ev))); assumption).
  apply (script_keeps_log (fun l => forallb (fun ev => negb (is_file_op ev)) l = true)
           (fun ev => negb (is_file_op ev)) c cf d HP).
  - intros ev Hev. destruct ev; cbn in *; congruence.
  - intros flag.
    apply (persistence_demo_keeps _ _ _ (log_stable_step _ _ HP));
      [exact Hdemo|reflexivity|reflexivity].
Qed.

(** Every record written names the file it is written to. *)
Lemma persistence_names_file (E : env) :
  keeps (fun st => Forall names_its_file (log st)) (persistence E).
Proof.
  intros st HI. unfold_stage. run_all.
  all: repeat (apply Forall_snoc); try exact HI; try exact Logic.I.
  all: cbn; rewrite ?lookup_insert_ne by discriminate; apply lookup_insert_eq.
Qed.

Lemma names_file_script_keeps (c : Cli.cli) (cf : config) (d : data_module) :
  keeps (fun st => Forall names_its_file (log st)) (script c cf d).
Proof.
  apply (script_keeps_log (Forall names_its_file) (fun ev => negb (is_save_json ev)) c cf d).
  - intros l ev Hev Hl. apply Forall_snoc; [exact Hl|]. destruct ev; try exact Logic.I.
    discriminate Hev.
  - intros ev Hev. destruct ev; cbn in *; congruence.
  - intros flag. apply persistence_names_file.
Qed.

End Persistence.

(** Lines 321-322.  When the name of the hyperparameter file starts with
    [demo], a run of the script removes no file and writes none, neither
    a record nor a model, however it ends. *)
Theorem demo_run_touches_no_file `{Collaborators} (c : Cli.cli) (cf : config)
    (d : data_module) (p : Params) (r : Rng) (h : gmap string pyval)
    (Hdemo : startswith (Cli.input_json_filename c) "demo" = true) :
  file_ops (log (snd (script c cf d (initial_state p r h)))) = [].
Proof.
  pose proof (demo_script_keeps c cf d Hdemo (initial_state p r h) eq_refl) as Hrun.
  destruct (script c cf d (initial_state p r h)) as [[u|e] st']; apply file_ops_nil, Hrun.
Qed.

Lemma demo_run_touches_no_file_witness :
  startswith (Cli.input_json_filename (Cli.mkCli "demo_nn.json" (Some "models") false true))
             "demo" = true
  /\ file_ops (log (snd (@script Toy.deterministic
                           (Cli.mkCli "demo_nn.json" (Some "models") false true)
                           (Toy.configuration (PList [PInt 1; PInt 2]) false 3)
                           Toy.three_batches Toy.start))) = [].
Proof.
  exact (conj eq_refl
          (@demo_run_touches_no_file Toy.deterministic
             (Cli.mkCli "demo_nn.json" (Some "models") false true)
             (Toy.configuration (PList [PInt 1; PInt 2]) false 3)
             Toy.three_batches 0 0 ∅ eq_refl)).
Defined.


(** Lines 331-332 and 345.  Every record a run writes holds, under the
    key [filname], the name of the file it is written to. *)
Theorem records_name_their_file `{Collaborators} (c : Cli.cli) (cf : config)
    (d : data_module) (p : Params) (r : Rng) (h : gmap string pyval) :
  Forall names_its_file (log (snd (script c cf d (initial_state p r h)))).
Proof.
  pose proof (names_file_script_keeps c cf d (initial_state p r h) (Forall_nil_2 _)) as Hrun.
  destruct (script c cf d (initial_state p r h)) as [[u|e] st']; exact Hrun.
Qed.


Section Records.
Context `{Collaborators}.

Lemma writes_back_snoc (key : string) (value : option pyval) (l : list event) (ev : event) :
  negb (is_save_json ev) = true ->
  Forall (writes_back key value) l -> Forall (writes_back key value) (l ++ [ev])%list.
Proof.
  intros Hev Hl. apply Forall_snoc; [exact Hl|]. destruct ev; try exact Logic.I.
  discriminate Hev.
Qed.


Lemma kept_stable_step (key : string) (value : option pyval) :
  stable_step (kept key value) (fun ev => negb (is_save_json ev)).
Proof.
  split.
  - intros r st HI. exact HI.
  - intros ev st Hev [Hk Hl]. split; [exact Hk|]. cbn. apply writes_back_snoc; assumption.
Qed.

Lemma kept_stable_loop (key : string) (value : option pyval) : stable_loop (kept key value).
Proof. split; intros ? st HI; exact HI. Qed.

Lemma kept_stable_stopper (key : string) (value : option pyval) :
  stable_stopper (kept key value).
Proof.
  split; try (intros ? st HI; exact HI).
  intros v stop st HI. apply (step_log _ _ (kept_stable_step key value)); [reflexivity|exact HI].
Qed.

Lemma kept_stable_eval (key : string) (value : option pyval) :
  stable_eval (kept key value) (fun k => negb (String.eqb k key)).
Proof.
  split.
  - intros k v st Hk [Hv Hl]. split; [|exact Hl]. cbn.
    rewrite lookup_insert_ne; [exact Hv|].
    intros ->. rewrite String.eqb_refl in Hk. discriminate Hk.
  - intros p st HI. exact HI.
Qed.

Lemma kept_stable_grids (key : string) (value : option pyval) : stable_grids (kept key value).
Proof. split; intros ? st HI; exact HI. Qed.

(** The persistence keeps the value under a key other than [filname]
    and, when a model is saved, other than [MODEL_SAVE_PATH]. *)
Lemma persistence_keeps_key (E : env) (key : string) (value : option pyval) :
  key <> "filname" ->
  (key = "MODEL_SAVE_PATH" -> Cli.model_save_dir (args E) = None) ->
  keeps (kept key value) (persistence E).
Proof.
  intros Hf Hm st [Hk Hl]. unfold kept. unfold_stage. run_all.
  all: try (assert (Hm' : key <> "MODEL_SAVE_PATH") by (intros Hk'; specialize (Hm Hk'); congruence)).
  all: split; [rewrite ?lookup_insert_ne by congruence; exact Hk|].
  all: repeat (apply Forall_snoc); try exact Hl; try exact Logic.I.
  all: cbn; rewrite ?lookup_insert_ne by congruence; exact Hk.
Qed.


Lemma kept_script_keeps (c : Cli.cli) (cf : config) (d : data_module)
    (key : string) (value : option pyval) :
  is_key (assigned_keys true) key = false ->
  is_key (assigned_keys false) key = false ->
  key <> "filname" ->
  (key = "MODEL_SAVE_PATH" -> Cli.model_save_dir c = None) ->
  keeps (kept key value) (script c cf d).
Proof.
  intros H1 H0 Hf Hm.
  apply (script_keeps_stable _ _ _ (kept_stable_step key value) (kept_stable_loop key value)
           (kept_stable_eval key value) (kept_stable_grids key value)
           (kept_stable_stopper key value)).
  - intros mc n e. repeat split.
  - intros ev mc Hev. destruct ev; cbn in *; congruence.
  - apply not_key_forallb, H1.
  - apply not_key_forallb, H0.
  - intros b st HI. exact HI.
  - reflexivity.
  - intros flag. apply persistence_keeps_key; assumption.
Qed.


End Records.

(** Lines 288-340.  A key of the hyperparameter file that is none of the
    keys the script assigns keeps its value through the run, and every
    record written holds it as the file gave it (absent when the file
    had none). *)
Theorem hyperparameters_are_written_back `{Collaborators} (c : Cli.cli) (cf : config)
    (d : data_module) (p : Params) (r : Rng) (h : gmap string pyval) (key : string)
    (Hkey : is_key result_keys key = false) :
  hyperparameters (snd (script c cf d (initial_state p r h))) !! key = h !! key
  /\ Forall (writes_back key (h !! key)) (log (snd (script c cf d (initial_state p r h)))).
Proof.
  unfold result_keys in Hkey. rewrite !is_key_app in Hkey.
  apply orb_false_elim in Hkey as [H1 Hkey]. apply orb_false_elim in Hkey as [H0 Hrest].
  cbn in Hrest. apply orb_false_elim in Hrest as [Hf Hrest].
  apply orb_false_elim in Hrest as [Hm _].
  apply String.eqb_neq in Hf, Hm.
  assert (Hrun : kept key (h !! key) (snd (script c cf d (initial_state p r h)))).
  { pose proof (kept_script_keeps c cf d key (h !! key) H1 H0 Hf
                  (fun Hk => False_ind _ (Hm Hk)) (initial_state p r h)
                  (conj eq_refl (Forall_nil_2 _))) as Hrun.
    destruct (script c cf d (initial_state p r h)) as [[u|e] st']; exact Hrun. }
  exact Hrun.
Qed.

Lemma hyperparameters_are_written_back_witness :
  is_key result_keys "LR" = false
  /\ hyperparameters (snd (@script Toy.deterministic Toy.command_line
                             (Toy.configuration (PList [PInt 1; PInt 2]) false 3)
                             Toy.three_batches
                             (@initial_state Toy.deterministic 0 0 {["LR" := PFloat (1 # 2)]})))
       !! "LR" = ({["LR" := PFloat (1 # 2)]} : gmap string pyval) !! "LR"
  /\ List.length (List.filter is_save_json
                    (log (snd (@script Toy.deterministic Toy.command_line
                                 (Toy.configuration (PList [PInt 1; PInt 2]) false 3)
                                 Toy.three_batches
                                 (@initial_state Toy.deterministic 0 0
                                    {["LR" := PFloat (1 # 2)]}))))) = 2%nat.
Proof.
  exact (conj eq_refl
          (conj (proj1 (@hyperparameters_are_written_back Toy.deterministic Toy.command_line
                          (Toy.configuration (PList [PInt 1; PInt 2]) false 3)
                          Toy.three_batches 0 0 {["LR" := PFloat (1 # 2)]} "LR" eq_refl))
                eq_refl)).
Defined.

(** Lines 335-344.  Without [--model_save_dir] a run never saves the
    network, and no record written holds a [MODEL_SAVE_PATH] other than
    the one the hyperparameter file had, if any. *)
Theorem no_directory_no_model `{Collaborators} (c : Cli.cli) (cf : config)
    (d : data_module) (p : Params) (r : Rng) (h : gmap string pyval)
    (Hdir : Cli.model_save_dir c = None) :
  List.filter is_save_model (log (snd (script c cf d (initial_state p r h)))) = []
  /\ Forall (writes_back "MODEL_SAVE_PATH" (h !! "MODEL_SAVE_PATH"))
            (log (snd (script c cf d (initial_state p r h)))).
Proof.
  split.
  - assert (HP : forall l ev, negb (is_save_model ev) = true ->
                   List.filter is_save_model l = [] ->
                   List.filter is_save_model (l ++ [ev])%list = []).
    { intros l ev Hev Hl. rewrite List.filter_app, Hl. cbn.
      apply negb_true_iff in Hev. rewrite Hev. reflexivity. }
    assert (Hrun : keeps (fun st => List.filter is_save_model (log st) = []) (script c cf d)).
    { apply (script_keeps_log (fun l => List.filter is_save_model l = [])
               (fun ev => negb (is_save_model ev)) c cf d HP).
      - intros ev Hev. destruct ev; cbn in *; congruence.
      - intros flag st HI. unfold_stage. cbn [args]. rewrite Hdir. run_all.
        all: rewrite ?List.filter_app, HI; reflexivity. }
    specialize (Hrun (initial_state p r h) eq_refl).
    destruct (script c cf d (initial_state p r h)) as [[u|e] st']; exact Hrun.
  - pose proof (kept_script_keeps c cf d "MODEL_SAVE_PATH" (h !! "MODEL_SAVE_PATH")
                  eq_refl eq_refl ltac:(discriminate) (fun _ => Hdir) (initial_state p r h)
                  (conj eq_refl (Forall_nil_2 _))) as Hrun.
    destruct (script c cf d (initial_state p r h)) as [[u|e] st']; exact (proj2 Hrun).
Qed.

Lemma no_directory_no_model_witness :
  Cli.model_save_dir Toy.command_line = None
  /\ List.filter is_save_model
       (log (snd (@script Toy.deterministic Toy.command_line
                    (Toy.configuration (PList [PInt 1; PInt 2]) false 3)
                    Toy.three_batches Toy.start))) = []
  /\ List.length (List.filter is_save_json
                    (log (snd (@script Toy.deterministic Toy.command_line
                                 (Toy.configuration (PList [PInt 1; PInt 2]) false 3)
                                 Toy.three_batches Toy.start)))) = 2%nat.
Proof.
  exact (conj eq_refl
          (conj (proj1 (@no_directory_no_model Toy.deterministic Toy.command_line
                          (Toy.configuration (PList [PInt 1; PInt 2]) false 3)
                          Toy.three_batches 0 0 ∅ eq_refl))
                eq_refl)).
Defined.

Section Models.
Context `{Collaborators}.

Lemma models_follow_snoc (dir : string) (l : list event) (ev : event) :
  negb (is_save_model ev || is_save_json ev) = true ->
  models_follow_records dir l -> models_follow_records dir (l ++ [ev])%list.
Proof.
  intros Hev [Hm Hn]. apply negb_true_iff, orb_false_elim in Hev as [H1 H2]. split.
  - rewrite !List.filter_app, Hm. cbn. rewrite H1, H2, !app_nil_r. reflexivity.
  - apply Forall_snoc; [exact Hn|]. destruct ev; try exact Logic.I. discriminate H2.
Qed.

Lemma persistence_models (E : env) (dir : string) :
  Cli.model_save_dir (args E) = Some dir ->
  keeps (fun st => models_follow_records dir (log st)) (persistence E).
Proof.
  intros Hdir st [Hm Hn]. unfold models_follow_records. unfold_stage. rewrite Hdir. run_all.
  all: split;
    [ rewrite ?List.filter_app, ?Hm; cbn; rewrite ?app_nil_r, ?map_app; reflexivity
    | repeat (apply Forall_snoc); try exact Hn; try exact Logic.I;
      cbn; apply lookup_insert_eq ].
Qed.

Lemma models_script_keeps (c : Cli.cli) (cf : config) (d : data_module) (dir : string) :
  Cli.model_save_dir c = Some dir ->
  keeps (fun st => models_follow_records dir (log st)) (script c cf d).
Proof.
  intros Hdir.
  apply (script_keeps_log (models_follow_records dir)
           (fun ev => negb (is_save_model ev || is_save_json ev)) c cf d).
  - intros l ev. apply models_follow_snoc.
  - intros ev Hev. destruct ev; cbn in *; congruence.
  - intros flag. apply persistence_models. exact Hdir.
Qed.

End Models.

(** Lines 335-349.  With [--model_save_dir] a run saves one model file
    for every record it writes, in the same order, at the path the record
    holds under [MODEL_SAVE_PATH]: the one lines 336-339 build from the
    directory and the name of the record's file. *)
Theorem every_record_has_its_model `{Collaborators} (c : Cli.cli) (cf : config)
    (d : data_module) (p : Params) (r : Rng) (h : gmap string pyval) (dir : string)
    (Hdir : Cli.model_save_dir c = Some dir) :
  List.filter is_save_model (log (snd (script c cf d (initial_state p r h))))
  = map (model_saved dir)
        (List.filter is_save_json (log (snd (script c cf d (initial_state p r h)))))
  /\ Forall (names_its_model dir) (log (snd (script c cf d (initial_state p r h)))).
Proof.
  pose proof (models_script_keeps c cf d dir Hdir (initial_state p r h)
                (conj eq_refl (Forall_nil_2 _))) as Hrun.
  destruct (script c cf d (initial_state p r h)) as [[u|e] st']; exact Hrun.
Qed.

Lemma every_record_has_its_model_witness :
  Cli.model_save_dir (Cli.mkCli "run.json" (Some "models") false false) = Some "models"
  /\ List.filter is_save_model
       (log (snd (@script Toy.deterministic (Cli.mkCli "run.json" (Some "models") false false)
                    (Toy.configuration (PList [PInt 1; PInt 2]) false 3)
                    Toy.three_batches Toy.start)))
     = [EvSaveModel "models/run.json.pth"; EvSaveModel "models/run.json.pth"].
Proof.
  split; [reflexivity|].
  rewrite (proj1 (@every_record_has_its_model Toy.deterministic
                    (Cli.mkCli "run.json" (Some "models") false false)
                    (Toy.configuration (PList [PInt 1; PInt 2]) false 3)
                    Toy.three_batches 0 0 ∅ "models" eq_refl)).
  reflexivity.
Defined.

Section Removal.
Context `{Collaborators}.

Lemma file_ops_snoc (l : list event) (ev : event) :
  file_ops (l ++ [ev]) = (file_ops l ++ (if is_file_op ev then [ev] else []))%list.
Proof. unfold file_ops. rewrite List.filter_app. reflexivity. Qed.

Lemma removal_stable_step (c : Cli.cli) :
  stable_step (removal_inv c) (fun ev => negb (is_file_op ev)).
Proof.
  split; [intros r st HI; exact HI|].
  intros ev st Hev HI. apply negb_true_iff in Hev. unfold removal_inv in *. cbn.
  rewrite file_ops_snoc, Hev, app_nil_r. exact HI.
Qed.

Lemma removal_stable_loop (c : Cli.cli) : stable_loop (removal_inv c).
Proof. split; intros ? st HI; exact HI. Qed.

Lemma removal_stable_stopper (c : Cli.cli) : stable_stopper (removal_inv c).
Proof.
  split; try (intros ? st HI; exact HI).
  intros v stop st HI. apply (step_log _ _ (removal_stable_step c)); [reflexivity|exact HI].
Qed.

Lemma removal_stable_eval (c : Cli.cli) : stable_eval (removal_inv c) (fun _ => true).
Proof. split; [intros k v st _ HI; exact HI|intros p st HI; exact HI]. Qed.

Lemma removal_stable_grids (c : Cli.cli) : stable_grids (removal_inv c).
Proof. split; intros ? st HI; exact HI. Qed.

Lemma removes_first_app (c : Cli.cli) (ops new : list event) :
  ops <> [] -> removes_first c ops ->
  forallb (fun ev => negb (is_remove ev)) new = true ->
  removes_first c (ops ++ new).
Proof.
  destruct ops as [|first rest]; [congruence|]. intros _ [Hrest Hfirst] Hnew.
  cbn. split; [rewrite forallb_app, Hrest, Hnew; reflexivity|exact Hfirst].
Qed.

Lemma persistence_removal (E : env) :
  keeps (removal_inv (args E)) (persistence E).
Proof.
  intros st [Hfirst Hops]. unfold removal_inv. unfold_stage. run_all.
  all: rewrite ?file_ops_snoc; cbn [is_file_op is_remove is_save_model is_save_json orb];
    rewrite ?app_nil_r, <- ?app_assoc; cbn [app].
  all: split; [intros Hd; first [discriminate Hd|congruence|exact (Hfirst Hd)]|].
  all: try exact Hops.
  all: try (rewrite (Hfirst eq_refl); cbn;
            split; [reflexivity|];
            intros Hr; first [discriminate Hr|split; [reflexivity|assumption]]).
  all: destruct (file_ops (log st)) as [|first rest] eqn:Hl;
    [ cbn; split; [reflexivity|intros Hr; discriminate Hr]
    | apply removes_first_app; [discriminate|exact Hops|reflexivity] ].
Qed.

Lemma removal_script_keeps (c : Cli.cli) (cf : config) (d : data_module) :
  hoare (fun st => file_ops (log st) = []) (script c cf d)
        (fun _ => removal_inv c) (fun _ => removal_inv c).
Proof.
  assert (HP : forall l ev, negb (is_file_op ev) = true -> file_ops l = [] ->
                 file_ops (l ++ [ev])%list = []).
  { intros l ev Hev Hl. apply negb_true_iff in Hev. rewrite file_ops_snoc, Hl, Hev. reflexivity. }
  apply (script_keeps_from (removal_inv c) (fun st => file_ops (log st) = [])).
  - intros st Hl. unfold removal_inv. rewrite Hl. split; [reflexivity|exact Logic.I].
  - apply (probe_keeps _ _ (log_stable_step (fun l => file_ops l = []) _ HP)). reflexivity.
  - intros flag. apply (initial_frames_keeps _ _ (log_stable_step (fun l => file_ops l = []) _ HP)
                          (log_stable_loop _)).
  - intros st Hl. unfold removal_inv. change (log (reset st)) with (log st). rewrite Hl.
    split; [reflexivity|exact Logic.I].
  - intros s st HI. exact HI.
  - intros flag n.
    apply (checkpoint_body_keeps_stable _ (fun _ => true) _ (removal_stable_step c)
             (removal_stable_loop c) (removal_stable_eval c) (removal_stable_grids c)
             (removal_stable_stopper c)).
    + intros mc k e. repeat split.
    + intros ev mc Hev. destruct ev; cbn in *; congruence.
    + apply forallb_any.
    + apply forallb_any.
    + apply (persistence_removal (mkEnv cf d c flag)).
Qed.

End Removal.

(** Lines 326-330.  Among the file operations of a run (removals, model
    saves, record writes) only the first can be a removal, and it is then
    the removal of the hyperparameter file under [--overwrite_json]: no
    file is removed once something has been written. *)
Theorem only_the_input_file_is_removed_first `{Collaborators} (c : Cli.cli) (cf : config)
    (d : data_module) (p : Params) (r : Rng) (h : gmap string pyval) :
  removes_first c (file_ops (log (snd (script c cf d (initial_state p r h))))).
Proof.
  pose proof (removal_script_keeps c cf d (initial_state p r h) eq_refl) as Hrun.
  destruct (script c cf d (initial_state p r h)) as [[u|e] st']; exact (proj2 Hrun).
Qed.

End FileFacts.

(** ** Which checkpoints are evaluated and saved *)

Module ScheduleFacts.
Import TrainNN Rules TrainingFacts StageFacts EvaluationFacts RunFacts DispatchFacts Frame FrameFacts Files FileFacts Schedule.

Section Prelude.
Context `{Collaborators}.

(** A run of the script either raises before the checkpoint loop, having
    logged at most the probe, or is the checkpoint loop on the validated
    list, started in a state that is [ready]. *)
Lemma script_prelude (c : Cli.cli) (cf : config) (d : data_module) (st : state) :
  (exists e st', script c cf d st = (Raised e, st')
                 /\ (log st' = log st \/ exists flag, log st' = (log st ++ [EvProbe flag])%list))
  \/ (exists flag l st1,
        CHECKPOINTS (N_EPOCHS cf) = Ok l
        /\ ready cf st flag st1
        /\ script c cf d st = checkpoint_loop (mkEnv cf d c flag) l st1).
Proof.
  unfold script, probe, initial_frames, plot, capture, emit, lift, bind, get, modify, ret, raise.
  cbn [data cfg dropout].
  repeat (run_step; cbn [fst snd log]).
  all: try (left; eexists _, _; split; [reflexivity|]; cbn; first [left; reflexivity|right; eexists; reflexivity]).
  all: right; eexists _, _, _; split; [reflexivity|]; split; [|reflexivity].
  all: unfold ready; cbn; repeat split; try reflexivity.
  all: try (match goal with H : EARLY_STOPPING _ = _ |- _ => rewrite H end; reflexivity).
Qed.

End Prelude.

Section Evaluated.
Context `{Collaborators}.

Lemma evaluated_app (l l' : list event) :
  evaluated (l ++ l') = (evaluated l ++ evaluated l')%list.
Proof.
  induction l as [|ev l IH]; [reflexivity|]. destruct ev; cbn; rewrite ?IH; reflexivity.
Qed.

Lemma evaluated_snoc (l : list event) (ev : event) :
  is_metrics ev = false -> evaluated (l ++ [ev]) = evaluated l.
Proof.
  intros Hev. rewrite evaluated_app. destruct ev; try discriminate Hev; apply app_nil_r.
Qed.

Lemma records_snoc (l : list event) (ev : event) :
  is_save_json ev = false -> records (l ++ [ev]) = records l.
Proof.
  intros Hev. unfold records. rewrite List.filter_app, length_app. cbn. rewrite Hev. cbn. lia.
Qed.


Lemma counted_snoc (P : list Z -> nat -> Prop) (l : list event) (ev : event) :
  negb (is_metrics ev || is_save_json ev) = true ->
  P (evaluated l) (records l) -> P (evaluated (l ++ [ev])) (records (l ++ [ev])).
Proof.
  intros Hev HP. apply negb_true_iff, orb_false_elim in Hev as [H1 H2].
  rewrite evaluated_snoc, records_snoc by assumption. exact HP.
Qed.

End Evaluated.

Section Body.
Context `{Collaborators}.

Lemma checkpoint_body_skips (E : env) (n_epochs : Z) (st : state) :
  decided_to_stop_early st = true -> checkpoint_body E n_epochs st = (Normal tt, st).
Proof. intros Hd. unfold checkpoint_body, bind, get. rewrite Hd. reflexivity. Qed.

Lemma checkpoints_skip (E : env) (ns : list Z) (st : state) :
  decided_to_stop_early st = true -> for_each (checkpoint_body E) ns st = (Normal tt, st).
Proof.
  intros Hd. induction ns as [|n ns IH]; [reflexivity|].
  cbn [for_each]. unfold bind. rewrite (checkpoint_body_skips E n st Hd). exact IH.
Qed.

(** A checkpoint entered with the flag unset trains, evaluates and
    saves. *)
Lemma checkpoint_body_runs (P I1 J J' : state -> Prop) (R : exn -> state -> Prop)
    (E : env) (n_epochs : Z) :
  hoare P (train_block E n_epochs) (fun _ => I1) R ->
  hoare I1 (evaluation E n_epochs) (fun _ => J) R ->
  hoare J (persistence E) (fun _ => J') R ->
  hoare (fun st => P st /\ decided_to_stop_early st = false) (checkpoint_body E n_epochs)
        (fun _ => J') R.
Proof.
  intros Ht He Hp. unfold checkpoint_body.
  apply (hoare_bind _ _ _ (fun a st => a = st /\ P st /\ decided_to_stop_early st = false)).
  { apply hoare_get. auto. }
  intros st0. destruct (decided_to_stop_early st0) eqn:Hd.
  { apply hoare_ret. intros st (-> & _ & Hf). congruence. }
  apply (hoare_bind _ _ _ (fun _ => I1)).
  { eapply hoare_conseq; [exact Ht| |auto|auto]. intros st (_ & HP & _). exact HP. }
  intros u. apply (hoare_bind _ _ _ (fun _ => J)); [exact He|intros u']. exact Hp.
Qed.

(** The persistence keeps a property of the log that none of its events
    can break. *)
Lemma persistence_keeps_log (P : list event -> Prop) (V : event -> bool) (E : env) :
  (forall l ev, V ev = true -> P l -> P (l ++ [ev])%list) ->
  (forall ev, persistence_event ev = true -> V ev = true) ->
  keeps (fun st => P (log st)) (persistence E).
Proof.
  intros HP HV. unfold persistence, emit, assign.
  repeat keeps_step; try assumption.
  all: cbn; apply HP; [apply HV; reflexivity|assumption].
Qed.

(** The training keeps a property of the log that none of its events can
    break. *)
Lemma train_block_keeps_log (P : list event -> Prop) (V : event -> bool) (E : env)
    (n_epochs : Z) :
  (forall l ev, V ev = true -> P l -> P (l ++ [ev])%list) ->
  (forall ev mc, loop_event mc ev = true -> V ev = true) ->
  keeps (fun st => P (log st)) (train_block E n_epochs).
Proof.
  intros HP HV.
  apply (train_block_keeps _ V (log_stable_step P V HP) (log_stable_loop P)).
  - intros mc n e. repeat split; apply (HV _ mc); cbn; try reflexivity. apply eqb_reflx.
  - intros _. apply (log_stable_stopper P V HP). intros v s. apply (HV _ true). reflexivity.
Qed.

(** The evaluation that returns has started the metrics of its boundary
    once; when it raises it has started them once or not at all. *)
Lemma evaluation_counts (P Q : list Z -> nat -> Prop) (E : env) (n_epochs : Z) :
  (forall k c, P k c -> Q (k ++ [n_epochs])%list c) ->
  hoare (counted P) (evaluation E n_epochs) (fun _ => counted Q)
        (fun _ st => counted P st \/ counted Q st).
Proof.
  intros HPQ.
  apply (evaluation_steps (counted P) (counted Q)
           (fun ev => negb (is_metrics ev || is_save_json ev)) (fun _ => true)).
  - apply (log_stable_step (fun l => P (evaluated l) (records l))). apply counted_snoc.
  - apply (log_stable_eval (fun l => P (evaluated l) (records l))).
  - apply (log_stable_grids (fun l => P (evaluated l) (records l))).
  - apply (log_stable_step (fun l => Q (evaluated l) (records l))). apply counted_snoc.
  - apply (log_stable_eval (fun l => Q (evaluated l) (records l))).
  - reflexivity.
  - reflexivity.
  - apply forallb_any.
  - apply forallb_any.
  - intros st HP. unfold counted, set_log. cbn [log].
    rewrite evaluated_app, records_snoc by reflexivity. cbn [evaluated]. apply HPQ, HP.
Qed.

Lemma train_block_counts (P : list Z -> nat -> Prop) (E : env) (n_epochs : Z) :
  keeps (counted P) (train_block E n_epochs).
Proof.
  apply (train_block_keeps_log (fun l => P (evaluated l) (records l))
           (fun ev => negb (is_metrics ev || is_save_json ev))).
  - apply counted_snoc.
  - intros ev mc Hev. destruct ev; cbn in *; congruence.
Qed.

(** The persistence writes one record, unless the file name starts with
    [demo]. *)
Lemma persistence_counts (P Q : list Z -> nat -> Prop) (E : env) :
  (forall k c, P k c ->
     Q k (if startswith (Cli.input_json_filename (args E)) "demo" then c else S c)) ->
  hoare (counted P) (persistence E) (fun _ => counted Q) (fun _ _ => False).
Proof.
  intros HPQ st HP. unfold counted in *. specialize (HPQ _ _ HP).
  unfold_stage. run_all.
  all: rewrite ?evaluated_app, ?app_nil_r; cbn [evaluated app]; rewrite ?app_nil_r.
  all: unfold records in *; rewrite ?List.filter_app, ?length_app; cbn; rewrite ?Nat.add_0_r.
  all: try exact HPQ.
  all: replace (List.length (List.filter is_save_json (log st)) + 1)%nat
         with (S (List.length (List.filter is_save_json (log st)))) by lia; exact HPQ.
Qed.

End Body.

Section Loop.
Context `{Collaborators}.

(** A checkpoint entered with the flag unset: the boundaries evaluated
    grow by this one when it returns, by this one or by none when it
    raises. *)
Lemma checkpoint_body_evaluates (E : env) (n_epochs : Z) (pre : list Z) :
  hoare (fun st => evaluated (log st) = pre /\ decided_to_stop_early st = false)
        (checkpoint_body E n_epochs)
        (fun _ st => evaluated (log st) = (pre ++ [n_epochs])%list)
        (fun _ st => evaluated (log st) = pre
                     \/ evaluated (log st) = (pre ++ [n_epochs])%list).
Proof.
  apply (checkpoint_body_runs (counted (fun k _ => k = pre)) (counted (fun k _ => k = pre))
           (counted (fun k _ => k = (pre ++ [n_epochs])%list))
           (counted (fun k _ => k = (pre ++ [n_epochs])%list))).
  - eapply hoare_conseq; [apply (train_block_counts (fun k _ => k = pre))|auto|auto|].
    intros e st HI. left. exact HI.
  - eapply hoare_conseq;
      [apply (evaluation_counts (fun k _ => k = pre)
                (fun k _ => k = (pre ++ [n_epochs])%list))|auto|auto|auto].
    intros k c ->. reflexivity.
  - eapply hoare_conseq;
      [apply (persistence_counts (fun k _ => k = (pre ++ [n_epochs])%list)
                (fun k _ => k = (pre ++ [n_epochs])%list))
      |auto|auto|intros e st []].
    intros k c ->. reflexivity.
Qed.

Lemma checkpoints_evaluate_prefix (E : env) (ns : list Z) :
  forall st, exists k,
    evaluated (log (snd (for_each (checkpoint_body E) ns st))) = (evaluated (log st) ++ k)%list
    /\ k `prefix_of` ns.
Proof.
  induction ns as [|n ns IH]; intros st.
  { exists []. cbn. rewrite app_nil_r. split; [reflexivity|apply prefix_nil]. }
  cbn [for_each]. unfold bind.
  destruct (decided_to_stop_early st) eqn:Hd.
  { rewrite (checkpoint_body_skips E n st Hd), (checkpoints_skip E ns st Hd).
    exists []. cbn. rewrite app_nil_r. split; [reflexivity|apply prefix_nil]. }
  pose proof (checkpoint_body_evaluates E n (evaluated (log st)) st (conj eq_refl Hd)) as Hb.
  destruct (checkpoint_body E n st) as [[[]|e] st1].
  - destruct (IH st1) as (k & Hk & Hpre). exists (n :: k). rewrite Hk, Hb, <- app_assoc.
    split; [reflexivity|]. apply prefix_cons, Hpre.
  - cbn [snd]. destruct Hb as [Hb|Hb]; rewrite Hb.
    + exists []. rewrite app_nil_r. split; [reflexivity|apply prefix_nil].
    + exists [n]. split; [reflexivity|]. apply prefix_cons, prefix_nil.
Qed.




End Loop.

(** Lines 224-225 and 273-318.  The boundaries a run evaluates are, in
    order, a prefix of the validated checkpoint list: no boundary is
    evaluated twice, out of order or after one that was left out; when
    the list is rejected none is. *)
Theorem evaluates_a_prefix_of_the_checkpoints `{Collaborators} (c : Cli.cli) (cf : config)
    (d : data_module) (p : Params) (r : Rng) (h : gmap string pyval) :
  match CHECKPOINTS (N_EPOCHS cf) with
  | Ok l => evaluated (log (snd (script c cf d (initial_state p r h))))
            `prefix_of` map int_value l
  | Raise _ => evaluated (log (snd (script c cf d (initial_state p r h)))) = []
  end.
Proof.
  destruct (script_prelude c cf d (initial_state p r h))
    as [(e & st' & Hrun & Hlog)|(flag & l & st1 & Hl & Hready & Hrun)].
  - rewrite Hrun. cbn [snd].
    assert (Hnil : evaluated (log st') = []).
    { destruct Hlog as [->|[flag ->]]; reflexivity. }
    rewrite Hnil. destruct (CHECKPOINTS (N_EPOCHS cf)); [apply prefix_nil|reflexivity].
  - rewrite Hl, Hrun. unfold checkpoint_loop.
    destruct (checkpoints_evaluate_prefix (mkEnv cf d c flag) (map int_value l) st1)
      as (k & Hk & Hpre).
    rewrite Hk. destruct Hready as (-> & _). cbn. exact Hpre.
Qed.



End ScheduleFacts.

(** ** Early stopping and the checkpoint it fires in *)

Module StopFacts.
Import TrainNN Rules TrainingFacts StageFacts EvaluationFacts RunFacts DispatchFacts Frame FrameFacts Files FileFacts Schedule ScheduleFacts.

Section Stop.
Context `{Collaborators}.

Lemma stop_counted_snoc (P : list Z -> nat -> Prop) (ev : event) (st : state) :
  negb (is_metrics ev || is_save_json ev || is_stopper ev) = true ->
  stop_counted P st -> stop_counted P (set_log (log st ++ [ev]) st).
Proof.
  intros Hev HI Hd. destruct (HI Hd) as [Hs HP].
  apply negb_true_iff, orb_false_elim in Hev as [Hev H3].
  apply orb_false_elim in Hev as [H1 H2].
  unfold set_log. cbn [log]. rewrite existsb_app, Hs. split; [reflexivity|].
  rewrite after_stop_app_some by exact Hs.
  rewrite evaluated_snoc, records_snoc by assumption. exact HP.
Qed.

Lemma stop_counted_stable_step (P : list Z -> nat -> Prop) :
  stable_step (stop_counted P) (fun ev => negb (is_metrics ev || is_save_json ev || is_stopper ev)).
Proof. split; [intros r st HI; exact HI|]. intros ev st. apply stop_counted_snoc. Qed.

Lemma stop_counted_stable_eval (P : list Z -> nat -> Prop) :
  stable_eval (stop_counted P) (fun _ => true).
Proof. split; [intros k v st _ HI; exact HI|intros p st HI; exact HI]. Qed.

Lemma stop_counted_stable_grids (P : list Z -> nat -> Prop) : stable_grids (stop_counted P).
Proof. split; intros ? st HI; exact HI. Qed.

(** After the training of a checkpoint that was entered with the flag
    unset, nothing has been evaluated or written since the stop signal,
    if there was one. *)
Lemma train_block_stops (E : env) (n_epochs : Z) :
  hoare (fun st => aligned st /\ existsb is_stop (log st) = false
                   /\ decided_to_stop_early st = false)
        (train_block E n_epochs)
        (fun _ => stop_counted (fun k c => k = [] /\ c = O))
        (fun _ _ => True).
Proof.
  intros st (Hal & Hns & Hd).
  assert (Htr : training_inv (loop_event (dropout E)) (log st) st).
  { split; [exact Hal|]. split; [|apply grew_refl]. unfold flag_inv. rewrite Hd. exact Hns. }
  pose proof (train_block_inv E n_epochs (loop_event (dropout E)) (log st)
                (fun ev Hev => Hev) st Htr) as Hrun.
  destruct (train_block E n_epochs st) as [[u|e] st']; [|exact Logic.I].
  destruct Hrun as (_ & Hfl & _). intros Hd'. unfold flag_inv in Hfl. rewrite Hd' in Hfl.
  destruct Hfl as [Hs Hep]. split; [exact Hs|].
  induction (after_stop (log st')) as [|ev l IH]; [split; reflexivity|].
  cbn in Hep. apply andb_prop in Hep as [Hev Hl]. destruct ev; try discriminate Hev.
  apply IH, Hl.
Qed.

Lemma evaluation_stops (P Q : list Z -> nat -> Prop) (E : env) (n_epochs : Z) :
  (forall k c, P k c -> Q (k ++ [n_epochs])%list c) ->
  hoare (stop_counted P) (evaluation E n_epochs) (fun _ => stop_counted Q) (fun _ _ => True).
Proof.
  intros HPQ. eapply hoare_conseq;
    [ apply (evaluation_steps (stop_counted P) (stop_counted Q)
               (fun ev => negb (is_metrics ev || is_save_json ev || is_stopper ev))
               (fun _ => true)
               (stop_counted_stable_step P) (stop_counted_stable_eval P)
               (stop_counted_stable_grids P)
               (stop_counted_stable_step Q) (stop_counted_stable_eval Q))
    | auto | auto | auto ]; try reflexivity; try apply forallb_any.
  - intros st HI Hd. destruct (HI Hd) as [Hs HP]. unfold set_log. cbn [log].
    rewrite existsb_app, Hs. split; [reflexivity|].
    rewrite after_stop_app_some by exact Hs.
    rewrite evaluated_app, records_snoc by reflexivity. cbn [evaluated]. apply HPQ, HP.
Qed.

Lemma persistence_stops (P Q : list Z -> nat -> Prop) (E : env) :
  (forall k c, P k c ->
     Q k (if startswith (Cli.input_json_filename (args E)) "demo" then c else S c)) ->
  hoare (stop_counted P) (persistence E) (fun _ => stop_counted Q) (fun _ _ => False).
Proof.
  intros HPQ st HI. unfold_stage. run_all.
  all: intros Hd; destruct (HI Hd) as [Hs HP]; specialize (HPQ _ _ HP).
  all: cbn [log set_log set_hyperparameters set_first_round];
    rewrite ?existsb_app, Hs; split; [reflexivity|].
  all: rewrite ?after_stop_app_some by (rewrite ?existsb_app, Hs; reflexivity).
  all: rewrite ?evaluated_app, ?app_nil_r; cbn [evaluated app]; rewrite ?app_nil_r.
  all: unfold records in *; rewrite ?List.filter_app, ?length_app; cbn; rewrite ?Nat.add_0_r.
  all: try exact HPQ.
  all: match goal with
       | |- context [(?n + 1)%nat] => replace (n + 1)%nat with (S n) by lia
       end; exact HPQ.
Qed.

(** A checkpoint entered with the flag unset that returns with the flag
    set has evaluated its boundary after the stop signal, and written
    its record. *)
Lemma checkpoint_body_stops (E : env) (n_epochs : Z) :
  hoare (fun st => (aligned st /\ existsb is_stop (log st) = false
                    /\ decided_to_stop_early st = false)
                   /\ decided_to_stop_early st = false)
        (checkpoint_body E n_epochs)
        (fun _ => stop_counted (fun k c =>
           k = [n_epochs]
           /\ c = if startswith (Cli.input_json_filename (args E)) "demo" then O else 1%nat))
        (fun _ _ => True).
Proof.
  apply (checkpoint_body_runs _ (stop_counted (fun k c => k = [] /\ c = O))
           (stop_counted (fun k c => k = [n_epochs] /\ c = O))).
  - apply train_block_stops.
  - apply evaluation_stops. intros k c [-> ->]. split; reflexivity.
  - eapply hoare_conseq;
      [apply (persistence_stops (fun k c => k = [n_epochs] /\ c = O)
                (fun k c => k = [n_epochs]
                   /\ c = if startswith (Cli.input_json_filename (args E)) "demo"
                          then O else 1%nat))
      |auto|auto|intros e st Hf; destruct Hf].
    intros k c [-> ->]. split; reflexivity.
Qed.

Lemma checkpoints_stop (E : env) (ns : list Z) (l0 : list event) :
  forall st st',
    run_inv (run_event (dropout E)) l0 st ->
    decided_to_stop_early st = false ->
    for_each (checkpoint_body E) ns st = (Normal tt, st') ->
    exists n_epochs,
      stop_counted (fun k c =>
        k = [n_epochs]
        /\ c = if startswith (Cli.input_json_filename (args E)) "demo" then O else 1%nat) st'.
Proof.
  induction ns as [|n ns IH]; intros st st' Hinv Hd Hrun.
  { cbn in Hrun. injection Hrun as <-. exists 0. intros Hd'. congruence. }
  cbn [for_each] in Hrun. unfold bind in Hrun.
  pose proof (checkpoint_body_inv E n (run_event (dropout E)) l0 (fun ev Hev => Hev) st Hinv)
    as Hinv1.
  assert (Hpre : (aligned st /\ existsb is_stop (log st) = false
                  /\ decided_to_stop_early st = false)
                 /\ decided_to_stop_early st = false).
  { destruct Hinv as (Hal & Hfl & _). unfold flag_inv in Hfl. rewrite Hd in Hfl. auto. }
  pose proof (checkpoint_body_stops E n st Hpre) as Hb.
  destruct (checkpoint_body E n st) as [[[]|e] st1]; [|discriminate Hrun].
  destruct (decided_to_stop_early st1) eqn:Hd1.
  - rewrite (checkpoints_skip E ns st1 Hd1) in Hrun. injection Hrun as <-.
    exists n. exact Hb.
  - apply (IH st1 st' Hinv1 Hd1 Hrun).
Qed.

End Stop.

(** Lines 224-225, 262-265 and 273-349.  When a run returns with the
    stop-early flag set, exactly one boundary was evaluated after the
    stop signal and, unless the name of the hyperparameter file starts
    with [demo], exactly one record was written after it: the checkpoint
    in which early stopping fired is still evaluated and saved, the later
    ones are not. *)
Theorem stopped_checkpoint_is_evaluated_and_saved `{Collaborators} (c : Cli.cli) (cf : config)
    (d : data_module) (p : Params) (r : Rng) (h : gmap string pyval)
    (Hrun : fst (script c cf d (initial_state p r h)) = Normal tt)
    (Hstop : decided_to_stop_early (snd (script c cf d (initial_state p r h))) = true) :
  existsb is_stop (log (snd (script c cf d (initial_state p r h)))) = true
  /\ List.length (evaluated (after_stop (log (snd (script c cf d (initial_state p r h)))))) = 1%nat
  /\ records (after_stop (log (snd (script c cf d (initial_state p r h)))))
     = if startswith (Cli.input_json_filename c) "demo" then O else 1%nat.
Proof.
  destruct (script_prelude c cf d (initial_state p r h))
    as [(e & st' & Hraise & _)|(flag & l & st1 & Hl & Hready & Hloop)].
  { rewrite Hraise in Hrun. discriminate Hrun. }
  rewrite Hloop in *. unfold checkpoint_loop in *.
  destruct (for_each (checkpoint_body (mkEnv cf d c flag)) (map int_value l) st1)
    as [[[]|e] st'] eqn:Hfor; [|discriminate Hrun].
  destruct Hready as (Hlog & Hd & _ & _ & Htc & Hvc & _).
  assert (Hinv : run_inv (run_event flag) [EvProbe flag] st1).
  { split; [unfold aligned; rewrite Htc, Hvc; reflexivity|]. split.
    - unfold flag_inv. rewrite Hd, Hlog. reflexivity.
    - split; [exists []; rewrite Hlog; split; reflexivity|].
      rewrite Hlog. constructor; [exact Logic.I|constructor]. }
  destruct (checkpoints_stop (mkEnv cf d c flag) (map int_value l) [EvProbe flag] st1 st'
              Hinv Hd Hfor) as (n & Hn).
  cbn [snd] in *. destruct (Hn Hstop) as (Hs & Hk & Hc).
  split; [exact Hs|]. rewrite Hk. split; [reflexivity|exact Hc].
Qed.

Lemma stopped_checkpoint_is_evaluated_and_saved_witness :
  fst (@script Toy.stochastic Toy.command_line
         (Toy.configuration (PList [PInt 20; PInt 30]) true 3) Toy.three_batches
         (@initial_state Toy.stochastic 0 0 ∅)) = Normal tt
  /\ decided_to_stop_early
       (snd (@script Toy.stochastic Toy.command_line
               (Toy.configuration (PList [PInt 20; PInt 30]) true 3) Toy.three_batches
               (@initial_state Toy.stochastic 0 0 ∅))) = true
  /\ List.length
       (evaluated
          (after_stop
             (log (snd (@script Toy.stochastic Toy.command_line
                          (Toy.configuration (PList [PInt 20; PInt 30]) true 3)
                          Toy.three_batches (@initial_state Toy.stochastic 0 0 ∅))))))
     = 1%nat.
Proof.
  assert (Hrun : fst (@script Toy.stochastic Toy.command_line
                        (Toy.configuration (PList [PInt 20; PInt 30]) true 3) Toy.three_batches
                        (@initial_state Toy.stochastic 0 0 ∅)) = Normal tt)
    by (vm_compute; reflexivity).
  assert (Hd : decided_to_stop_early
                 (snd (@script Toy.stochastic Toy.command_line
                         (Toy.configuration (PList [PInt 20; PInt 30]) true 3)
                         Toy.three_batches (@initial_state Toy.stochastic 0 0 ∅))) = true)
    by (vm_compute; reflexivity).
  exact (conj Hrun (conj Hd
           (proj1 (proj2 (@stopped_checkpoint_is_evaluated_and_saved Toy.stochastic
                            Toy.command_line
                            (Toy.configuration (PList [PInt 20; PInt 30]) true 3)
                            Toy.three_batches 0 0 ∅ Hrun Hd))))).
Defined.

End StopFacts.

(** ** The counter of the progress bar and the recorded epochs *)

Module ProgressFacts.
Import TrainNN Rules TrainingFacts StageFacts EvaluationFacts RunFacts DispatchFacts Frame FrameFacts Files FileFacts Schedule ScheduleFacts Progress.

Section Counter.
Context `{Collaborators}.

(** A mini-batch step that returns has advanced the progress bar by
    one. *)
Lemma batch_step_advances (E : env) (b : Tensor * Tensor) (st st' : state) (stop : bool) :
  batch_step E b st = (Normal stop, st') -> pbar_n st' = pbar_n st + 1.
Proof.
  destruct b as [X y]. unfold_statements.
  run_all; intros [= <- <-]; reflexivity.
Qed.

Lemma batches_advance (E : env) (bs : list (Tensor * Tensor)) :
  forall st st',
    decided_to_stop_early st = false ->
    for_each_break (batch_step E) bs st = (Normal tt, st') ->
    decided_to_stop_early st' = false ->
    pbar_n st' = pbar_n st + Z.of_nat (List.length bs).
Proof.
  induction bs as [|b bs IH]; intros st st' Hd Hrun Hd'.
  { cbn in Hrun. injection Hrun as <-. cbn. lia. }
  cbn [for_each_break] in Hrun. unfold bind in Hrun.
  destruct (batch_step E b st) as [[stop|e] st1] eqn:Hb; [|discriminate Hrun].
  pose proof (batch_step_advances E b st st1 stop Hb) as Hn.
  pose proof (batch_step_break_iff E b st st1 stop Hd Hb) as Hf.
  destruct stop.
  - cbn in Hrun. injection Hrun as <-. congruence.
  - rewrite (IH st1 st' Hf Hrun Hd'), Hn. cbn [List.length]. lia.
Qed.

Lemma epoch_body_advances (E : env) (n_epochs : Z) (e : nat) (st st' : state) :
  epoch_body E n_epochs e st = (Normal tt, st') ->
  decided_to_stop_early st' = false ->
  decided_to_stop_early st = false /\ pbar_n st' = pbar_n st + n_batches E.
Proof.
  unfold epoch_body, emit, bind, modify, get. cbn [fst snd].
  destruct (decided_to_stop_early st) eqn:Hd.
  - cbn. rewrite Hd. cbn. intros [= <-] Hd'. cbn in Hd'. congruence.
  - cbn. rewrite Hd. intros Hrun Hd'. split; [reflexivity|].
    apply batches_advance in Hrun; [|exact Hd|exact Hd'].
    rewrite Hrun. reflexivity.
Qed.

Lemma epochs_advance (E : env) (n_epochs : Z) (l : list nat) :
  forall st st',
    for_each (epoch_body E n_epochs) l st = (Normal tt, st') ->
    decided_to_stop_early st' = false ->
    pbar_n st' = pbar_n st + Z.of_nat (List.length l) * n_batches E.
Proof.
  induction l as [|e l IH]; intros st st' Hrun Hd'.
  { cbn in Hrun. injection Hrun as <-. cbn. lia. }
  cbn [for_each] in Hrun. unfold bind in Hrun.
  destruct (epoch_body E n_epochs e st) as [[[]|e'] st1] eqn:Hb; [|discriminate Hrun].
  destruct (decided_to_stop_early st1) eqn:Hd1.
  { rewrite (epoch_loop_idles E n_epochs l st1 Hd1) in Hrun. injection Hrun as <-.
    cbn in Hd'. congruence. }
  destruct (epoch_body_advances E n_epochs e st st1 Hb Hd1) as [_ Hn].
  rewrite (IH st1 st' Hrun Hd'), Hn. cbn [List.length]. lia.
Qed.

End Counter.

Lemma train_block_counter `{Collaborators} (E : env) (n_epochs : Z) (st st' : state) :
  train_block E n_epochs st = (Normal tt, st') ->
  decided_to_stop_early st' = false ->
  pbar_n st' = counter_after E n_epochs st.
Proof.
  intros Hrun Hflag.
  unfold train_block, bind, get, modify in Hrun. cbn [fst snd] in Hrun.
  destruct (for_each (epoch_body E n_epochs) _ _) as [[[]|e] st1] eqn:Hloop;
    [|discriminate Hrun].
  injection Hrun as <-. cbn in Hflag.
  apply epochs_advance in Hloop; [|exact Hflag].
  rewrite length_seq in Hloop. cbn in Hloop. cbn. exact Hloop.
Qed.

(** Lines 227-266.  When the training to a boundary returns with the
    stop-early flag unset, every mini-batch of every epoch of the
    boundary has advanced the progress bar by one from [last_checkpoint],
    where line 227 starts it: [pbar.n] is [last_checkpoint] (a number of
    epochs) plus the number of mini-batch steps of this boundary. *)
Theorem progress_bar_counts_from_last_checkpoint `{Collaborators} (E : env) (n_epochs : Z)
    (st st' : state)
    (Hrun : train_block E n_epochs st = (Normal tt, st'))
    (Hflag : decided_to_stop_early st' = false) :
  pbar_n st' = counter_after E n_epochs st
  /\ (last_checkpoint st <= n_epochs ->
      pbar_n st' = last_checkpoint st + (n_epochs - last_checkpoint st) * n_batches E).
Proof.
  pose proof (train_block_counter E n_epochs st st' Hrun Hflag) as Hn.
  split; [exact Hn|]. intros Hle. rewrite Hn. unfold counter_after, range_len.
  rewrite Z2Nat.id by lia. reflexivity.
Qed.

Lemma progress_bar_counts_from_last_checkpoint_witness :
  @train_block Toy.deterministic (Toy.plain (PInt 2)) 2
    (set_last_checkpoint 1 (@initial_state Toy.deterministic 0 0 ∅))
  = (Normal tt, snd (@train_block Toy.deterministic (Toy.plain (PInt 2)) 2
                       (set_last_checkpoint 1 (@initial_state Toy.deterministic 0 0 ∅))))
  /\ decided_to_stop_early
       (snd (@train_block Toy.deterministic (Toy.plain (PInt 2)) 2
               (set_last_checkpoint 1 (@initial_state Toy.deterministic 0 0 ∅)))) = false
  /\ pbar_n (snd (@train_block Toy.deterministic (Toy.plain (PInt 2)) 2
                    (set_last_checkpoint 1 (@initial_state Toy.deterministic 0 0 ∅)))) = 4.
Proof.
  assert (Hrun : @train_block Toy.deterministic (Toy.plain (PInt 2)) 2
                   (set_last_checkpoint 1 (@initial_state Toy.deterministic 0 0 ∅))
                 = (Normal tt, snd (@train_block Toy.deterministic (Toy.plain (PInt 2)) 2
                                      (set_last_checkpoint 1
                                         (@initial_state Toy.deterministic 0 0 ∅)))))
    by (vm_compute; reflexivity).
  assert (Hflag : decided_to_stop_early
                    (snd (@train_block Toy.deterministic (Toy.plain (PInt 2)) 2
                            (set_last_checkpoint 1 (@initial_state Toy.deterministic 0 0 ∅))))
                  = false) by (vm_compute; reflexivity).
  exact (conj Hrun (conj Hflag
           (proj1 (@progress_bar_counts_from_last_checkpoint Toy.deterministic
                     (Toy.plain (PInt 2)) 2 _ _ Hrun Hflag)))).
Defined.


Section Recorded.
Context `{Collaborators}.


Lemma epochs_recorded_kept (E : env) (k : Z) (st : state) :
  epochs_recorded E k st <->
  hyperparameters st !! "n_epochs"
  = ({["n_epochs" := PFloat (inject_Z k / inject_Z (n_batches E))]} : gmap string pyval)
      !! "n_epochs".
Proof. unfold epochs_recorded. rewrite lookup_singleton_eq. reflexivity. Qed.

Lemma metrics_record_epochs (E : env) (n_epochs k : Z) :
  hoare (fun st => pbar_n st = k) (metrics E n_epochs)
        (fun _ => epochs_recorded E k) (fun _ _ => True).
Proof.
  pose proof (stable_kept_key "n_epochs"
                {["n_epochs" := PFloat (inject_Z k / inject_Z (n_batches E))]}) as HS.
  assert (Hgrid : forall q show,
             keeps (fun st => hyperparameters st !! "n_epochs"
                              = ({["n_epochs" := PFloat (inject_Z k / inject_Z (n_batches E))]}
                                   : gmap string pyval) !! "n_epochs")
                   (try_except (grid_metrics E q show) is_NameError (ret tt))).
  { intros q show. apply (grid_metrics_keeps _ _ _ HS). destruct q; reflexivity. }
  unfold metrics, emit, assign.
  apply (hoare_bind _ _ _ (fun _ st => pbar_n st = k)); [apply hoare_modify; auto|intros u].
  apply (hoare_bind _ _ _ (fun a st => pbar_n a = k)); [apply hoare_get; auto|intros st0].
  apply (hoare_bind _ _ _ (fun _ st => pbar_n st0 = k /\ epochs_recorded E k st)).
  { destruct (Z.of_nat (List.length (dataloader (data E))) =? 0);
      [apply hoare_raise; auto|].
    apply hoare_modify. intros st Hk. split; [exact Hk|]. unfold epochs_recorded, n_batches.
    cbn. rewrite Hk. apply lookup_insert_eq. }
  intros u1. eapply hoare_conseq;
    [|intros st [_ Hr]; apply (proj1 (epochs_recorded_kept E k st) Hr)
     |intros a st Hr; apply (proj2 (epochs_recorded_kept E k st) Hr)
     |intros e st _; exact Logic.I].
  repeat (lazymatch goal with
          | |- hoare _ (distributional_metrics _) _ _ =>
              apply (distributional_metrics_keeps _ _ _ HS); reflexivity
          | |- hoare _ (point_metrics _) _ _ =>
              apply (point_metrics_keeps _ _ _ HS); reflexivity
          | |- hoare _ (uncertainty_metrics _ ?x) _ _ =>
              destruct x; apply (uncertainty_metrics_keeps _ _ _ HS);
              first [reflexivity|apply Hgrid]
          | _ => keeps_step
          end).
  all: try (apply (stable_record _ _ _ HS); [reflexivity|assumption]).
Qed.

Lemma evaluation_records_epochs (E : env) (n_epochs k : Z) :
  hoare (fun st => pbar_n st = k) (evaluation E n_epochs)
        (fun _ => epochs_recorded E k) (fun _ _ => True).
Proof.
  assert (HS : stable_step (fun st => pbar_n st = k) (fun _ => true))
    by (split; intros; assumption).
  assert (HG : stable_grids (fun st => pbar_n st = k)) by (split; intros; assumption).
  unfold evaluation.
  apply (hoare_bind _ _ _ (fun _ st => pbar_n st = k)).
  { eapply hoare_conseq;
      [apply (predict_keeps_step _ (fun _ => true) HS)|auto|auto|auto].
    reflexivity. }
  intros p. apply (hoare_bind _ _ _ (fun _ st => pbar_n st = k)).
  { apply hoare_modify. auto. }
  intros u. apply (hoare_bind _ _ _ (fun _ st => pbar_n st = k)).
  { eapply hoare_conseq;
      [apply (grid_block_keeps_step _ (fun _ => true) HS HG)|auto|auto|auto];
      reflexivity. }
  intros u'. apply metrics_record_epochs.
Qed.

Lemma persistence_keeps_epochs (E : env) (k : Z) :
  keeps (epochs_recorded E k) (persistence E).
Proof.
  eapply hoare_conseq;
    [apply (persistence_keeps _ _ _
              (stable_kept_key "n_epochs"
                 {["n_epochs" := PFloat (inject_Z k / inject_Z (n_batches E))]}) E)
    |intros st Hr; apply (proj1 (epochs_recorded_kept E k st) Hr)
    |intros a st Hr; apply (proj2 (epochs_recorded_kept E k st) Hr)
    |intros e st Hr; apply (proj2 (epochs_recorded_kept E k st) Hr)];
    reflexivity.
Qed.

(** The evaluation and the persistence leave the flag as it is. *)
Lemma stage_keeps_flag (E : env) (n_epochs : Z) (b : bool) :
  keeps (fun st => decided_to_stop_early st = b) (evaluation E n_epochs ;;; persistence E).
Proof.
  assert (HS : stable_step (fun st => decided_to_stop_early st = b) (fun _ => true))
    by (split; intros; assumption).
  assert (HE : stable_eval (fun st => decided_to_stop_early st = b) (fun _ => true))
    by (split; intros; assumption).
  assert (HG : stable_grids (fun st => decided_to_stop_early st = b))
    by (split; intros; assumption).
  apply keeps_bind.
  - apply (evaluation_keeps_all _ _ _ HS HE HG); [reflexivity|apply forallb_any..].
  - intros u. unfold persistence, emit, assign. repeat keeps_step; assumption.
Qed.

End Recorded.

(** Lines 227-288.  A checkpoint that is entered and left with the
    stop-early flag unset records under [n_epochs] the counter of the
    progress bar over the number of batches, that is
    [(last_checkpoint + epochs * batches) / batches]: the boundary itself
    at the first checkpoint, where [last_checkpoint] is 0, and
    [last_checkpoint / batches] plus the epochs of this boundary at a
    later one. *)
Theorem checkpoint_records_counter_over_batches `{Collaborators} (E : env) (n_epochs : Z)
    (st st' : state)
    (Hentry : decided_to_stop_early st = false)
    (Hrun : checkpoint_body E n_epochs st = (Normal tt, st'))
    (Hflag : decided_to_stop_early st' = false) :
  exists q,
    hyperparameters st' !! "n_epochs" = Some (PFloat q)
    /\ q = (inject_Z (counter_after E n_epochs st) / inject_Z (n_batches E))%Q
    /\ (last_checkpoint st = 0 -> 0 <= n_epochs -> n_batches E <> 0 ->
        (q == inject_Z n_epochs)%Q).
Proof.
  unfold checkpoint_body, bind, get in Hrun. cbn [fst snd] in Hrun. rewrite Hentry in Hrun.
  destruct (train_block E n_epochs st) as [[[]|e] st1] eqn:Htrain; [|discriminate Hrun].
  assert (Hstage : (evaluation E n_epochs ;;; persistence E) st1 = (Normal tt, st'))
    by (unfold bind; exact Hrun).
  assert (Hd1 : decided_to_stop_early st1 = false).
  { destruct (decided_to_stop_early st1) eqn:Hd1; [|reflexivity].
    pose proof (stage_keeps_flag E n_epochs true st1 Hd1) as Hk. rewrite Hstage in Hk.
    congruence. }
  pose proof (train_block_counter E n_epochs st st1 Htrain Hd1) as Hn.
  pose proof (evaluation_records_epochs E n_epochs _ st1 Hn) as Hev.
  destruct (evaluation E n_epochs st1) as [[[]|e] st2]; [|discriminate Hrun].
  pose proof (persistence_keeps_epochs E _ st2 Hev) as Hp. rewrite Hrun in Hp.
  eexists. split; [exact Hp|]. split; [reflexivity|].
  intros Hl Hn0 Hb. unfold counter_after, range_len. rewrite Hl, Z.sub_0_r, Z2Nat.id by lia.
  unfold Qeq, Qdiv, Qmult, Qinv, inject_Z. cbn [Qnum Qden].
  destruct (n_batches E) as [|b|b] eqn:Hnb; [congruence| |]; cbn; nia.
Qed.

Lemma checkpoint_records_counter_over_batches_witness :
  decided_to_stop_early (set_last_checkpoint 1 (@initial_state Toy.deterministic 0 0 ∅)) = false
  /\ exists q,
       hyperparameters
         (snd (@checkpoint_body Toy.deterministic (Toy.plain (PInt 2)) 2
                 (set_last_checkpoint 1 (@initial_state Toy.deterministic 0 0 ∅))))
         !! "n_epochs" = Some (PFloat q)
       /\ q = (inject_Z 4 / inject_Z 3)%Q.
Proof.
  assert (Hrun : @checkpoint_body Toy.deterministic (Toy.plain (PInt 2)) 2
                   (set_last_checkpoint 1 (@initial_state Toy.deterministic 0 0 ∅))
                 = (Normal tt, snd (@checkpoint_body Toy.deterministic (Toy.plain (PInt 2)) 2
                                      (set_last_checkpoint 1
                                         (@initial_state Toy.deterministic 0 0 ∅)))))
    by (vm_compute; reflexivity).
  assert (Hflag : decided_to_stop_early
                    (snd (@checkpoint_body Toy.deterministic (Toy.plain (PInt 2)) 2
                            (set_last_checkpoint 1 (@initial_state Toy.deterministic 0 0 ∅))))
                  = false) by (vm_compute; reflexivity).
  split; [reflexivity|].
  destruct (@checkpoint_records_counter_over_batches Toy.deterministic (Toy.plain (PInt 2)) 2
              (set_last_checkpoint 1 (@initial_state Toy.deterministic 0 0 ∅)) _
              eq_refl Hrun Hflag) as (q & Hq & Heq & _).
  exists q. split; [exact Hq|exact Heq].
Defined.

End ProgressFacts.

(** ** The command line: the suffix of the file name and the two flags *)

Module CommandLineFacts.
Import Cli CommandLine.








Lemma same_but_flags_refl (ns : namespace) : same_but_flags ns ns.
Proof. repeat split; auto. Qed.





End CommandLineFacts.

(** ** The Monte-Carlo loss *)

Module LossFacts.
Import TrainNN Rules Losses.

Section MonteCarlo.
Context `{Collaborators}.





End MonteCarlo.





End LossFacts.

(** ** What the early stopper is called on *)

Module WindowFacts.
Import TrainNN Rules Losses.

Lemma slice_from_neg_window {A : Type} (l : list A) (k : Z) :
  0 <= k -> slice_from_neg l k = window l k.
Proof.
  intros Hk. unfold window. destruct (Z.eqb_spec k 0) as [->|Hne].
  - unfold slice_from_neg. cbn. destruct l; reflexivity.
  - apply slice_from_neg_last. lia.
Qed.

(** Lines 259-263.  A diagnostic block that returns with early stopping
    on has appended one loss to the validation curve and called the
    stopper on the mean of [val_loss_curve[-STRIDE:]]; for a positive
    [STRIDE] that is the mean of the last [STRIDE] validation losses (of
    all of them while there are fewer), for [STRIDE = 0] the mean of the
    whole curve.  The answer of the stopper is the flag, and the answer
    of the block. *)
Theorem stopper_sees_the_mean_of_the_window `{Collaborators} (E : env) (loss : Q)
    (st st' : state) (stop : bool)
    (Hes : EARLY_STOPPING (cfg E) = true)
    (Hstride : 0 <= STRIDE (cfg E))
    (Hrun : diagnostic E loss st = (Normal stop, st')) :
  exists v value s,
    val_loss_curve st' = (val_loss_curve st ++ [v])%list
    /\ avg (window (val_loss_curve st') (STRIDE (cfg E))) = Ok value
    /\ early_stopper st = Some s
    /\ stop = fst (stopper_call s value)
    /\ decided_to_stop_early st' = stop
    /\ last (log st') = Some (EvStopper value stop).
Proof.
  revert Hrun. unfold_statements. rewrite Hes. run_all.
  all: intros [= <- <-].
  all: cbn [val_loss_curve early_stopper decided_to_stop_early log].
  all: match goal with
       | Ha : avg (slice_from_neg _ _) = Ok ?m, Hc : stopper_call ?s ?m = _ |- _ =>
           rewrite slice_from_neg_window in Ha by exact Hstride;
           eexists _, m, s; rewrite Hc; cbn [fst];
           repeat split; try reflexivity; try exact Ha; try apply last_snoc
       end.
Qed.

Lemma stopper_sees_the_mean_of_the_window_witness :
  EARLY_STOPPING (cfg Toy.early_stopping) = true
  /\ 0 <= STRIDE (cfg Toy.early_stopping)
  /\ exists v value s,
       val_loss_curve
         (snd (@diagnostic Toy.stochastic Toy.early_stopping 1%Q
                 (@set_early_stopper Toy.stochastic
                    (Some (EarlyStopperSpec.init 0%Q 2))
                    (@initial_state Toy.stochastic 0 0 ∅))))
       = ([] ++ [v])%list
       /\ avg (window
                 (val_loss_curve
                    (snd (@diagnostic Toy.stochastic Toy.early_stopping 1%Q
                            (@set_early_stopper Toy.stochastic
                               (Some (EarlyStopperSpec.init 0%Q 2))
                               (@initial_state Toy.stochastic 0 0 ∅)))))
                 (STRIDE (cfg Toy.early_stopping))) = Ok value
       /\ Some (EarlyStopperSpec.init 0%Q 2) = Some s.
Proof.
  assert (Hrun : @diagnostic Toy.stochastic Toy.early_stopping 1%Q
                   (@set_early_stopper Toy.stochastic
                      (Some (EarlyStopperSpec.init 0%Q 2))
                      (@initial_state Toy.stochastic 0 0 ∅))
                 = (Normal false,
                    snd (@diagnostic Toy.stochastic Toy.early_stopping 1%Q
                           (@set_early_stopper Toy.stochastic
                              (Some (EarlyStopperSpec.init 0%Q 2))
                              (@initial_state Toy.stochastic 0 0 ∅)))))
    by (vm_compute; reflexivity).
  assert (Hs : 0 <= STRIDE (cfg Toy.early_stopping)) by (vm_compute; discriminate).
  destruct (@stopper_sees_the_mean_of_the_window Toy.stochastic Toy.early_stopping 1%Q
              _ _ false eq_refl Hs Hrun) as (v & value & s & Hv & Ha & Hstop & _).
  exact (conj eq_refl (conj Hs (ex_intro _ v (ex_intro _ value (ex_intro _ s
           (conj Hv (conj Ha Hstop))))))).
Defined.

End WindowFacts.

(** ** Predictions and the grid metrics *)

Module MetricsFacts.
Import TrainNN Rules Metrics.

Section Predict.
Context `{Collaborators}.

Lemma stack_forward_length (k : nat) (p : Params) (points : Tensor) :
  forall r, List.length (fst (stack_forward k p r points)) = k.
Proof.
  induction k as [|k IH]; intros r; [reflexivity|].
  cbn. destruct (forward p r points) as [t r1]. specialize (IH r1).
  destruct (stack_forward k p r1 points) as [ts r2]. cbn in *. rewrite IH. reflexivity.
Qed.

End Predict.

(** Line 274.  On the stochastic path the prediction is the stack of
    [N_POSTERIOR_SAMPLES_EVALUATION] forward passes, and with no sample
    to stack it raises; on the deterministic path it is one forward
    pass. *)
Theorem predict_stacks_the_posterior_samples `{Collaborators} (E : env) (points : Tensor)
    (st : state) :
  if dropout E
  then if 0 <? N_POSTERIOR_SAMPLES_EVALUATION (cfg E)
       then exists ts,
           fst (predict E points st) = Normal (Samples ts)
           /\ List.length ts = Z.to_nat (N_POSTERIOR_SAMPLES_EVALUATION (cfg E))
           /\ ts = fst (stack_forward (Z.to_nat (N_POSTERIOR_SAMPLES_EVALUATION (cfg E)))
                          (nn st) (rng st) points)
       else exists e, fst (predict E points st) = Raised e
  else fst (predict E points st) = Normal (Point (fst (forward (nn st) (rng st) points))).
Proof.
  unfold predict, emit, bind, get, modify, ret, raise. cbn [fst snd nn rng].
  destruct (dropout E).
  - pose proof (stack_forward_length (range_len (N_POSTERIOR_SAMPLES_EVALUATION (cfg E)))
                  (nn st) points (rng st)) as Hlen.
    unfold range_len in *.
    cbn [nn rng set_log].
    destruct (stack_forward _ (nn st) (rng st) points) as [ts r'] eqn:Hs. cbn [fst] in Hlen.
    destruct (Z.ltb_spec 0 (N_POSTERIOR_SAMPLES_EVALUATION (cfg E))) as [Hpos|Hneg].
    + destruct ts as [|t ts]; [cbn in Hlen; lia|].
      eexists. cbn. split; [reflexivity|]. split; [exact Hlen|reflexivity].
    + destruct ts as [|t ts]; [eexists; reflexivity|]. cbn in Hlen. lia.
  - cbn [nn rng set_log]. destruct (forward (nn st) (rng st) points) as [t r']. reflexivity.
Qed.

(** Lines 307-308.  The two lines store the correlation of the
    uncertainty with the proximity under one and the same key: when the
    grids and the predictions on them are bound, the metrics that need
    them run to their end (the metric functions are collaborators, which
    return), and the record they leave holds the correlation on the
    interpolary grid; the one on the extrapolary grid is stored under no
    key. *)
Theorem proximity_correlation_is_overwritten `{Collaborators} (E : env)
    (use_quantiles show : bool) (st : state) (pe pi : prediction) (ge gi : Tensor)
    (Hpe : predictions_on_extrapolary_grid st = Some pe)
    (Hge : extrapolary_grid st = Some ge)
    (Hpi : predictions_on_interpolary_grid st = Some pi)
    (Hgi : interpolary_grid st = Some gi) :
  fst (grid_metrics E use_quantiles show st) = Normal tt
  /\ hyperparameters (snd (grid_metrics E use_quantiles show st))
     = with_grid_metrics (tag_of use_quantiles)
         (fst (uncertainty_vs_proximity pe use_quantiles ge (x_train (data E)) show
                 "Uncertainty vs Proximity to Data Outside the Region of Interpolation"
                 (SHOW_DIAGNOSTICS (cfg E))))
         (fst (uncertainty_vs_proximity pi use_quantiles gi (x_train (data E)) show
                 "Uncertainty vs Proximity to Data Within the Region of Interpolation"
                 (SHOW_DIAGNOSTICS (cfg E))))
         (snd (uncertainty_vs_proximity pi use_quantiles gi (x_train (data E)) show
                 "Uncertainty vs Proximity to Data Within the Region of Interpolation"
                 (SHOW_DIAGNOSTICS (cfg E))))
         (uncertainty_spread pe use_quantiles)
         (uncertainty_spread pi use_quantiles)
         (hyperparameters st).
Proof.
  unfold grid_metrics, name, assign, bind, get, modify, ret, raise.
  repeat (cbn [fst snd predictions_on_extrapolary_grid extrapolary_grid
               predictions_on_interpolary_grid interpolary_grid set_hyperparameters
               hyperparameters];
          rewrite ?Hpe, ?Hge, ?Hpi, ?Hgi;
          try match goal with
              | |- context [uncertainty_vs_proximity ?a ?b ?c ?d ?e ?f ?g] =>
                  lazymatch goal with
                  | |- context [let '(_, _) := uncertainty_vs_proximity a b c d e f g in _] =>
                      destruct (uncertainty_vs_proximity a b c d e f g) eqn:?
                  end
              end).
  cbn [fst snd hyperparameters]. split; [reflexivity|].
  unfold with_grid_metrics. do 2 f_equal.
  rewrite (insert_insert_ne _ ("METRIC_uncertainty_vs_proximity_cor_" ++ tag_of use_quantiles)
             ("METRIC_interpolation_uncertainty_vs_proximity_slope_" ++ tag_of use_quantiles))
    by (destruct use_quantiles; discriminate).
  rewrite insert_insert_eq.
  rewrite (insert_insert_ne _ ("METRIC_uncertainty_vs_proximity_cor_" ++ tag_of use_quantiles)
             ("METRIC_interpolation_uncertainty_vs_proximity_slope_" ++ tag_of use_quantiles))
    by (destruct use_quantiles; discriminate).
  reflexivity.
Qed.

Lemma proximity_correlation_is_overwritten_witness :
  hyperparameters
    (snd (@grid_metrics Toy.deterministic (Toy.plain (PInt 2)) true false
            (set_predictions_on_interpolary_grid (Some (Point [2%Q]))
       (set_predictions_on_extrapolary_grid (Some (Point [1%Q]))
          (set_interpolary_grid (Some [2%Q])
             (set_extrapolary_grid (Some [1%Q]) Toy.start))))))
  !! "METRIC_uncertainty_vs_proximity_cor_quantile"
  = Some (PFloat
            (snd (@uncertainty_vs_proximity Toy.deterministic (Point [2%Q]) true [2%Q]
                    (x_train (data (Toy.plain (PInt 2)))) false
                    "Uncertainty vs Proximity to Data Within the Region of Interpolation"
                    (SHOW_DIAGNOSTICS (cfg (Toy.plain (PInt 2))))))).
Proof.
  rewrite (proj2 (@proximity_correlation_is_overwritten Toy.deterministic
                    (Toy.plain (PInt 2)) true false
                    (set_predictions_on_interpolary_grid (Some (Point [2%Q]))
       (set_predictions_on_extrapolary_grid (Some (Point [1%Q]))
          (set_interpolary_grid (Some [2%Q])
             (set_extrapolary_grid (Some [1%Q]) Toy.start))))
                    (Point [1%Q]) (Point [2%Q]) [1%Q] [2%Q]
                    eq_refl eq_refl eq_refl eq_refl)).
  unfold with_grid_metrics.
  rewrite lookup_insert_ne by discriminate.
  rewrite lookup_insert_ne by discriminate.
  apply lookup_insert_eq.
Defined.

End MetricsFacts.

(** ** Runs that cannot take a second step *)

Module StepFacts.
Import TrainNN Rules TrainingFacts StageFacts EvaluationFacts RunFacts DispatchFacts Frame FrameFacts Steps.

Section Chain.
Context `{Collaborators}.
Variables (P : state -> Prop) (R : exn -> state -> Prop) (V : event -> bool).
Hypothesis HS : stable_step P V.
Hypothesis Hpbar : forall v st, P st -> P (set_pbar_n v st).
Hypothesis Hlast : forall v st, P st -> P (set_last_checkpoint v st).
Hypothesis HR : forall e st, P st -> R e st.

(** The training keeps [P], or raises into [R], when every mini-batch
    step does. *)
Lemma train_block_hoare (E : env) (n_epochs : Z) :
  (forall n e, V (EvEpoch n e) = true) ->
  (forall b, hoare P (batch_step E b) (fun _ => P) R) ->
  hoare P (train_block E n_epochs) (fun _ => P) R.
Proof.
  intros HV Hb. unfold train_block.
  apply (hoare_bind _ _ _ (fun _ => P)); [apply hoare_get; auto|intros st0].
  apply (hoare_bind _ _ _ (fun _ => P)).
  { apply hoare_modify. intros st HP. apply Hpbar, HP. }
  intros u. apply (hoare_bind _ _ _ (fun _ => P)).
  2:{ intros u'. apply hoare_modify. intros st HP. apply Hlast, HP. }
  apply hoare_for_each. intros e _. unfold epoch_body, emit.
  apply (hoare_bind _ _ _ (fun _ => P)).
  { apply hoare_modify. intros st HP. apply (step_log _ _ HS); [apply HV|exact HP]. }
  intros u1. apply (hoare_bind _ _ _ (fun _ => P)); [apply hoare_get; auto|intros st1].
  destruct (decided_to_stop_early st1); [apply hoare_ret; auto|].
  eapply hoare_conseq;
    [apply (hoare_for_each_break (batch_step E) (dataloader (data E)) P P R)|auto| |auto].
  - intros b _. eapply hoare_conseq; [apply (Hb b)|auto| |auto].
    intros [|] st HP; exact HP.
  - intros _ st [HP|HP]; exact HP.
Qed.

(** The same for the checkpoint loop, when the evaluation and the
    persistence keep [P]. *)
Lemma checkpoint_loop_hoare (E : env) (checkpoints : list pyval) :
  (forall n e, V (EvEpoch n e) = true) ->
  (forall b, hoare P (batch_step E b) (fun _ => P) R) ->
  (forall n, keeps P (evaluation E n)) ->
  keeps P (persistence E) ->
  hoare P (checkpoint_loop E checkpoints) (fun _ => P) R.
Proof.
  intros HV Hb He Hp. unfold checkpoint_loop. apply hoare_for_each. intros n _.
  unfold checkpoint_body.
  apply (hoare_bind _ _ _ (fun _ => P)); [apply hoare_get; auto|intros st0].
  destruct (decided_to_stop_early st0); [apply hoare_ret; auto|].
  apply (hoare_bind _ _ _ (fun _ => P)); [apply train_block_hoare; assumption|intros u].
  apply (hoare_bind _ _ _ (fun _ => P)).
  { eapply hoare_conseq; [apply (He n)|auto|auto|auto]. }
  intros u'. eapply hoare_conseq; [exact Hp|auto|auto|auto].
Qed.

End Chain.

Section Untrained.
Context `{Collaborators}.

Lemma steps_snoc (l : list event) (ev : event) :
  is_train_step ev = false -> steps (l ++ [ev]) = steps l.
Proof. intros Hev. unfold steps. rewrite List.filter_app. cbn. rewrite Hev. apply app_nil_r. Qed.

Lemma untrained_stable_step (st0 : state) :
  stable_step (untrained st0) (fun ev => negb (is_train_step ev)).
Proof.
  split; [intros r st HI; exact HI|].
  intros ev st Hev [Hn Hs]. apply negb_true_iff in Hev. split; [exact Hn|].
  cbn. rewrite steps_snoc by exact Hev. exact Hs.
Qed.

Lemma untrained_stable_eval (st0 : state) : stable_eval (untrained st0) (fun _ => true).
Proof. split; [intros k v st _ HI; exact HI|intros p st HI; exact HI]. Qed.

Lemma untrained_stable_grids (st0 : state) : stable_grids (untrained st0).
Proof. split; intros ? st HI; exact HI. Qed.

(** The evaluation and the persistence take no gradient step. *)
Lemma evaluation_keeps_untrained (E : env) (n_epochs : Z) (st0 : state) :
  keeps (untrained st0) (evaluation E n_epochs).
Proof.
  apply (evaluation_keeps_all _ _ _ (untrained_stable_step st0) (untrained_stable_eval st0)
           (untrained_stable_grids st0)).
  - intros ev mc Hev. destruct ev; cbn in *; congruence.
  - apply forallb_any.
  - apply forallb_any.
Qed.

Lemma persistence_keeps_untrained (E : env) (st0 : state) :
  keeps (untrained st0) (persistence E).
Proof.
  unfold persistence, emit, assign.
  repeat keeps_step;
    first [ assumption
          | apply (step_log _ _ (untrained_stable_step st0)); [reflexivity|assumption] ].
Qed.

(** Lines 239-245 with no sample: the loss is still the float [0.], and
    the step raises before the optimizer moves. *)
Lemma batch_step_without_samples (E : env) (b : Tensor * Tensor) (st : state) :
  dropout E = true -> N_MC_SAMPLES (cfg E) <= 0 ->
  batch_step E b st = (Raised AttributeError, st).
Proof.
  intros Hd Hn. destruct b as [X y]. unfold batch_step, bind, get, raise, ret.
  rewrite Hd. cbn [fst snd andb].
  assert (Hk : range_len (N_MC_SAMPLES (cfg E)) = O) by (unfold range_len; lia).
  rewrite Hk. cbn [mc_loss].
  destruct (Z.leb_spec (N_MC_SAMPLES (cfg E)) 0); [reflexivity|lia].
Qed.

End Untrained.

(** Lines 239-246.  On the stochastic path with [N_MC_SAMPLES <= 0] a
    mini-batch step raises [AttributeError] with every global as it was
    (the loss is the float [0.], which has no [backward]), so that the
    checkpoint loop, however it ends, leaves the weights as they were and
    logs no gradient step. *)
Theorem no_sample_no_gradient_step `{Collaborators} (E : env) (checkpoints : list pyval)
    (st : state) (Hd : dropout E = true) (Hn : N_MC_SAMPLES (cfg E) <= 0) :
  (forall b st1, batch_step E b st1 = (Raised AttributeError, st1))
  /\ nn (snd (checkpoint_loop E checkpoints st)) = nn st
  /\ steps (log (snd (checkpoint_loop E checkpoints st))) = steps (log st).
Proof.
  split; [intros b st1; apply batch_step_without_samples; assumption|].
  assert (Hrun : hoare (untrained st) (checkpoint_loop E checkpoints)
                   (fun _ => untrained st) (fun _ => untrained st)).
  { apply (checkpoint_loop_hoare (untrained st) (fun _ => untrained st)
             (fun ev => negb (is_train_step ev)) (untrained_stable_step st)).
    - intros v s HI. exact HI.
    - intros v s HI. exact HI.
    - auto.
    - reflexivity.
    - intros b s HI. rewrite (batch_step_without_samples E b s Hd Hn). exact HI.
    - intros n. apply evaluation_keeps_untrained.
    - apply persistence_keeps_untrained. }
  specialize (Hrun st (conj eq_refl eq_refl)).
  destruct (checkpoint_loop E checkpoints st) as [[u|e] st']; exact Hrun.
Qed.

Lemma no_sample_no_gradient_step_witness :
  dropout (Toy.environment (mkConfig (PInt 2) false 0%Q 2 30 0 false 3 24 true 2 false)
             Toy.three_batches true) = true
  /\ N_MC_SAMPLES (cfg (Toy.environment (mkConfig (PInt 2) false 0%Q 2 30 0 false 3 24 true 2 false)
                          Toy.three_batches true)) <= 0
  /\ nn (snd (@checkpoint_loop Toy.stochastic
                (Toy.environment (mkConfig (PInt 2) false 0%Q 2 30 0 false 3 24 true 2 false)
                   Toy.three_batches true)
                [PInt 2] (@initial_state Toy.stochastic 0 0 ∅)))
     = nn (@initial_state Toy.stochastic 0 0 ∅).
Proof.
  assert (Hn : N_MC_SAMPLES (cfg (Toy.environment
                                    (mkConfig (PInt 2) false 0%Q 2 30 0 false 3 24 true 2 false)
                                    Toy.three_batches true)) <= 0)
    by (vm_compute; discriminate).
  exact (conj eq_refl (conj Hn
           (proj1 (proj2 (@no_sample_no_gradient_step Toy.stochastic
                            (Toy.environment
                               (mkConfig (PInt 2) false 0%Q 2 30 0 false 3 24 true 2 false)
                               Toy.three_batches true)
                            [PInt 2] (@initial_state Toy.stochastic 0 0 ∅) eq_refl Hn))))).
Defined.


Section ZeroPeriod.
Context `{Collaborators}.

(** Line 250 with [HOW_OFTEN = 0]: the step has moved the optimizer and
    the progress bar when the remainder raises. *)
Lemma batch_step_zero_period (E : env) (b : Tensor * Tensor) (st0 : state) :
  HOW_OFTEN (cfg E) = 0 ->
  hoare (fun st => steps (log st) = steps (log st0)) (batch_step E b)
        (fun _ _ => False)
        (fun e st => steps (log st) = steps (log st0)
                     \/ failed_after_one_step (dropout E) st0 e st).
Proof.
  intros Hz st HP. destruct b as [X y]. unfold_statements. rewrite Hz.
  unfold py_mod. cbn [Z.eqb].
  run_all.
  all: first [ left; exact HP
             | right; split; [reflexivity|]; eexists; split; [reflexivity|exact HP] ].
Qed.

End ZeroPeriod.

(** Line 250.  With [HOW_OFTEN = 0] the checkpoint loop takes at most one
    gradient step: the first mini-batch raises [ZeroDivisionError] right
    after its optimizer step, which is then the last thing the run did;
    a loop that does not end so has taken no step at all. *)
Theorem zero_period_fails_after_one_step `{Collaborators} (E : env) (checkpoints : list pyval)
    (st : state) (Hz : HOW_OFTEN (cfg E) = 0) :
  steps (log (snd (checkpoint_loop E checkpoints st))) = steps (log st)
  \/ (fst (checkpoint_loop E checkpoints st) = Raised ZeroDivisionError
      /\ exists l,
           log (snd (checkpoint_loop E checkpoints st)) = (l ++ [EvTrainStep (dropout E)])%list
           /\ steps l = steps (log st)).
Proof.
  assert (HP : forall l ev, negb (is_train_step ev) = true ->
                 steps l = steps (log st) -> steps (l ++ [ev]) = steps (log st)).
  { intros l ev Hev Hl. apply negb_true_iff in Hev. rewrite steps_snoc by exact Hev. exact Hl. }
  assert (Hrun : hoare (fun s => steps (log s) = steps (log st)) (checkpoint_loop E checkpoints)
                   (fun _ s => steps (log s) = steps (log st))
                   (fun e s => steps (log s) = steps (log st)
                               \/ failed_after_one_step (dropout E) st e s)).
  { apply (checkpoint_loop_hoare (fun s => steps (log s) = steps (log st)) _
             (fun ev => negb (is_train_step ev))
             (log_stable_step (fun l => steps l = steps (log st)) _ HP)).
    - intros v s HI. exact HI.
    - intros v s HI. exact HI.
    - intros e s HI. left. exact HI.
    - reflexivity.
    - intros b. eapply hoare_conseq; [apply (batch_step_zero_period E b st Hz)|auto| |auto].
      intros a s Hf. destruct Hf.
    - intros n.
      apply (evaluation_keeps_all _ _ _
               (log_stable_step (fun l => steps l = steps (log st)) _ HP)
               (log_stable_eval (fun l => steps l = steps (log st)))
               (log_stable_grids (fun l => steps l = steps (log st)))).
      + intros ev mc Hev. destruct ev; cbn in *; congruence.
      + apply forallb_any.
      + apply forallb_any.
    - unfold persistence, emit, assign.
      repeat keeps_step; first [assumption|cbn; apply HP; [reflexivity|assumption]]. }
  specialize (Hrun st eq_refl).
  destruct (checkpoint_loop E checkpoints st) as [[u|e] st']; [left; exact Hrun|].
  destruct Hrun as [Hs|[-> Hl]]; [left; exact Hs|right; split; [reflexivity|exact Hl]].
Qed.

Lemma zero_period_fails_after_one_step_witness :
  HOW_OFTEN (cfg (Toy.environment (Toy.configuration (PInt 2) false 0) Toy.three_batches false))
  = 0
  /\ fst (@checkpoint_loop Toy.deterministic
            (Toy.environment (Toy.configuration (PInt 2) false 0) Toy.three_batches false)
            [PInt 2] (@initial_state Toy.deterministic 0 0 ∅)) = Raised ZeroDivisionError
  /\ nn (snd (@checkpoint_loop Toy.deterministic
                (Toy.environment (Toy.configuration (PInt 2) false 0) Toy.three_batches false)
                [PInt 2] (@initial_state Toy.deterministic 0 0 ∅))) = 1
  /\ (steps (log (snd (@checkpoint_loop Toy.deterministic
                         (Toy.environment (Toy.configuration (PInt 2) false 0)
                            Toy.three_batches false)
                         [PInt 2] (@initial_state Toy.deterministic 0 0 ∅))))
      = steps (log (@initial_state Toy.deterministic 0 0 ∅))
      \/ (fst (@checkpoint_loop Toy.deterministic
                 (Toy.environment (Toy.configuration (PInt 2) false 0) Toy.three_batches false)
                 [PInt 2] (@initial_state Toy.deterministic 0 0 ∅)) = Raised ZeroDivisionError
          /\ exists l,
               log (snd (@checkpoint_loop Toy.deterministic
                           (Toy.environment (Toy.configuration (PInt 2) false 0)
                              Toy.three_batches false)
                           [PInt 2] (@initial_state Toy.deterministic 0 0 ∅)))
               = (l ++ [EvTrainStep (dropout (Toy.environment
                                               (Toy.configuration (PInt 2) false 0)
                                               Toy.three_batches false))])%list
               /\ steps l = steps (log (@initial_state Toy.deterministic 0 0 ∅)))).
Proof.
  assert (Hr : fst (@checkpoint_loop Toy.deterministic
                      (Toy.environment (Toy.configuration (PInt 2) false 0)
                         Toy.three_batches false)
                      [PInt 2] (@initial_state Toy.deterministic 0 0 ∅))
               = Raised ZeroDivisionError) by (vm_compute; reflexivity).
  assert (Hn : nn (snd (@checkpoint_loop Toy.deterministic
                          (Toy.environment (Toy.configuration (PInt 2) false 0)
                             Toy.three_batches false)
                          [PInt 2] (@initial_state Toy.deterministic 0 0 ∅))) = 1)
    by (vm_compute; reflexivity).
  exact (conj eq_refl (conj Hr (conj Hn
           (@zero_period_fails_after_one_step Toy.deterministic
              (Toy.environment (Toy.configuration (PInt 2) false 0) Toy.three_batches false)
              [PInt 2] (@initial_state Toy.deterministic 0 0 ∅) eq_refl)))).
Defined.

End StepFacts.

(** ** The frames of the gif *)

Module GifFacts.
Import TrainNN Rules TrainingFacts StageFacts EvaluationFacts RunFacts DispatchFacts Frame FrameFacts Steps StepFacts Gif.

Section Count.
Context `{Collaborators}.








End Count.



Section Grid.
Context `{Collaborators}.

(** Lines 137-140 and 193-196: the grid that line 138 failed to bind is
    read by the first plot. *)
Lemma script_without_grid (c : Cli.cli) (cf : config) (d : data_module) (st : state) :
  data_is_univariate d && MAKE_GIF cf = true ->
  data_grid d = None ->
  (exists e, fst (script c cf d st) = Raised e)
  /\ nn (snd (script c cf d st)) = nn st
  /\ (log (snd (script c cf d st)) = log st
      \/ (fst (script c cf d st) = Raised NameError
          /\ exists flag, log (snd (script c cf d st)) = (log st ++ [EvProbe flag])%list)).
Proof.
  intros Hgif Hnone.
  unfold script, probe, initial_frames, plot, capture, emit, lift, bind, get, modify, ret, raise.
  cbn [data cfg dropout]. rewrite Hgif, Hnone.
  run_all.
  all: split; [eexists; reflexivity|]; split; [reflexivity|].
  all: first [left; reflexivity|right; split; [reflexivity|eexists; reflexivity]].
Qed.

End Grid.

(** Lines 137-140, 177 and 193-196.  Line 138 swallows the error of a
    data module without [grid]; when the data is univariate and
    [MAKE_GIF] is on, the first plot then reads the unbound name: the
    script raises [NameError] right after the probe (unless the probe
    itself raised), before the checkpoint list is read, with the weights
    as they were. *)
Theorem missing_grid_stops_before_training `{Collaborators} (c : Cli.cli) (cf : config)
    (d : data_module) (p : Params) (r : Rng) (h : gmap string pyval)
    (Hgif : data_is_univariate d && MAKE_GIF cf = true)
    (Hnone : data_grid d = None) :
  (exists e, fst (script c cf d (initial_state p r h)) = Raised e)
  /\ nn (snd (script c cf d (initial_state p r h))) = p
  /\ (log (snd (script c cf d (initial_state p r h))) = []
      \/ (fst (script c cf d (initial_state p r h)) = Raised NameError
          /\ exists flag, log (snd (script c cf d (initial_state p r h))) = [EvProbe flag])).
Proof. exact (script_without_grid c cf d (initial_state p r h) Hgif Hnone). Qed.

Lemma missing_grid_stops_before_training_witness :
  data_is_univariate
    (mkData [([1%Q], [1%Q])] (Some [1%Q]) [1%Q] [1%Q] [1%Q] true None None None)
  && MAKE_GIF (mkConfig (PInt 2) false 0%Q 2 30 1 true 3 24 true 2 false) = true
  /\ fst (@script Toy.deterministic Toy.command_line
            (mkConfig (PInt 2) false 0%Q 2 30 1 true 3 24 true 2 false)
            (mkData [([1%Q], [1%Q])] (Some [1%Q]) [1%Q] [1%Q] [1%Q] true None None None)
            (@initial_state Toy.deterministic 0 0 ∅)) = Raised NameError
  /\ nn (snd (@script Toy.deterministic Toy.command_line
                (mkConfig (PInt 2) false 0%Q 2 30 1 true 3 24 true 2 false)
                (mkData [([1%Q], [1%Q])] (Some [1%Q]) [1%Q] [1%Q] [1%Q] true None None None)
                (@initial_state Toy.deterministic 0 0 ∅))) = 0.
Proof.
  assert (Hr : fst (@script Toy.deterministic Toy.command_line
            (mkConfig (PInt 2) false 0%Q 2 30 1 true 3 24 true 2 false)
            (mkData [([1%Q], [1%Q])] (Some [1%Q]) [1%Q] [1%Q] [1%Q] true None None None)
            (@initial_state Toy.deterministic 0 0 ∅)) = Raised NameError)
    by (vm_compute; reflexivity).
  exact (conj eq_refl (conj Hr
           (proj1 (proj2 (@missing_grid_stops_before_training Toy.deterministic
                            Toy.command_line
                            (mkConfig (PInt 2) false 0%Q 2 30 1 true 3 24 true 2 false)
                            (mkData [([1%Q], [1%Q])] (Some [1%Q]) [1%Q] [1%Q] [1%Q] true
                               None None None)
                            0 0 ∅ eq_refl eq_refl))))).
Defined.

End GifFacts.
